(** * MindSparkle Document Intelligence: extraction pipeline and canonical model

    A shallow embedding of [cloud-run/document-intelligence/main.py]:
    the format detector, the four extractors, the recognition cascade, the
    canonical model builder and the [/extract] orchestrator, followed by
    the properties of the specification that concern them.

    Modelling conventions.
    - A Python [str] is a [string]; its characters are the code points
      below 256, which is all the literals of the program need. [bytes]
      are lists of [Byte.byte].
    - A Python [float] is a primitive binary64 float, so that comparisons
      such as [confidence >= 0.7] behave as they do in the program.
    - Calls that leave the module (services, parsers, codecs) are answered
      by a [World]; every such call is recorded as an [Event], in order.
    - Exceptions are values of [exc]; [try ... except] is [try_except].
      Local variables that a function mutates (the block lists) live in
      the state of the monad [M], and survive an exception the way a
      Python list does. *)

From Stdlib Require Import List String Ascii Bool Arith ZArith Lia Sorted.
From Stdlib Require Import DecimalString.
From Stdlib Require Import Floats.PrimFloat Floats.SpecFloat Floats.FloatOps.
From Stdlib Require Import Floats.FloatAxioms.
From Stdlib Require Uint63.
Import ListNotations.

Set Warnings "-inexact-float".

Local Open Scope string_scope.
Local Open Scope list_scope.

(* ================================================================== *)
(** ** Python strings *)
(* ================================================================== *)

Module PyStr.

(** The line feed, [\n]. *)
Definition nl : string := String (ascii_of_nat 10) EmptyString.

(** [str.isspace] on one character (code points below 256). *)
Definition is_space (c : ascii) : bool :=
  let n := nat_of_ascii c in
  (((9 <=? n) && (n <=? 13)) || ((28 <=? n) && (n <=? 32))
   || (n =? 133) || (n =? 160))%nat.

Fixpoint lstrip (s : string) : string :=
  match s with
  | EmptyString => EmptyString
  | String c r => if is_space c then lstrip r else s
  end.

Fixpoint rstrip (s : string) : string :=
  match s with
  | EmptyString => EmptyString
  | String c r =>
      match rstrip r with
      | EmptyString => if is_space c then EmptyString else String c EmptyString
      | r' => String c r'
      end
  end.

(** [s.strip()] *)
Definition strip (s : string) : string := rstrip (lstrip s).

(** [str.lower] on one character: A-Z, and the Latin-1 capitals. *)
Definition lower_char (c : ascii) : ascii :=
  let n := nat_of_ascii c in
  if (((65 <=? n) && (n <=? 90))
      || ((192 <=? n) && (n <=? 222) && negb (n =? 215)))%nat
  then ascii_of_nat (n + 32) else c.

(** [s.lower()] *)
Fixpoint lower (s : string) : string :=
  match s with
  | EmptyString => EmptyString
  | String c r => String (lower_char c) (lower r)
  end.

(** [sub in s] *)
Fixpoint contains (sub s : string) : bool :=
  prefix sub s
  || match s with
     | EmptyString => false
     | String _ r => contains sub r
     end.

(** [s.split(sep)] for a one-character separator: never empty. *)
Fixpoint split_char (sep : ascii) (s : string) : list string :=
  match s with
  | EmptyString => [EmptyString]
  | String c r =>
      if Ascii.eqb c sep then EmptyString :: split_char sep r
      else match split_char sep r with
           | h :: t => String c h :: t
           | [] => [String c EmptyString]
           end
  end.

(** [s.split()]: the maximal runs of non-space characters. *)
Fixpoint split_ws_from (cur : string) (s : string) : list string :=
  match s with
  | EmptyString => match cur with EmptyString => [] | _ => [cur] end
  | String c r =>
      if is_space c
      then match cur with
           | EmptyString => split_ws_from EmptyString r
           | _ => cur :: split_ws_from EmptyString r
           end
      else split_ws_from (cur ++ String c EmptyString) r
  end.

Definition split (s : string) : list string := split_ws_from EmptyString s.

(** [sep.join(l)] *)
Definition join (sep : string) (l : list string) : string := String.concat sep l.

(** Truth value of a string: non-empty. *)
Definition truthy (s : string) : bool :=
  match s with EmptyString => false | _ => true end.

(** [s[a:b]] for non-negative [a] and [b]. *)
Definition slice (a b : nat) (s : string) : string := substring a (b - a) s.

(** [str(n)] for a natural number. *)
Definition of_nat (n : nat) : string := NilEmpty.string_of_uint (Nat.to_uint n).

End PyStr.

Definition bytes := list Byte.byte.

(** Truth value of an [Optional[str]]: neither [None] nor empty. *)
Definition opt_truthy (o : option string) : bool :=
  match o with Some s => PyStr.truthy s | None => false end.

(* ================================================================== *)
(** ** Data model *)
(* ================================================================== *)

(** A text block: [{'text', 'page', 'confidence', 'type'}]. *)
Module Block.
Record t := mk { text : string; page : nat; confidence : float; type : string }.
End Block.

(** A table: [{'rows', 'page', 'confidence'}]. *)
Module Table.
Record t := mk { rows : list (list string); page : nat; confidence : float }.
End Table.

(** The three shapes of dictionaries appended to [images]. *)
Inductive ImageArtifact :=
| PageThumbnail (page : nat) (data_url caption : string)
    (* {'page', 'type': 'page_thumbnail', 'data_url', 'caption'} *)
| SlideOcr (page : nat) (ocr_text : string)   (* {'page', 'ocr_text'} *)
| PartOcr (ocr_text : string).                (* {'ocr_text'} *)

(** The dictionary every extractor returns. *)
Module Result.
Record t := mk {
  method : string;
  confidence : float;
  text_blocks : list Block.t;
  tables : list Table.t;
  images : list ImageArtifact;
  page_count : nat;
  raw_text : string
}.
End Result.

(** [d.get(key, default)], for a key that may be missing. *)
Definition dict_get {A} (field : option A) (default : A) : A :=
  match field with Some v => v | None => default end.

(** A result dictionary as [build_canonical_model] reads it: with
    [dict.get], so that a key may be missing. *)
Module ResultDict.
Record t := mk {
  method : option string;
  confidence : option float;
  text_blocks : option (list Block.t);
  tables : option (list Table.t);
  images : option (list ImageArtifact);
  page_count : option nat;
  raw_text : option string
}.

Definition of_result (r : Result.t) : t :=
  {| method := Some (Result.method r);
     confidence := Some (Result.confidence r);
     text_blocks := Some (Result.text_blocks r);
     tables := Some (Result.tables r);
     images := Some (Result.images r);
     page_count := Some (Result.page_count r);
     raw_text := Some (Result.raw_text r) |}.
End ResultDict.

(** The canonical document, one record per nested dictionary. *)
Module Canonical.
Record Extraction := mkExtraction {
  method : string; confidence : float; timestamp : string }.
Record Structure := mkStructure {
  page_count : nat; tables : list Table.t; images : list ImageArtifact }.
Record Content := mkContent {
  text_blocks : list Block.t; full_text : string }.
Record Stats := mkStats {
  total_chars : nat; total_words : nat; total_blocks : nat;
  total_tables : nat; total_images : nat }.
Record t := mk {
  id : string;
  filename : string;
  file_type : string;
  file_size : nat;
  extraction : Extraction;
  structure : Structure;
  content : Content;
  stats : Stats
}.

(** The document with its [extraction.timestamp] replaced. *)
Definition with_timestamp (ts : string) (d : t) : t :=
  {| id := id d; filename := filename d; file_type := file_type d;
     file_size := file_size d;
     extraction := {| method := method (extraction d);
                      confidence := confidence (extraction d);
                      timestamp := ts |};
     structure := structure d; content := content d; stats := stats d |}.
End Canonical.

(* ================================================================== *)
(** ** Canonical model builder and format detector *)
(* ================================================================== *)

(** [build_canonical_model] (lines 750-782). [now] is what
    [time.strftime('%Y-%m-%dT%H:%M:%SZ')] returns at the call. *)
Definition build_canonical_model (result : ResultDict.t)
    (filename file_type : string) (file_size : nat) (request_id : string)
    (now : string) : Canonical.t :=
  let text_blocks := dict_get (ResultDict.text_blocks result) [] in
  let full_text := dict_get (ResultDict.raw_text result) "" in
  {| Canonical.id := request_id;
     Canonical.filename := filename;
     Canonical.file_type := file_type;
     Canonical.file_size := file_size;
     Canonical.extraction :=
       {| Canonical.method := dict_get (ResultDict.method result) "unknown";
          Canonical.confidence := dict_get (ResultDict.confidence result) 0%float;
          Canonical.timestamp := now |};
     Canonical.structure :=
       {| Canonical.page_count := dict_get (ResultDict.page_count result) 1;
          Canonical.tables := dict_get (ResultDict.tables result) [];
          Canonical.images := dict_get (ResultDict.images result) [] |};
     Canonical.content :=
       {| Canonical.text_blocks := text_blocks;
          Canonical.full_text := full_text |};
     Canonical.stats :=
       {| Canonical.total_chars := String.length full_text;
          Canonical.total_words := List.length (PyStr.split full_text);
          Canonical.total_blocks := List.length text_blocks;
          Canonical.total_tables :=
            List.length (dict_get (ResultDict.tables result) []);
          Canonical.total_images :=
            List.length (dict_get (ResultDict.images result) []) |} |}.

(** [x in l] for a list of string literals. *)
Definition str_in (x : string) (l : list string) : bool :=
  existsb (String.eqb x) l.

(** [filename.lower().split('.')[-1] if '.' in filename else ''] *)
Definition extension (filename : string) : string :=
  if PyStr.contains "." filename
  then List.last (PyStr.split_char "."%char (PyStr.lower filename)) ""
  else "".

(** [detect_file_type] (lines 788-804). *)
Definition detect_file_type (filename mimetype : string) : string :=
  let ext := extension filename in
  if (ext =? "pdf") || PyStr.contains "pdf" mimetype then "pdf"
  else if str_in ext ["pptx"; "ppt"] || PyStr.contains "presentation" mimetype
          || PyStr.contains "powerpoint" mimetype then "pptx"
  else if str_in ext ["docx"; "doc"] || PyStr.contains "word" mimetype
          || PyStr.contains "document" mimetype then "docx"
  else if (ext =? "txt") || PyStr.contains "text/plain" mimetype then "txt"
  else if str_in ext ["png"; "jpg"; "jpeg"; "webp"; "gif"] then "image"
  else "unknown".

(* ================================================================== *)
(** ** Effects: exceptions, mutable locals, recorded calls *)
(* ================================================================== *)

(** The outcome of a Python expression: a value, or a raised exception
    with its message [str(e)]. *)
Inductive exc (A : Type) : Type :=
| Ok (a : A)
| Raise (msg : string).
Arguments Ok {A} a.
Arguments Raise {A} msg.

(** A value, once the expression before it has not raised. *)
Definition exc_bind {A B} (r : exc A) (k : A -> exc B) : exc B :=
  match r with
  | Ok a => k a
  | Raise msg => Raise msg
  end.

(** The calls that leave the module. *)
Inductive Event :=
| EvDownload              (* requests.get(signed_url) *)
| EvDocumentAI            (* process_document *)
| EvFitzOpen              (* fitz.open *)
| EvThumbnail             (* get_pixmap and JPEG encoding of a thumbnail *)
| EvVision                (* text_detection *)
| EvGoogleAuth            (* google.auth.default and creds.refresh *)
| EvVertexGemini          (* requests.post to the Vertex endpoint *)
| EvOpenAI                (* requests.post to the OpenAI endpoint *)
| EvPresentation          (* Presentation(...) *)
| EvDocument              (* Document(...) *)
| EvDecode (encoding : string).   (* file_buffer.decode(encoding) *)

(** A computation over local variables [S]: from the locals and the
    calls made so far, to an outcome, the locals afterwards, and the
    calls it made. The locals are kept when it raises. *)
Definition M (S A : Type) : Type :=
  S -> list Event -> exc A * S * list Event.

Definition outcome {S A} (x : exc A * S * list Event) : exc A := fst (fst x).
Definition locals {S A} (x : exc A * S * list Event) : S := snd (fst x).
Definition calls {S A} (x : exc A * S * list Event) : list Event := snd x.

Section MonadOps.
Context {S : Type}.

Definition ret {A} (a : A) : M S A := fun s _ => (Ok a, s, []).

Definition raise {A} (msg : string) : M S A := fun s _ => (Raise msg, s, []).

Definition bind {A B} (m : M S A) (k : A -> M S B) : M S B :=
  fun s h =>
    match m s h with
    | (Ok a, s1, e1) =>
        match k a s1 (h ++ e1) with
        | (r, s2, e2) => (r, s2, e1 ++ e2)
        end
    | (Raise msg, s1, e1) => (Raise msg, s1, e1)
    end.

(** [try: m  except Exception as e: handler e] *)
Definition try_except {A} (m : M S A) (handler : string -> M S A) : M S A :=
  fun s h =>
    match m s h with
    | (Ok a, s1, e1) => (Ok a, s1, e1)
    | (Raise msg, s1, e1) =>
        match handler msg s1 (h ++ e1) with
        | (r, s2, e2) => (r, s2, e1 ++ e2)
        end
    end.

Definition get : M S S := fun s _ => (Ok s, s, []).

Definition modify (f : S -> S) : M S unit := fun s _ => (Ok tt, f s, []).

(** A call that leaves the module: answered from the calls so far. *)
Definition call {A} (ev : Event) (answer : list Event -> exc A) : M S A :=
  fun s h => (answer h, s, [ev]).

(** An operation on a value already in hand, which may still raise. *)
Definition lift_exc {A} (r : exc A) : M S A := fun s _ => (r, s, []).

(** A reading of the clock. *)
Definition read {A} (f : list Event -> A) : M S A := fun s h => (Ok (f h), s, []).

(** A function without locals of interest, called from one that has. *)
Definition lift {A} (m : M unit A) : M S A :=
  fun s h => match m tt h with (r, _, e) => (r, s, e) end.

(** A body run on fresh locals [init]; yields how it ended and the
    locals it left, and does not raise itself. *)
Definition scoped {T A} (init : T) (m : M T A) : M S (exc A * T) :=
  fun s h => match m init h with (r, t, e) => (Ok (r, t), s, e) end.
End MonadOps.

Declare Scope py_scope.
Delimit Scope py_scope with py.
Notation "x <- m ;; k" := (bind m (fun x => k))
  (at level 61, m at next level, right associativity) : py_scope.
Notation "m ;; k" := (bind m (fun _ => k))
  (at level 61, right associativity) : py_scope.
Local Open Scope py_scope.

(** [for x in l: body x] *)
Fixpoint for_each {S A} (l : list A) (body : A -> M S unit) : M S unit :=
  match l with
  | [] => ret tt
  | x :: r => body x ;; for_each r body
  end.

(** [for i, x in enumerate(l, start): body i x] *)
Fixpoint for_enumerate {S A} (start : nat) (l : list A)
    (body : nat -> A -> M S unit) : M S unit :=
  match l with
  | [] => ret tt
  | x :: r => body start x ;; for_enumerate (Datatypes.S start) r body
  end.

(** [if c: m] *)
Definition when {S} (c : bool) (m : M S unit) : M S unit :=
  if c then m else ret tt.

(* ================================================================== *)
(** ** Python floats *)
(* ================================================================== *)

(** Truth value of a float: anything but zero. *)
Definition float_truthy (x : float) : bool := negb (PrimFloat.eqb x 0%float).

(** [float(n)] *)
Definition float_of_nat (n : nat) : float :=
  PrimFloat.of_uint63 (Uint63.of_Z (Z.of_nat n)).

(** [float(z)], as the division of an integer by a float takes it,
    through the conversion of the 63-bit integers. Below 2^63 in
    absolute value this is the conversion of the interpreter, to the
    nearest float ([float_of_Z_nearest]); from 2^63 on the 63-bit
    integer wraps, and what depends on the value is stated below that
    bound only. *)
Definition float_of_Z (z : Z) : float :=
  if (z <? 0)%Z
  then PrimFloat.opp (PrimFloat.of_uint63 (Uint63.of_Z (- z)))
  else PrimFloat.of_uint63 (Uint63.of_Z z).

(** The integer [z] rounded to the nearest float, ties to even: what
    the interpreter's conversion gives for every integer within the
    range of the floats. *)
Definition nearest_float (z : Z) : float :=
  SF2Prim (binary_normalize prec emax z 0 false).

(** [a >= b] *)
Definition float_ge (a b : float) : bool := PrimFloat.leb b a.

(** [sum(l)], added left to right from 0. *)
Definition float_sum (l : list float) : float :=
  fold_left PrimFloat.add l 0%float.

(** [max(a, b)] and [min(a, b)]: the first argument unless the second
    is strictly better. *)
Definition py_max (a b : float) : float := if PrimFloat.ltb a b then b else a.
Definition py_min (a b : float) : float := if PrimFloat.ltb b a then b else a.

(* ================================================================== *)
(** ** What the libraries and services hand back *)
(* ================================================================== *)

(** A processed document of the Document AI client. *)
Module DocAI.
Record Segment := mkSegment { start_index : nat; end_index : nat }.
(** [layout.text_anchor.text_segments] and [layout.confidence]. *)
Record Layout := mkLayout { text_segments : list Segment; confidence : float }.
Record Row := mkRow { cells : list Layout }.
(** [header_rows] and [body_rows] are repeated fields of the message. *)
Record Table := mkTable { header_rows : list Row; body_rows : list Row }.
Record Page := mkPage {
  page_number : nat; paragraphs : list Layout; tables : list Table }.
Record Document := mkDocument { pages : list Page; text : string }.
End DocAI.

(** [a + b] on two repeated fields of a message (line 356). The class of
    these fields is a mutable sequence that defines no [__add__], so the
    expression raises [TypeError], whatever the fields hold. *)
Definition repeated_add {A} (a b : list A) : exc (list A) :=
  Raise "unsupported operand type(s) for +: 'RepeatedComposite' and 'RepeatedComposite'".

(** A PDF opened by PyMuPDF. *)
Module Pdf.
Record Page := mkPage {
  get_text : exc string;                 (* page.get_text("text") *)
  get_images : exc (list (exc bytes));   (* each image's pixmap as PNG *)
  rect_width : float;                    (* page.rect.width *)
  render_jpeg : float -> exc string;     (* base64 of the JPEG at a scale *)
  get_pixmap_2x : exc bytes              (* the page at 2x, as PNG *)
}.
Record Doc := mkDoc { pages : list Page }.
Definition page_count (d : Doc) : nat := List.length (pages d).
End Pdf.

(** A presentation opened by python-pptx. *)
Module Pptx.
Record Shape := mkShape {
  text_frame : option (list string);     (* paragraphs, if has_text_frame *)
  table : option (list (list string));   (* cell texts, if has_table *)
  image : exc (option (exc bytes))
    (* hasattr(shape, 'image'): reading the attribute raises for a linked
       picture; [None] without the attribute; else image.blob *)
}.
Record Slide := mkSlide {
  shapes : exc (list Shape);             (* slide.shapes; a broken part raises *)
  notes : option string                  (* notes_text_frame.text *)
}.
End Pptx.

(** A document opened by python-docx. *)
Module Docx.
Record Paragraph := mkParagraph {
  text : string;
  style_name : exc string   (* para.style.name; raises when the style,
                               or its name, is None *)
}.
Record Rel := mkRel { target_ref : string; blob : exc bytes }.
Record Doc := mkDoc {
  paragraphs : list Paragraph;
  tables : exc (list (list (list string)));   (* doc.tables; a broken part raises *)
  rels : list Rel
}.
End Docx.

(** The reply of the Vertex endpoint: [parts] are the texts of the
    parts of the first candidate, as the function picks them out of
    [resp.json()]; a body it cannot read that way raises. *)
Record VertexResponse := mkVertexResponse {
  vertex_status : nat; vertex_text : string; vertex_parts : exc (list string) }.

(** The reply of the OpenAI endpoint: the content of the first choice. *)
Record OpenAIResponse := mkOpenAIResponse {
  openai_status : nat; openai_content : exc string }.

(** Everything outside the module. Services answer from the calls made
    so far; parsers and codecs are functions of the bytes. *)
Record World := mkWorld {
  uuid8 : string;                                   (* str(uuid.uuid4())[:8] *)
  strftime : list Event -> string;
  elapsed_ms : list Event -> Z;
  http_get : list Event -> string -> exc bytes;
  process_document : list Event -> bytes -> exc DocAI.Document;
  text_detection : list Event -> bytes -> exc (list string);
  google_token : list Event -> exc string;
  vertex_post : list Event -> bytes -> exc VertexResponse;
  openai_post : list Event -> bytes -> exc OpenAIResponse;
  fitz_open : bytes -> exc Pdf.Doc;
  Presentation : bytes -> exc (list Pptx.Slide);
  Document : bytes -> exc Docx.Doc;
  decode : string -> bytes -> exc string;
  decode_ignore : bytes -> string;
  none_not_iterable : string     (* str(e) of the TypeError of ['.' in None] *)
}.

(** The configuration read from the environment at start-up. *)
Record Config := mkConfig {
  DOCUMENT_AI_PROCESSOR_ID : string;
  OPENAI_API_KEY : string;
  VERTEX_GEMINI_OCR_ENABLED : bool;
  MAX_PAGE_THUMBNAILS : Z;
  THUMBNAIL_MAX_WIDTH : Z
}.

(** [x or default] for a string that may be [None]. *)
Definition str_or (x : option string) (default : string) : string :=
  match x with
  | Some s => if PyStr.truthy s then s else default
  | None => default
  end.

(** [if ocr_text: body ocr_text] *)
Definition when_text {S} (o : option string) (body : string -> M S unit) : M S unit :=
  match o with
  | Some t => if PyStr.truthy t then body t else ret tt
  | None => ret tt
  end.

(** ['\n\n'.join([b['text'] for b in text_blocks])] *)
Definition join_blocks (text_blocks : list Block.t) : string :=
  PyStr.join (PyStr.nl ++ PyStr.nl) (map Block.text text_blocks).

(** Locals of [extract_pdf_with_document_ai] (lines 336-337). *)
Module DocAILocals.
Record t := mk { text_blocks : list Block.t; tables : list Table.t }.

Definition init : t := {| text_blocks := []; tables := [] |}.

Definition add_block (b : Block.t) (s : t) : t :=
  {| text_blocks := text_blocks s ++ [b]; tables := tables s |}.

Definition add_table (tb : Table.t) (s : t) : t :=
  {| text_blocks := text_blocks s; tables := tables s ++ [tb] |}.
End DocAILocals.

(** Locals of [extract_pdf] (lines 202-208, 228). *)
Module PdfLocals.
Record t := mk {
  text_blocks : list Block.t;
  tables : list Table.t;
  images : list ImageArtifact;
  raw_text : string;
  method : string;
  confidence : float;
  page_count : nat;
  thumbnails_added : nat
}.

Definition init : t :=
  {| text_blocks := []; tables := []; images := []; raw_text := "";
     method := "unknown"; confidence := 0%float; page_count := 1;
     thumbnails_added := 0 |}.

(** [text_blocks.append(b)] *)
Definition add_block (b : Block.t) (s : t) : t :=
  {| text_blocks := text_blocks s ++ [b]; tables := tables s;
     images := images s; raw_text := raw_text s; method := method s;
     confidence := confidence s; page_count := page_count s;
     thumbnails_added := thumbnails_added s |}.

(** [images.append(i); thumbnails_added += 1] *)
Definition add_thumbnail (i : ImageArtifact) (s : t) : t :=
  {| text_blocks := text_blocks s; tables := tables s;
     images := images s ++ [i]; raw_text := raw_text s; method := method s;
     confidence := confidence s; page_count := page_count s;
     thumbnails_added := thumbnails_added s + 1 |}.

Definition set_page_count (n : nat) (s : t) : t :=
  {| text_blocks := text_blocks s; tables := tables s;
     images := images s; raw_text := raw_text s; method := method s;
     confidence := confidence s; page_count := n;
     thumbnails_added := thumbnails_added s |}.

Definition set_thumbnails_added (n : nat) (s : t) : t :=
  {| text_blocks := text_blocks s; tables := tables s;
     images := images s; raw_text := raw_text s; method := method s;
     confidence := confidence s; page_count := page_count s;
     thumbnails_added := n |}.

(** [raw_text = ...; confidence = ...; method = ...] *)
Definition set_summary (raw : string) (c : float) (m : string) (s : t) : t :=
  {| text_blocks := text_blocks s; tables := tables s;
     images := images s; raw_text := raw; method := m;
     confidence := c; page_count := page_count s;
     thumbnails_added := thumbnails_added s |}.

(** The dictionary returned at lines 313-321. *)
Definition result (s : t) : Result.t :=
  {| Result.method := method s; Result.confidence := confidence s;
     Result.text_blocks := text_blocks s; Result.tables := tables s;
     Result.images := images s; Result.page_count := page_count s;
     Result.raw_text := raw_text s |}.
End PdfLocals.

(** Locals of [extract_pptx] (lines 400-402, 408). *)
Module PptxLocals.
Record t := mk {
  text_blocks : list Block.t;
  tables : list Table.t;
  images : list ImageArtifact;
  slide_texts : list string
}.

Definition init : t :=
  {| text_blocks := []; tables := []; images := []; slide_texts := [] |}.

Definition add_block (b : Block.t) (s : t) : t :=
  {| text_blocks := text_blocks s ++ [b]; tables := tables s;
     images := images s; slide_texts := slide_texts s |}.

Definition add_table (tb : Table.t) (s : t) : t :=
  {| text_blocks := text_blocks s; tables := tables s ++ [tb];
     images := images s; slide_texts := slide_texts s |}.

Definition add_image (i : ImageArtifact) (s : t) : t :=
  {| text_blocks := text_blocks s; tables := tables s;
     images := images s ++ [i]; slide_texts := slide_texts s |}.

Definition add_slide_text (x : string) (s : t) : t :=
  {| text_blocks := text_blocks s; tables := tables s;
     images := images s; slide_texts := slide_texts s ++ [x] |}.

Definition reset_slide_texts (s : t) : t :=
  {| text_blocks := text_blocks s; tables := tables s;
     images := images s; slide_texts := [] |}.
End PptxLocals.

(** Locals of [extract_docx] (lines 506-508). *)
Module DocxLocals.
Record t := mk {
  text_blocks : list Block.t;
  tables : list Table.t;
  images : list ImageArtifact
}.

Definition init : t := {| text_blocks := []; tables := []; images := [] |}.

Definition add_block (b : Block.t) (s : t) : t :=
  {| text_blocks := text_blocks s ++ [b]; tables := tables s;
     images := images s |}.

Definition add_table (tb : Table.t) (s : t) : t :=
  {| text_blocks := text_blocks s; tables := tables s ++ [tb];
     images := images s |}.

Definition add_image (i : ImageArtifact) (s : t) : t :=
  {| text_blocks := text_blocks s; tables := tables s;
     images := images s ++ [i] |}.
End DocxLocals.

(** The value of a key of a JSON object: absent, [null], or a string. *)
Inductive JField := JMissing | JNull | JStr (s : string).

(** [data.get(key, default)]: a string, or [None] for a [null]. *)
Definition jget (field : JField) (default : string) : option string :=
  match field with
  | JMissing => Some default
  | JNull => None
  | JStr s => Some s
  end.

(** The request as the handler looks at it (lines 101-122): with a file
    among [request.files]; else of JSON content type, with an object for
    body, or with a body for which [request.json], or [.get] on its
    value, raises (malformed JSON, [null], a list, a string, a number);
    else neither. *)
Inductive Request :=
| Upload (content : bytes) (filename content_type : option string)
| Json (signedUrl fileName mimeType : JField)
| BadJson (error : string)
| NoFile.

Record Metadata := mkMetadata {
  meta_filename : string;
  meta_fileType : string;
  meta_fileSize : nat;
  meta_extractionMethod : string;
  meta_confidence : float
}.

(** What the handler answers: the success body (HTTP 200), or an error
    body with its status. *)
Inductive Response :=
| Success (requestId : string) (processingTime : Z)
    (canonical : Canonical.t) (metadata : Metadata)
| ErrorResponse (status : nat) (error : string) (requestId : option string).

(* ================================================================== *)
(** ** The service *)
(* ================================================================== *)

Section Service.
Variable cfg : Config.
Variable w : World.

(** *** Recognition cascade *)

(** [ocr_with_vertex_gemini] (lines 666-714). *)
Definition ocr_with_vertex_gemini (image_data : bytes) : M unit (option string) :=
  token <- call EvGoogleAuth (google_token w) ;;
  if negb (PyStr.truthy token)
  then raise "Failed to acquire Google auth token"
  else
    resp <- call EvVertexGemini (fun h => vertex_post w h image_data) ;;
    if negb (vertex_status resp =? 200)%nat
    then raise ("Vertex Gemini error " ++ PyStr.of_nat (vertex_status resp)
                ++ ": " ++ PyStr.slice 0 500 (vertex_text resp))
    else
      parts <- lift_exc (vertex_parts resp) ;;
      let text := PyStr.strip (PyStr.join "" parts) in
      ret (if PyStr.truthy text then Some text else None).

(** [ocr_with_openai] (lines 717-744). *)
Definition ocr_with_openai (image_data : bytes) : M unit (option string) :=
  resp <- call EvOpenAI (fun h => openai_post w h image_data) ;;
  if (openai_status resp =? 200)%nat
  then content <- lift_exc (openai_content resp) ;;
       ret (Some (PyStr.strip content))
  else ret None.

(** The statements of lines 628-642, which lines 648-663 repeat:
    Vertex Gemini if enabled, then OpenAI if a key is set. *)
Definition generative_fallback (image_data : bytes) : M unit (option string) :=
  found <- (if VERTEX_GEMINI_OCR_ENABLED cfg
            then try_except
                   (text <- ocr_with_vertex_gemini image_data ;;
                    ret (if opt_truthy text then text else None))
                   (fun _ => ret None)
            else ret None) ;;
  match found with
  | Some text => ret (Some text)
  | None =>
      if PyStr.truthy (OPENAI_API_KEY cfg)
      then try_except (ocr_with_openai image_data) (fun _ => ret None)
      else ret None
  end.

(** [ocr_image] (lines 617-663). *)
Definition ocr_image (image_data : bytes) : M unit (option string) :=
  try_except
    (annotations <- call EvVision (fun h => text_detection w h image_data) ;;
     match annotations with
     | description :: _ => ret (Some (PyStr.strip description))
     | [] => generative_fallback image_data
     end)
    (fun _ => generative_fallback image_data).

(** *** PDF *)

(** [get_text_from_layout] (lines 382-389). *)
Definition get_text_from_layout (layout : DocAI.Layout) (full_text : string) : string :=
  PyStr.strip
    (fold_left
       (fun text segment =>
          let start := if negb (DocAI.start_index segment =? 0)%nat
                       then DocAI.start_index segment else 0 in
          let end_ := DocAI.end_index segment in
          (text ++ PyStr.slice start end_ full_text)%string)
       (DocAI.text_segments layout) "").

(** The body of the loop over pages (lines 341-366). The rows of a
    table are [table.header_rows + table.body_rows]. *)
Definition docai_page (document : DocAI.Document) (page : DocAI.Page)
    : M DocAILocals.t unit :=
  let page_num := DocAI.page_number page in
  for_each (DocAI.paragraphs page) (fun paragraph =>
    modify (DocAILocals.add_block
              {| Block.text := get_text_from_layout paragraph (DocAI.text document);
                 Block.page := page_num;
                 Block.confidence :=
                   if float_truthy (DocAI.confidence paragraph)
                   then DocAI.confidence paragraph else 0.9%float;
                 Block.type := "paragraph" |})) ;;
  for_each (DocAI.tables page) (fun table =>
    rows <- lift_exc (repeated_add (DocAI.header_rows table) (DocAI.body_rows table)) ;;
    modify (DocAILocals.add_table
              {| Table.rows :=
                   map (fun row =>
                          map (fun cell => get_text_from_layout cell (DocAI.text document))
                              (DocAI.cells row))
                       rows;
                 Table.page := page_num;
                 Table.confidence := 0.9%float |})).

(** [extract_pdf_with_document_ai] (lines 324-379): no [try] of its
    own, so what the loop raises leaves the function. *)
Definition extract_pdf_with_document_ai (file_buffer : bytes) : M unit Result.t :=
  document <- call EvDocumentAI (fun h => process_document w h file_buffer) ;;
  ran <- scoped DocAILocals.init
           (for_each (DocAI.pages document) (docai_page document)) ;;
  match fst ran with
  | Ok _ =>
      let text_blocks := DocAILocals.text_blocks (snd ran) in
      let raw_text := DocAI.text document in
      let avg_confidence :=
        match text_blocks with
        | [] => 0.9%float
        | _ => (float_sum (map Block.confidence text_blocks)
                / float_of_nat (List.length text_blocks))%float
        end in
      ret {| Result.method := "document_ai";
             Result.confidence := avg_confidence;
             Result.text_blocks := text_blocks;
             Result.tables := DocAILocals.tables (snd ran);
             Result.images := [];
             Result.page_count := List.length (DocAI.pages document);
             Result.raw_text := raw_text |}
  | Raise msg => raise msg
  end.

(** [_render_page_thumbnail_data_url] (lines 175-197). *)
Definition _render_page_thumbnail_data_url (page : Pdf.Page) : M unit (option string) :=
  try_except
    (let page_width := Pdf.rect_width page in
     let scale :=
       if PrimFloat.leb page_width 0%float then 1%float
       else py_min 2%float
              (py_max 0.25%float
                 (float_of_Z (THUMBNAIL_MAX_WIDTH cfg) / page_width)%float) in
     b64 <- call EvThumbnail (fun _ => Pdf.render_jpeg page scale) ;;
     ret (Some ("data:image/jpeg;base64," ++ b64)%string))
    (fun _ => ret None).

(** The test of lines 266-269: some block of this page has at least
    20 characters once stripped. *)
Definition has_page_text (page_no : nat) (text_blocks : list Block.t) : bool :=
  existsb
    (fun b => (Block.page b =? page_no)%nat
              && (20 <=? String.length (PyStr.strip (Block.text b)))%nat)
    text_blocks.

(** One embedded image of a sparse page (lines 243-260). *)
Definition pdf_page_image (page_num : nat) (img : exc bytes) : M PdfLocals.t unit :=
  try_except
    (img_data <- lift_exc img ;;
     ocr_text <- lift (ocr_image img_data) ;;
     when_text ocr_text (fun t =>
       modify (PdfLocals.add_block
                 {| Block.text := t; Block.page := page_num + 1;
                    Block.confidence := 0.7%float; Block.type := "ocr" |})))
    (fun _ => ret tt).

(** The thumbnail step of a page (lines 262-281). *)
Definition pdf_page_thumbnail (page_num : nat) (page : Pdf.Page) : M PdfLocals.t unit :=
  s <- get ;;
  when (Z.of_nat (PdfLocals.thumbnails_added s) <? MAX_PAGE_THUMBNAILS cfg)%Z
    (try_except
       (when (negb (has_page_text (page_num + 1) (PdfLocals.text_blocks s)))
          (data_url <- lift (_render_page_thumbnail_data_url page) ;;
           when_text data_url (fun u =>
             modify (PdfLocals.add_thumbnail
                       (PageThumbnail (page_num + 1) u
                          "Page thumbnail (no text extracted)")))))
       (fun _ => ret tt)).

(** The body of the loop over pages (lines 231-281). *)
Definition pdf_page (page_num : nat) (page : Pdf.Page) : M PdfLocals.t unit :=
  page_text <- lift_exc (Pdf.get_text page) ;;
  when (PyStr.truthy (PyStr.strip page_text))
    (modify (PdfLocals.add_block
               {| Block.text := PyStr.strip page_text; Block.page := page_num + 1;
                  Block.confidence := 0.85%float; Block.type := "paragraph" |})) ;;
  when (String.length (PyStr.strip page_text) <? 100)%nat
    (imgs <- lift_exc (Pdf.get_images page) ;;
     for_each imgs (pdf_page_image page_num)) ;;
  pdf_page_thumbnail page_num page.

(** Opening the file and walking its pages (lines 226-283). *)
Definition pdf_text_layer (file_buffer : bytes) : M PdfLocals.t unit :=
  doc <- call EvFitzOpen (fun _ => fitz_open w file_buffer) ;;
  modify (PdfLocals.set_page_count
            (if (Pdf.page_count doc =? 0)%nat then 1 else Pdf.page_count doc)) ;;
  modify (PdfLocals.set_thumbnails_added 0) ;;
  for_enumerate 0 (Pdf.pages doc) pdf_page.

(** Full page OCR (lines 291-308). *)
Definition pdf_full_page_ocr (file_buffer : bytes) : M PdfLocals.t unit :=
  doc <- call EvFitzOpen (fun _ => fitz_open w file_buffer) ;;
  modify (fun s =>
            PdfLocals.set_page_count
              (if (Pdf.page_count doc =? 0)%nat
               then PdfLocals.page_count s else Pdf.page_count doc) s) ;;
  for_enumerate 0 (Pdf.pages doc)
    (fun page_num page =>
       img_data <- lift_exc (Pdf.get_pixmap_2x page) ;;
       ocr_text <- lift (ocr_image img_data) ;;
       when_text ocr_text (fun t =>
         modify (PdfLocals.add_block
                   {| Block.text := t; Block.page := page_num + 1;
                      Block.confidence := 0.6%float; Block.type := "page_ocr" |}))) ;;
  modify (fun s =>
            PdfLocals.set_summary (join_blocks (PdfLocals.text_blocks s))
              0.6%float "pymupdf_ocr" s).

(** The body of the second [try] of [extract_pdf] (lines 225-308). *)
Definition pdf_local_pass (file_buffer : bytes) : M PdfLocals.t unit :=
  pdf_text_layer file_buffer ;;
  modify (fun s =>
            let raw_text := join_blocks (PdfLocals.text_blocks s) in
            PdfLocals.set_summary raw_text
              (if PyStr.truthy raw_text then 0.85%float else 0%float)
              "pymupdf" s) ;;
  s <- get ;;
  when (String.length (PdfLocals.raw_text s) <? 100)%nat
    (pdf_full_page_ocr file_buffer).

(** [extract_pdf] (lines 199-321). *)
Definition extract_pdf (file_buffer : bytes) : M unit Result.t :=
  early <- (if PyStr.truthy (DOCUMENT_AI_PROCESSOR_ID cfg)
            then try_except
                   (result <- extract_pdf_with_document_ai file_buffer ;;
                    ret (if float_ge (Result.confidence result) 0.7%float
                         then Some result else None))
                   (fun _ => ret None)
            else ret None) ;;
  match early with
  | Some result => ret result
  | None =>
      ran <- scoped PdfLocals.init
               (try_except (pdf_local_pass file_buffer) (fun _ => ret tt)) ;;
      ret (PdfLocals.result (snd ran))
  end.

(** *** PPTX *)

(** One picture of a slide, once its bytes are read (lines 453-464). *)
Definition pptx_image_ocr (slide_num : nat) (image_bytes : bytes) : M PptxLocals.t unit :=
  ocr_text <- lift (ocr_image image_bytes) ;;
  match ocr_text with
  | Some t =>
      when (PyStr.truthy t && (20 <? String.length t)%nat)
        (modify (PptxLocals.add_block
                   {| Block.text := t; Block.page := slide_num;
                      Block.confidence := 0.7%float; Block.type := "image_ocr" |}) ;;
         modify (PptxLocals.add_image (SlideOcr slide_num t)))
  | None => ret tt
  end.

(** [cell.text.strip() if cell.text else ''] *)
Definition pptx_cell_text (cell : string) : string :=
  if PyStr.truthy cell then PyStr.strip cell else "".

(** ['\n'.join([' | '.join(row) for row in table_data])] *)
Definition table_text (table_data : list (list string)) : string :=
  PyStr.join PyStr.nl (map (PyStr.join " | ") table_data).

(** The body of the loop over shapes (lines 412-466). *)
Definition pptx_shape (slide_num : nat) (shape : Pptx.Shape) : M PptxLocals.t unit :=
  match Pptx.text_frame shape with
  | Some paragraphs =>
      for_each paragraphs (fun paragraph =>
        let text := PyStr.strip paragraph in
        when (PyStr.truthy text)
          (modify (PptxLocals.add_slide_text text) ;;
           modify (PptxLocals.add_block
                     {| Block.text := text; Block.page := slide_num;
                        Block.confidence := 0.95%float; Block.type := "text" |})))
  | None => ret tt
  end ;;
  match Pptx.table shape with
  | Some rows =>
      let table_data := map (map pptx_cell_text) rows in
      modify (PptxLocals.add_table
                {| Table.rows := table_data; Table.page := slide_num;
                   Table.confidence := 0.9%float |}) ;;
      when (PyStr.truthy (PyStr.strip (table_text table_data)))
        (modify (PptxLocals.add_block
                   {| Block.text := "[Table]" ++ PyStr.nl ++ table_text table_data;
                      Block.page := slide_num;
                      Block.confidence := 0.9%float; Block.type := "table" |}))
  | None => ret tt
  end ;;
  picture <- lift_exc (Pptx.image shape) ;;
  s <- get ;;
  match picture with
  | Some blob =>
      when (String.length (PyStr.join " " (PptxLocals.slide_texts s)) <? 50)%nat
        (try_except
           (image_bytes <- lift_exc blob ;;
            pptx_image_ocr slide_num image_bytes)
           (fun _ => ret tt))
  | None => ret tt
  end.

(** The body of the loop over slides (lines 408-477). *)
Definition pptx_slide (slide_num : nat) (slide : Pptx.Slide) : M PptxLocals.t unit :=
  modify PptxLocals.reset_slide_texts ;;
  shapes <- lift_exc (Pptx.shapes slide) ;;
  for_each shapes (pptx_shape slide_num) ;;
  match Pptx.notes slide with
  | Some notes =>
      let notes_text := PyStr.strip notes in
      when (PyStr.truthy notes_text)
        (modify (PptxLocals.add_block
                   {| Block.text := "[Speaker Notes]" ++ PyStr.nl ++ notes_text;
                      Block.page := slide_num;
                      Block.confidence := 0.95%float;
                      Block.type := "speaker_notes" |}))
  | None => ret tt
  end.

(** [extract_pptx] (lines 395-495): the [except] clause re-raises. *)
Definition extract_pptx (file_buffer : bytes) : M unit Result.t :=
  ran <- scoped PptxLocals.init
           (slides <- call EvPresentation (fun _ => Presentation w file_buffer) ;;
            for_enumerate 1 slides pptx_slide ;;
            ret (List.length slides)) ;;
  match fst ran with
  | Ok slide_count =>
      let s := snd ran in
      ret {| Result.method := "python_pptx";
             Result.confidence := 0.95%float;
             Result.text_blocks := PptxLocals.text_blocks s;
             Result.tables := PptxLocals.tables s;
             Result.images := PptxLocals.images s;
             Result.page_count := slide_count;
             Result.raw_text := join_blocks (PptxLocals.text_blocks s) |}
  | Raise msg => raise msg
  end.

(** *** DOCX *)

(** One image relationship, once its bytes are read (lines 554-562). *)
Definition docx_image_ocr (image_data : bytes) : M DocxLocals.t unit :=
  ocr_text <- lift (ocr_image image_data) ;;
  match ocr_text with
  | Some t =>
      when (PyStr.truthy t && (20 <? String.length t)%nat)
        (modify (DocxLocals.add_block
                   {| Block.text := "[Image Text]" ++ PyStr.nl ++ t;
                      Block.page := 1;
                      Block.confidence := 0.7%float; Block.type := "image_ocr" |}) ;;
         modify (DocxLocals.add_image (PartOcr t)))
  | None => ret tt
  end.

(** The body of the loop over paragraphs (lines 514-524): the style is
    read for a non-empty paragraph only. *)
Definition docx_paragraph (para : Docx.Paragraph) : M DocxLocals.t unit :=
  let text := PyStr.strip (Docx.text para) in
  when (PyStr.truthy text)
    (style_name <- lift_exc (Docx.style_name para) ;;
     let para_type := if prefix "Heading" style_name
                      then "heading" else "paragraph" in
     modify (DocxLocals.add_block
               {| Block.text := text; Block.page := 1;
                  Block.confidence := 0.95%float; Block.type := para_type |})).

(** The body of the loop over relationships (lines 550-564). *)
Definition docx_rel (rel : Docx.Rel) : M DocxLocals.t unit :=
  when (PyStr.contains "image" (Docx.target_ref rel))
    (try_except
       (image_data <- lift_exc (Docx.blob rel) ;;
        docx_image_ocr image_data)
       (fun _ => ret tt)).

(** The body of the [try] of [extract_docx] up to the loops' end
    (lines 511-564). *)
Definition docx_body (file_buffer : bytes) : M DocxLocals.t unit :=
  doc <- call EvDocument (fun _ => Document w file_buffer) ;;
  for_each (Docx.paragraphs doc) docx_paragraph ;;
  tables <- lift_exc (Docx.tables doc) ;;
  for_each tables (fun table =>
    let table_data := map (map PyStr.strip) table in
    modify (DocxLocals.add_table
              {| Table.rows := table_data; Table.page := 1;
                 Table.confidence := 0.9%float |}) ;;
    when (PyStr.truthy (PyStr.strip (table_text table_data)))
      (modify (DocxLocals.add_block
                 {| Block.text := "[Table]" ++ PyStr.nl ++ table_text table_data;
                    Block.page := 1;
                    Block.confidence := 0.9%float; Block.type := "table" |}))) ;;
  for_each (Docx.rels doc) docx_rel.

(** [extract_docx] (lines 501-582): the [except] clause re-raises. *)
Definition extract_docx (file_buffer : bytes) : M unit Result.t :=
  ran <- scoped DocxLocals.init (docx_body file_buffer) ;;
  match fst ran with
  | Ok _ =>
      let s := snd ran in
      ret {| Result.method := "python_docx";
             Result.confidence := 0.95%float;
             Result.text_blocks := DocxLocals.text_blocks s;
             Result.tables := DocxLocals.tables s;
             Result.images := DocxLocals.images s;
             Result.page_count := 1;
             Result.raw_text := join_blocks (DocxLocals.text_blocks s) |}
  | Raise msg => raise msg
  end.

(** *** TXT *)

(** The loop over encodings (lines 592-598): the first that decodes. *)
Fixpoint decode_first (encodings : list string) (file_buffer : bytes)
    : M unit (option string) :=
  match encodings with
  | [] => ret None
  | encoding :: rest =>
      try_except
        (text <- call (EvDecode encoding) (fun _ => decode w encoding file_buffer) ;;
         ret (Some text))
        (fun _ => decode_first rest file_buffer)
  end.

(** [extract_txt] (lines 588-611). *)
Definition extract_txt (file_buffer : bytes) : M unit Result.t :=
  found <- decode_first ["utf-8"; "latin-1"; "cp1252"] file_buffer ;;
  text <- (if negb (opt_truthy found)
           then call (EvDecode "utf-8") (fun _ => Ok (decode_ignore w file_buffer))
           else ret (dict_get found "")) ;;
  ret {| Result.method := "direct_read";
         Result.confidence := 1%float;
         Result.text_blocks :=
           [ {| Block.text := text; Block.page := 1;
                Block.confidence := 1%float; Block.type := "text" |} ];
         Result.tables := [];
         Result.images := [];
         Result.page_count := 1;
         Result.raw_text := text |}.

(** *** The [/extract] handler *)

(** Lines 140-158: build the canonical model and the success body. *)
Definition respond (result : Result.t) (file_buffer : bytes)
    (filename file_type request_id : string) : M unit Response :=
  now <- read (strftime w) ;;
  let canonical :=
    build_canonical_model (ResultDict.of_result result) filename file_type
      (List.length file_buffer) request_id now in
  processing_time <- read (elapsed_ms w) ;;
  ret (Success request_id processing_time canonical
         {| meta_filename := filename;
            meta_fileType := file_type;
            meta_fileSize := List.length file_buffer;
            meta_extractionMethod := Result.method result;
            meta_confidence := Result.confidence result |}).

(** Lines 128-158: run the extractor of the type, and respond. *)
Definition dispatch_type (file_buffer : bytes) (filename file_type request_id : string)
    : M unit Response :=
  if file_type =? "pdf" then
    result <- extract_pdf file_buffer ;;
    respond result file_buffer filename file_type request_id
  else if str_in file_type ["pptx"; "ppt"] then
    result <- extract_pptx file_buffer ;;
    respond result file_buffer filename file_type request_id
  else if str_in file_type ["docx"; "doc"] then
    result <- extract_docx file_buffer ;;
    respond result file_buffer filename file_type request_id
  else if file_type =? "txt" then
    result <- extract_txt file_buffer ;;
    respond result file_buffer filename file_type request_id
  else
    ret (ErrorResponse 400 ("Unsupported file type: " ++ file_type) None).

(** Lines 124-158, for a file name and a MIME type that are strings:
    detect, dispatch, respond. *)
Definition dispatch (file_buffer : bytes) (filename mimetype request_id : string)
    : M unit Response :=
  dispatch_type file_buffer filename (detect_file_type filename mimetype) request_id.

(** [sub in v] for a value that is a string or [None]. *)
Definition py_in (sub : string) (v : option string) : exc bool :=
  match v with
  | Some s => Ok (PyStr.contains sub s)
  | None => Raise (none_not_iterable w)
  end.

(** [detect_file_type] (lines 788-804) on values that may be [None], as
    the [null] of a JSON body makes them. The test for a dot comes
    first; every [or] stops at its first true operand, so the MIME type
    is not looked at when the extension is pdf. *)
Definition detect_file_type_py (filename mimetype : option string) : exc string :=
  match filename with
  | None => Raise (none_not_iterable w)
  | Some filename =>
      let ext := extension filename in
      if ext =? "pdf" then Ok "pdf" else
      exc_bind (py_in "pdf" mimetype) (fun found =>
      if found : bool then Ok "pdf" else
      if str_in ext ["pptx"; "ppt"] then Ok "pptx" else
      exc_bind (py_in "presentation" mimetype) (fun found =>
      if found : bool then Ok "pptx" else
      exc_bind (py_in "powerpoint" mimetype) (fun found =>
      if found : bool then Ok "pptx" else
      if str_in ext ["docx"; "doc"] then Ok "docx" else
      exc_bind (py_in "word" mimetype) (fun found =>
      if found : bool then Ok "docx" else
      exc_bind (py_in "document" mimetype) (fun found =>
      if found : bool then Ok "docx" else
      if ext =? "txt" then Ok "txt" else
      exc_bind (py_in "text/plain" mimetype) (fun found =>
      if found : bool then Ok "txt" else
      if str_in ext ["png"; "jpg"; "jpeg"; "webp"; "gif"] then Ok "image"
      else Ok "unknown"))))))
  end.

(** [extract] (lines 89-164). After [detect_file_type] has returned, the
    file name is a string. *)
Definition extract (request : Request) : M unit Response :=
  let request_id := uuid8 w in
  try_except
    (match request with
     | Upload content filename content_type =>
         dispatch content (str_or filename "document") (str_or content_type "")
           request_id
     | Json (JStr signed_url) fileName mimeType =>
         if PyStr.truthy signed_url then
           let filename := jget fileName "document" in
           let mimetype := jget mimeType "" in
           file_buffer <- call EvDownload (fun h => http_get w h signed_url) ;;
           file_type <- lift_exc (detect_file_type_py filename mimetype) ;;
           dispatch_type file_buffer (dict_get filename "") file_type request_id
         else ret (ErrorResponse 400 "No file provided" None)
     | Json _ _ _ => ret (ErrorResponse 400 "No file provided" None)
     | BadJson error => raise error
     | NoFile => ret (ErrorResponse 400 "No file provided" None)
     end)
    (fun msg => ret (ErrorResponse 500 msg (Some request_id))).

End Service.

(* ================================================================== *)
(** ** Notions used to state the properties *)
(* ================================================================== *)

(** What the handler has in hand when it reaches line 128, if it does:
    the bytes, the file name, the detected type, and the calls made to
    get there (the download, for a signed URL). *)
Definition received (w : World) (h : list Event) (request : Request)
    : option (bytes * string * string * list Event) :=
  match request with
  | Upload content filename content_type =>
      Some (content, str_or filename "document",
            detect_file_type (str_or filename "document") (str_or content_type ""),
            [])
  | Json (JStr signed_url) fileName mimeType =>
      if PyStr.truthy signed_url then
        match http_get w h signed_url, jget fileName "document",
              detect_file_type_py w (jget fileName "document") (jget mimeType "") with
        | Ok file_buffer, Some filename, Ok file_type =>
            Some (file_buffer, filename, file_type, [EvDownload])
        | _, _, _ => None
        end
      else None
  | _ => None
  end.

(** The [try] of the handler around a computation that follows the
    calls [pre]: what it returns is the answer; what it raises becomes
    the answer 500 with the message and the request id. *)
Definition answered (request_id : string) (pre : list Event)
    (x : exc Response * unit * list Event) : exc Response * unit * list Event :=
  match x with
  | (Ok response, u, e) => (Ok response, u, pre ++ e)
  | (Raise msg, u, e) => (Ok (ErrorResponse 500 msg (Some request_id)), u, pre ++ e)
  end.

(** The optical tier answered with at least one annotation. *)
Definition vision_gave_text (answer : exc (list string)) : bool :=
  match answer with Ok (_ :: _) => true | _ => false end.
(** A generative tier returned text, and not the empty string. *)
Definition gave_text (x : exc (option string)) : bool :=
  match x with Ok (Some t) => PyStr.truthy t | _ => false end.

(** What a tier gave, its failure absorbed. *)
Definition absorbed (x : exc (option string)) : option string :=
  match x with Ok text => text | Raise _ => None end.

(** The cascade tier after tier, as the specification words it: the
    result and the calls made. The first description of Vision,
    stripped, is final. Otherwise Vertex Gemini is tried if enabled,
    and its text is final; otherwise OpenAI is tried if a key is set,
    and what it gives is final; otherwise there is no text. *)
Definition cascade (cfg : Config) (w : World) (image_data : bytes) (h : list Event)
    : option string * list Event :=
  match text_detection w h image_data with
  | Ok (description :: _) => (Some (PyStr.strip description), [EvVision])
  | _ =>
      let vertex := ocr_with_vertex_gemini w image_data tt (h ++ [EvVision]) in
      let tried :=
        if VERTEX_GEMINI_OCR_ENABLED cfg then EvVision :: calls vertex else [EvVision] in
      if VERTEX_GEMINI_OCR_ENABLED cfg && gave_text (outcome vertex)
      then (absorbed (outcome vertex), tried)
      else if PyStr.truthy (OPENAI_API_KEY cfg)
           then (absorbed (outcome (ocr_with_openai w image_data tt (h ++ tried))),
                 tried ++ [EvOpenAI])
           else (None, tried)
  end.

(** [ensures P m Q]: run from locals satisfying [P], the computation
    leaves locals satisfying [Q], whether it returns or raises. *)
Definition ensures {S A} (P : S -> Prop) (m : M S A) (Q : S -> Prop) : Prop :=
  forall s h, P s -> Q (locals (m s h)).


(** A thumbnail of a page numbered at most [upto] that has no block of
    20 characters or more among [text_blocks]. *)
Definition sparse_thumbnail (text_blocks : list Block.t) (upto : nat)
    (i : ImageArtifact) : Prop :=
  exists p url caption,
    i = PageThumbnail p url caption /\ p <= upto /\ has_page_text p text_blocks = false.

(** The invariant of the loop over pages: blocks belong to pages up to
    [nb], thumbnails to sparse pages up to [np], and the counter counts
    the thumbnails and respects the maximum. *)
Definition thumbnails_inv (cfg : Config) (np nb : nat) (s : PdfLocals.t) : Prop :=
  (forall b, In b (PdfLocals.text_blocks s) -> Block.page b <= nb)
  /\ (forall i, In i (PdfLocals.images s) ->
        sparse_thumbnail (PdfLocals.text_blocks s) np i)
  /\ List.length (PdfLocals.images s) = PdfLocals.thumbnails_added s
  /\ (Z.of_nat (PdfLocals.thumbnails_added s) <= Z.max 0 (MAX_PAGE_THUMBNAILS cfg))%Z.

(** At most the configured number of images, all of them thumbnails. *)
Definition thumbnails_within (cfg : Config) (images : list ImageArtifact) : Prop :=
  (Z.of_nat (List.length images) <= Z.max 0 (MAX_PAGE_THUMBNAILS cfg))%Z
  /\ forall i, In i images -> exists p url caption, i = PageThumbnail p url caption.

(** [raw_text] is the join of the blocks whenever the summary says the
    local pass ran to its end. *)
Definition summary_joined (method raw_text : string) (text_blocks : list Block.t) : Prop :=
  (method = "pymupdf_ocr" \/ (method = "pymupdf" /\ 100 <= String.length raw_text)) ->
  raw_text = join_blocks text_blocks.


(** The format an extension stands for, in the order of the tests. *)
Definition extension_tag (ext : string) : option string :=
  if ext =? "pdf" then Some "pdf"
  else if str_in ext ["pptx"; "ppt"] then Some "pptx"
  else if str_in ext ["docx"; "doc"] then Some "docx"
  else if ext =? "txt" then Some "txt"
  else if str_in ext ["png"; "jpg"; "jpeg"; "webp"; "gif"] then Some "image"
  else None.

(** The MIME keywords of the formats tested before [tag]. *)
Definition earlier_keywords (tag : string) : list string :=
  if tag =? "pdf" then []
  else if tag =? "pptx" then ["pdf"]
  else if tag =? "docx" then ["pdf"; "presentation"; "powerpoint"]
  else if tag =? "txt" then ["pdf"; "presentation"; "powerpoint"; "word"; "document"]
  else ["pdf"; "presentation"; "powerpoint"; "word"; "document"; "text/plain"].

(** The MIME type names a format tested before [tag]. *)
Definition mime_names_earlier (tag mimetype : string) : bool :=
  existsb (fun kw => PyStr.contains kw mimetype) (earlier_keywords tag).

(** The five tests of detection, in their order: the tag of the format,
    the extensions and the MIME keywords that its test accepts. *)
Definition format_tests : list (string * list string * list string) :=
  [ ("pdf", ["pdf"], ["pdf"]);
    ("pptx", ["pptx"; "ppt"], ["presentation"; "powerpoint"]);
    ("docx", ["docx"; "doc"], ["word"; "document"]);
    ("txt", ["txt"], ["text/plain"]);
    ("image", ["png"; "jpg"; "jpeg"; "webp"; "gif"], []) ].

(** A test accepts a request by its extension, or by one of its
    keywords found in the MIME type. *)
Definition accepts (ext mimetype : string)
    (test : string * list string * list string) : bool :=
  let '(_, extensions, keywords) := test in
  str_in ext extensions || existsb (fun kw => PyStr.contains kw mimetype) keywords.

(** The tag of the first test that accepts, [unknown] when none does. *)
Definition first_accepted (ext mimetype : string) : string :=
  match find (accepts ext mimetype) format_tests with
  | Some (tag, _, _) => tag
  | None => "unknown"
  end.

(** A world whose services and parsers answer the same every time. *)
Definition sample_world
    (docai : exc DocAI.Document) (vision : exc (list string))
    (token : exc string) (vertex : exc VertexResponse) (openai : exc OpenAIResponse)
    (pdf : exc Pdf.Doc) (pptx : exc (list Pptx.Slide)) (docx : exc Docx.Doc) : World :=
  {| uuid8 := "0a1b2c3d";
     strftime := fun _ => "2025-01-01T00:00:00Z";
     elapsed_ms := fun _ => 12%Z;
     http_get := fun _ _ => Raise "connection refused";
     process_document := fun _ _ => docai;
     text_detection := fun _ _ => vision;
     google_token := fun _ => token;
     vertex_post := fun _ _ => vertex;
     openai_post := fun _ _ => openai;
     fitz_open := fun _ => pdf;
     Presentation := fun _ => pptx;
     Document := fun _ => docx;
     decode := fun _ _ => Raise "codec";
     decode_ignore := fun _ => "";
     none_not_iterable := "argument of type 'NoneType' is not iterable" |}.

Definition sample_config (processor key : string) (vertex : bool) (max : Z) : Config :=
  {| DOCUMENT_AI_PROCESSOR_ID := processor; OPENAI_API_KEY := key;
     VERTEX_GEMINI_OCR_ENABLED := vertex; MAX_PAGE_THUMBNAILS := max;
     THUMBNAIL_MAX_WIDTH := 900 |}.

(** Nothing is reachable and no file opens. *)
Definition offline : World :=
  sample_world (Raise "processor unavailable") (Raise "vision unavailable")
    (Raise "no credentials") (Raise "vertex unavailable") (Raise "openai unavailable")
    (Raise "cannot open broken document") (Raise "Package not found")
    (Raise "File is not a zip file").

(** Document AI reads "Hello world" and reports one paragraph, "Hello". *)
Definition hello_document : DocAI.Document :=
  {| DocAI.pages :=
       [ {| DocAI.page_number := 1;
            DocAI.paragraphs :=
              [ {| DocAI.text_segments := [ {| DocAI.start_index := 0; DocAI.end_index := 5 |} ];
                   DocAI.confidence := 0.95%float |} ];
            DocAI.tables := [] |} ];
     DocAI.text := "Hello world" |}.

Definition structured_world : World :=
  sample_world (Ok hello_document) (Raise "vision unavailable")
    (Raise "no credentials") (Raise "vertex unavailable") (Raise "openai unavailable")
    (Raise "cannot open broken document") (Raise "Package not found")
    (Raise "File is not a zip file").

(** Vision is down; Vertex Gemini reads the invoice number. *)
Definition invoice_world : World :=
  sample_world (Raise "processor unavailable") (Raise "network error")
    (Ok "token")
    (Ok {| vertex_status := 200; vertex_text := "";
           vertex_parts := Ok ["Invoice #123"] |})
    (Ok {| openai_status := 200; openai_content := Ok "never asked" |})
    (Raise "cannot open broken document") (Raise "Package not found")
    (Raise "File is not a zip file").

(** One picture, in a slide and in a document; Vision reads [seen]. *)
Definition picture_world (seen : string) : World :=
  sample_world (Raise "processor unavailable") (Ok [seen])
    (Raise "no credentials") (Raise "vertex unavailable") (Raise "openai unavailable")
    (Raise "cannot open broken document")
    (Ok [ {| Pptx.shapes := Ok [ {| Pptx.text_frame := None; Pptx.table := None;
                                    Pptx.image := Ok (Some (Ok [])) |} ];
             Pptx.notes := None |} ])
    (Ok {| Docx.paragraphs := []; Docx.tables := Ok [];
           Docx.rels := [ {| Docx.target_ref := "media/image1.png";
                             Docx.blob := Ok [] |} ] |}).

(** A PDF page without text or images, whose thumbnail renders. *)
Definition blank_page : Pdf.Page :=
  {| Pdf.get_text := Ok ""; Pdf.get_images := Ok [];
     Pdf.rect_width := 612%float; Pdf.render_jpeg := fun _ => Ok "AAAA";
     Pdf.get_pixmap_2x := Ok [] |}.

Definition blank_pdf_world (pages : nat) : World :=
  sample_world (Raise "processor unavailable") (Ok [])
    (Raise "no credentials") (Raise "vertex unavailable") (Raise "openai unavailable")
    (Ok {| Pdf.pages := repeat blank_page pages |}) (Raise "Package not found")
    (Raise "File is not a zip file").

Definition twenty : string := "12345678901234567890".

(** A page with a short text layer, and a world where Vision reads the
    whole page. *)
Definition report_page : Pdf.Page :=
  {| Pdf.get_text := Ok "Quarterly report"; Pdf.get_images := Ok [];
     Pdf.rect_width := 612%float; Pdf.render_jpeg := fun _ => Ok "AAAA";
     Pdf.get_pixmap_2x := Ok [] |}.

Definition report_world : World :=
  sample_world (Raise "processor unavailable") (Ok ["scanned page"])
    (Raise "no credentials") (Raise "vertex unavailable") (Raise "openai unavailable")
    (Ok {| Pdf.pages := [report_page] |}) (Raise "Package not found")
    (Raise "File is not a zip file").

(** No processor, no key, Vertex Gemini off, 25 thumbnails. *)
Definition plain_config : Config := sample_config "" "" false 25.

(** A processor is configured. *)
Definition structured_config : Config := sample_config "proc-1" "" false 25.

(** Both generative tiers are configured. *)
Definition cascade_config : Config := sample_config "" "sk-test" true 25.

(** What the structured stage returns in [structured_world]. *)
Definition hello_result : Result.t :=
  {| Result.method := "document_ai";
     Result.confidence := 0.95%float;
     Result.text_blocks :=
       [ {| Block.text := "Hello"; Block.page := 1;
            Block.confidence := 0.95%float; Block.type := "paragraph" |} ];
     Result.tables := [];
     Result.images := [];
     Result.page_count := 1;
     Result.raw_text := "Hello world" |}.

(** What [extract_pdf] returns in [report_world]. *)
Definition report_result : Result.t :=
  {| Result.method := "pymupdf_ocr";
     Result.confidence := 0.6%float;
     Result.text_blocks :=
       [ {| Block.text := "Quarterly report"; Block.page := 1;
            Block.confidence := 0.85%float; Block.type := "paragraph" |};
         {| Block.text := "scanned page"; Block.page := 1;
            Block.confidence := 0.6%float; Block.type := "page_ocr" |} ];
     Result.tables := [];
     Result.images :=
       [ PageThumbnail 1 "data:image/jpeg;base64,AAAA"
           "Page thumbnail (no text extracted)" ];
     Result.page_count := 1;
     Result.raw_text :=
       "Quarterly report" ++ PyStr.nl ++ PyStr.nl ++ "scanned page" |}.

(* ================================================================== *)
(** ** Notions used to state the further properties *)
(* ================================================================== *)

(** The dictionary [extract_txt] returns for a decoded [text]. *)
Definition txt_result (text : string) : Result.t :=
  {| Result.method := "direct_read";
     Result.confidence := 1%float;
     Result.text_blocks :=
       [ {| Block.text := text; Block.page := 1;
            Block.confidence := 1%float; Block.type := "text" |} ];
     Result.tables := [];
     Result.images := [];
     Result.page_count := 1;
     Result.raw_text := text |}.

(** The call is a decoding of the bytes. *)
Definition is_decode (ev : Event) : Prop := exists enc, ev = EvDecode enc.

(** The six tags of [detect_file_type]. *)
Definition format_tags : list string :=
  ["pdf"; "pptx"; "docx"; "txt"; "image"; "unknown"].

(** Every keyword [detect_file_type] looks for in a MIME type. *)
Definition mime_keywords : list string :=
  ["pdf"; "presentation"; "powerpoint"; "word"; "document"; "text/plain"].

(** The tags for which [extract] runs an extractor and answers 200. *)
Definition extracted_tags : list string := ["pdf"; "pptx"; "docx"; "txt"].

(** A response of the handler, as a client may tell them apart. *)
Definition well_formed_response (request_id : string) (r : Response) : Prop :=
  match r with
  | Success rid _ canonical _ => rid = request_id /\ Canonical.id canonical = request_id
  | ErrorResponse status _ rid =>
      (status = 400 /\ rid = None) \/ (status = 500 /\ rid = Some request_id)
  end.

(** The metadata of a success response repeats the canonical document. *)
Definition metadata_mirrors (canonical : Canonical.t) (metadata : Metadata) : Prop :=
  meta_filename metadata = Canonical.filename canonical
  /\ meta_fileType metadata = Canonical.file_type canonical
  /\ meta_fileSize metadata = Canonical.file_size canonical
  /\ meta_extractionMethod metadata = Canonical.method (Canonical.extraction canonical)
  /\ meta_confidence metadata = Canonical.confidence (Canonical.extraction canonical).

(** [never_raises m]: the computation always ends in a value. *)
Definition never_raises {S A} (m : M S A) : Prop :=
  forall s h, exists a, outcome (m s h) = Ok a.

(** [calls_all F m]: every call the computation makes satisfies [F]. *)
Definition calls_all {S A} (F : Event -> Prop) (m : M S A) : Prop :=
  forall s h, Forall F (calls (m s h)).

(** [returns P m Q]: run from locals satisfying [P], if the computation
    returns [a] it leaves locals [s'] with [Q a s']. *)
Definition returns {S A} (P : S -> Prop) (m : M S A) (Q : A -> S -> Prop) : Prop :=
  forall s h a s' e, P s -> m s h = (Ok a, s', e) -> Q a s'.

(** The page an image record points at (0 when it names none). *)
Definition image_page (i : ImageArtifact) : nat :=
  match i with
  | PageThumbnail p _ _ => p
  | SlideOcr p _ => p
  | PartOcr _ => 0
  end.

(** A block as the local PDF pass makes them: never empty, on a real
    page, and with the confidence of its kind. *)
Definition local_pdf_block (b : Block.t) : Prop :=
  PyStr.truthy (Block.text b) = true
  /\ 1 <= Block.page b
  /\ ((Block.type b = "paragraph" /\ Block.confidence b = 0.85%float)
      \/ (Block.type b = "ocr" /\ Block.confidence b = 0.7%float)
      \/ (Block.type b = "page_ocr" /\ Block.confidence b = 0.6%float)).

(** A thumbnail record of a page up to [upto]: a JPEG data URL and the
    fixed caption. *)
Definition page_thumbnail (upto : nat) (i : ImageArtifact) : Prop :=
  exists p b64,
    i = PageThumbnail p ("data:image/jpeg;base64," ++ b64)
          "Page thumbnail (no text extracted)"
    /\ 1 <= p <= upto.

(** [doc.page_count or 1] *)
Definition page_count_or_1 (doc : Pdf.Doc) : nat :=
  if (Pdf.page_count doc =? 0)%nat then 1 else Pdf.page_count doc.

(** The invariant of the local pass on blocks and images: [nb] bounds
    the pages of blocks, [np] those of thumbnails, which come in
    strictly increasing page order. *)
Definition walk_inv (N np nb : nat) (s : PdfLocals.t) : Prop :=
  PdfLocals.page_count s = N
  /\ PdfLocals.tables s = []
  /\ (forall b, In b (PdfLocals.text_blocks s) -> local_pdf_block b /\ Block.page b <= nb)
  /\ (forall i, In i (PdfLocals.images s) -> page_thumbnail np i)
  /\ StronglySorted lt (map image_page (PdfLocals.images s)).

(** How method, confidence and raw text go together in what the local
    pass leaves. *)
Definition local_summary (method : string) (confidence : float) (raw_text : string) : Prop :=
  (method = "unknown" /\ confidence = 0%float /\ raw_text = "")
  \/ (method = "pymupdf"
      /\ confidence = (if PyStr.truthy raw_text then 0.85%float else 0%float))
  \/ (method = "pymupdf_ocr" /\ confidence = 0.6%float).

(** What the local pass leaves, for a document of [N] pages (1 for an
    empty or unreadable one). *)
Definition local_pass_done (N : nat) (s : PdfLocals.t) : Prop :=
  walk_inv N N N s
  /\ local_summary (PdfLocals.method s) (PdfLocals.confidence s) (PdfLocals.raw_text s).

(** The call is [fitz.open]. *)
Definition is_open (ev : Event) : bool :=
  match ev with EvFitzOpen => true | _ => false end.

(** How many times the file was opened with PyMuPDF. *)
Definition count_opens (e : list Event) : nat := List.length (filter is_open e).

(** [tracks P m Q]: from locals satisfying [P], the locals left and the
    calls made satisfy [Q], whether the computation returns or raises. *)
Definition tracks {S A} (P : S -> Prop) (m : M S A) (Q : S -> list Event -> Prop) : Prop :=
  forall s h, P s -> Q (locals (m s h)) (calls (m s h)).

(** How the number of openings goes with the summary the local pass
    leaves. *)
Definition opens_as_summarised (s : PdfLocals.t) (e : list Event) : Prop :=
  (PdfLocals.method s = "unknown" /\ count_opens e = 1)
  \/ (PdfLocals.method s = "pymupdf" /\ 100 <= String.length (PdfLocals.raw_text s)
      /\ PdfLocals.confidence s = 0.85%float /\ count_opens e = 1)
  \/ (PdfLocals.method s = "pymupdf" /\ String.length (PdfLocals.raw_text s) < 100
      /\ count_opens e = 2)
  \/ (PdfLocals.method s = "pymupdf_ocr" /\ count_opens e = 2).

(** The characters a segment can contribute to a text of [n]
    characters: its width, cut at the end of the text. *)
Definition segment_width (n : nat) (segment : DocAI.Segment) : nat :=
  Nat.min (DocAI.end_index segment - DocAI.start_index segment)
          (n - DocAI.start_index segment).

(** The paragraphs of all the pages of an answer. *)
Definition paragraph_count (document : DocAI.Document) : nat :=
  list_sum (map (fun page => List.length (DocAI.paragraphs page)) (DocAI.pages document)).

(** The block the structured stage makes of a paragraph of a page. *)
Definition paragraph_block (document : DocAI.Document) (page : DocAI.Page)
    (paragraph : DocAI.Layout) : Block.t :=
  {| Block.text := get_text_from_layout paragraph (DocAI.text document);
     Block.page := DocAI.page_number page;
     Block.confidence :=
       if float_truthy (DocAI.confidence paragraph)
       then DocAI.confidence paragraph else 0.9%float;
     Block.type := "paragraph" |}.

(** No page of the answer has a table. *)
Definition tableless (document : DocAI.Document) : bool :=
  forallb (fun page => match DocAI.tables page with [] => true | _ :: _ => false end)
          (DocAI.pages document).

(** What the structured stage returns for a [tableless] answer. *)
Definition document_ai_result (document : DocAI.Document) : Result.t :=
  let text_blocks :=
    flat_map (fun page => map (paragraph_block document page) (DocAI.paragraphs page))
             (DocAI.pages document) in
  {| Result.method := "document_ai";
     Result.confidence :=
       match text_blocks with
       | [] => 0.9%float
       | _ => (float_sum (map Block.confidence text_blocks)
               / float_of_nat (List.length text_blocks))%float
       end;
     Result.text_blocks := text_blocks;
     Result.tables := [];
     Result.images := [];
     Result.page_count := List.length (DocAI.pages document);
     Result.raw_text := DocAI.text document |}.

(** [n] is the number of one of the pages of the answer. *)
Definition on_a_page (document : DocAI.Document) (n : nat) : Prop :=
  exists page, In page (DocAI.pages document) /\ DocAI.page_number page = n.

(** The style of the paragraph can be read, or is never asked for
    because the paragraph is blank. *)
Definition style_read_ok (para : Docx.Paragraph) : Prop :=
  PyStr.truthy (PyStr.strip (Docx.text para)) = true ->
  exists style_name, Docx.style_name para = Ok style_name.

(** A block of [extract_docx] for a paragraph. *)
Definition docx_text_block (b : Block.t) : Prop :=
  (Block.type b = "heading" \/ Block.type b = "paragraph")
  /\ Block.confidence b = 0.95%float /\ Block.page b = 1
  /\ PyStr.truthy (Block.text b) = true.

(** A block of [extract_docx] for the text of a table. *)
Definition docx_table_block (b : Block.t) : Prop :=
  Block.type b = "table" /\ Block.confidence b = 0.9%float /\ Block.page b = 1
  /\ prefix ("[Table]" ++ PyStr.nl) (Block.text b) = true.

(** The block of [extract_docx] for the text [t] of an image. *)
Definition docx_image_block (t : string) : Block.t :=
  {| Block.text := "[Image Text]" ++ PyStr.nl ++ t; Block.page := 1;
     Block.confidence := 0.7%float; Block.type := "image_ocr" |}.

(** A table record of [extract_docx]. *)
Definition docx_table (t : Table.t) : Prop :=
  Table.page t = 1 /\ Table.confidence t = 0.9%float.

(** Locals of [extract_docx] whose blocks are at most [np] paragraph
    blocks, then at most [nt] table blocks, then the blocks of the image
    texts [texts]; with [nt] table records and the records of [texts]. *)
Definition docx_groups (np nt : nat) (texts : list string) (s : DocxLocals.t) : Prop :=
  exists paras tbls,
    DocxLocals.text_blocks s = paras ++ tbls ++ map docx_image_block texts
    /\ Forall docx_text_block paras /\ List.length paras <= np
    /\ Forall docx_table_block tbls /\ List.length tbls <= nt
    /\ List.length (DocxLocals.tables s) = nt
    /\ Forall docx_table (DocxLocals.tables s)
    /\ DocxLocals.images s = map PartOcr texts
    /\ Forall (fun t => 20 < String.length t) texts.

(** The call is Vision's [text_detection]. *)
Definition is_vision (ev : Event) : bool :=
  match ev with EvVision => true | _ => false end.

(** How many images were sent to Vision. *)
Definition count_vision (e : list Event) : nat := List.length (filter is_vision e).

(** An image relationship whose bytes can be read. *)
Definition readable_image (rel : Docx.Rel) : bool :=
  PyStr.contains "image" (Docx.target_ref rel)
  && match Docx.blob rel with Ok _ => true | Raise _ => false end.

(** The image records that the [image_ocr] blocks of a presentation
    call for: one per block, with its slide and text. *)
Definition slide_ocr_records (blocks : list Block.t) : list ImageArtifact :=
  flat_map (fun b => if Block.type b =? "image_ocr"
                     then [SlideOcr (Block.page b) (Block.text b)] else [])
           blocks.

(** The four kinds of blocks of [extract_pptx]. *)
Definition pptx_block (b : Block.t) : Prop :=
  (Block.type b = "text" /\ Block.confidence b = 0.95%float
   /\ PyStr.truthy (Block.text b) = true)
  \/ (Block.type b = "table" /\ Block.confidence b = 0.9%float)
  \/ (Block.type b = "image_ocr" /\ Block.confidence b = 0.7%float
      /\ 20 < String.length (Block.text b))
  \/ (Block.type b = "speaker_notes" /\ Block.confidence b = 0.95%float).

(** The invariant of the loop over slides, up to slide [n]. *)
Definition pptx_inv (n : nat) (s : PptxLocals.t) : Prop :=
  Forall (fun b => pptx_block b /\ 1 <= Block.page b <= n) (PptxLocals.text_blocks s)
  /\ Forall (fun t => 1 <= Table.page t <= n /\ Table.confidence t = 0.9%float)
       (PptxLocals.tables s)
  /\ PptxLocals.images s = slide_ocr_records (PptxLocals.text_blocks s)
  /\ StronglySorted le (map Block.page (PptxLocals.text_blocks s)).

(** The texts a shape adds to [slide_texts]. *)
Definition shape_texts (shape : Pptx.Shape) : list string :=
  match Pptx.text_frame shape with
  | Some paragraphs => filter PyStr.truthy (map PyStr.strip paragraphs)
  | None => []
  end.

(** A slide whose shapes can be read, and on which the picture test of
    every shape (line 450) can be made. *)
Definition readable (slide : Pptx.Slide) : Prop :=
  exists shapes,
    Pptx.shapes slide = Ok shapes
    /\ Forall (fun shape => exists picture, Pptx.image shape = Ok picture) shapes.

(** Nothing is reachable; the bytes decode as UTF-8 to [utf8] and as
    Latin-1 to [latin1]. *)
Definition text_world (utf8 latin1 : exc string) : World :=
  {| uuid8 := uuid8 offline;
     strftime := strftime offline;
     elapsed_ms := elapsed_ms offline;
     http_get := http_get offline;
     process_document := process_document offline;
     text_detection := text_detection offline;
     google_token := google_token offline;
     vertex_post := vertex_post offline;
     openai_post := openai_post offline;
     fitz_open := fitz_open offline;
     Presentation := Presentation offline;
     Document := Document offline;
     decode := fun encoding _ =>
                 if encoding =? "utf-8" then utf8
                 else if encoding =? "latin-1" then latin1
                 else Raise "codec";
     decode_ignore := fun _ => "caf";
     none_not_iterable := none_not_iterable offline |}.

(** Document AI reads a scanned page and reports no paragraph. *)
Definition scan_document : DocAI.Document :=
  {| DocAI.pages :=
       [ {| DocAI.page_number := 1; DocAI.paragraphs := []; DocAI.tables := [] |} ];
     DocAI.text := "" |}.

(** A world where Document AI answers with it. *)
Definition scan_world : World :=
  sample_world (Ok scan_document) (Raise "vision unavailable")
    (Raise "no credentials") (Raise "vertex unavailable") (Raise "openai unavailable")
    (Raise "cannot open broken document") (Raise "Package not found")
    (Raise "File is not a zip file").

(** A picture with a caption of 61 characters in the same shape. *)
Definition wordy_shape : Pptx.Shape :=
  {| Pptx.text_frame :=
       Some ["Quarterly revenue by region, with the forecast for next year."];
     Pptx.table := None;
     Pptx.image := Ok (Some (Ok [])) |}.

(** What Vision reads in the picture of [picture_world]. *)
Definition picture : string := "A recognised line of text".

(** Document AI reports a table on the only page. *)
Definition table_document : DocAI.Document :=
  {| DocAI.pages :=
       [ {| DocAI.page_number := 1; DocAI.paragraphs := [];
            DocAI.tables := [ {| DocAI.header_rows := []; DocAI.body_rows := [] |} ] |} ];
     DocAI.text := "" |}.

(** A world where Document AI answers with it. *)
Definition table_world : World :=
  sample_world (Ok table_document) (Raise "vision unavailable")
    (Raise "no credentials") (Raise "vertex unavailable") (Raise "openai unavailable")
    (Raise "cannot open broken document") (Raise "Package not found")
    (Raise "File is not a zip file").

(** A linked picture: it embeds no image, and reading [shape.image]
    raises. *)
Definition linked_picture : Pptx.Shape :=
  {| Pptx.text_frame := None; Pptx.table := None;
     Pptx.image := Raise "no embedded image" |}.

(** A picture whose bytes cannot be read. *)
Definition broken_picture : Pptx.Shape :=
  {| Pptx.text_frame := None; Pptx.table := None;
     Pptx.image := Ok (Some (Raise "image part missing")) |}.

(** An image relationship whose part cannot be read. *)
Definition broken_rel : Docx.Rel :=
  {| Docx.target_ref := "media/image1.png"; Docx.blob := Raise "image part missing" |}.

(** Nothing is reachable but the storage, which serves an empty file
    at every URL. *)
Definition storage_world : World :=
  {| uuid8 := uuid8 offline;
     strftime := strftime offline;
     elapsed_ms := elapsed_ms offline;
     http_get := fun _ _ => Ok [];
     process_document := process_document offline;
     text_detection := text_detection offline;
     google_token := google_token offline;
     vertex_post := vertex_post offline;
     openai_post := openai_post offline;
     fitz_open := fitz_open offline;
     Presentation := Presentation offline;
     Document := Document offline;
     decode := decode offline;
     decode_ignore := decode_ignore offline;
     none_not_iterable := none_not_iterable offline |}.

(* ================================================================== *)
(** ** Proof automation *)
(* ================================================================== *)

(** Membership in a list written out. *)
Ltac in_list := solve [cbn; repeat (first [left; reflexivity | right])].

(** Use up a hypothesis [In ev [ev1; ...]] on events. *)
Ltac from_events H :=
  cbn in H;
  repeat (destruct H as [H | H]; [try discriminate H |]);
  try contradiction.


(* ================================================================== *)
(** ** Rules for computations *)
(* ================================================================== *)

Section Ensures.
Context {S : Type}.
Implicit Types P Q R : S -> Prop.

Lemma ensures_weaken {A} P P' Q Q' (m : M S A) :
  ensures P' m Q' -> (forall s, P s -> P' s) -> (forall s, Q' s -> Q s) ->
  ensures P m Q.
Proof. intros H HP HQ s h Hs. apply HQ, H, HP, Hs. Qed.

Lemma ensures_ret {A} P (a : A) : ensures P (ret a) P.
Proof. intros s h Hs. exact Hs. Qed.

Lemma ensures_raise {A} P msg : ensures P (@raise S A msg) P.
Proof. intros s h Hs. exact Hs. Qed.

Lemma ensures_call {A} P ev (f : list Event -> exc A) : ensures P (call ev f) P.
Proof. intros s h Hs. exact Hs. Qed.

Lemma ensures_lift_exc {A} P (r : exc A) : ensures P (lift_exc r) P.
Proof. intros s h Hs. exact Hs. Qed.

Lemma ensures_lift {A} P (m : M unit A) : ensures P (lift m) P.
Proof.
  intros s h Hs. unfold lift, locals.
  destruct (m tt h) as [[r u] e]. exact Hs.
Qed.

Lemma ensures_modify P Q (f : S -> S) :
  (forall s, P s -> Q (f s)) -> ensures P (modify f) Q.
Proof. intros H s h Hs. apply H, Hs. Qed.

Lemma ensures_bind {A B} P Q R (m : M S A) (k : A -> M S B) :
  ensures P m Q -> (forall s, Q s -> R s) ->
  (forall a, ensures Q (k a) R) ->
  ensures P (bind m k) R.
Proof.
  intros Hm HQR Hk s h Hs. specialize (Hm s h Hs).
  unfold bind, locals in *.
  destruct (m s h) as [[[a|msg] s1] e1]; cbn in *.
  - specialize (Hk a s1 (h ++ e1) Hm). unfold locals in Hk.
    destruct (k a s1 (h ++ e1)) as [[r s2] e2]. exact Hk.
  - apply HQR, Hm.
Qed.

Lemma ensures_try {A} P Q R (m : M S A) (handler : string -> M S A) :
  ensures P m Q -> (forall s, Q s -> R s) ->
  (forall msg, ensures Q (handler msg) R) ->
  ensures P (try_except m handler) R.
Proof.
  intros Hm HQR Hk s h Hs. specialize (Hm s h Hs).
  unfold try_except, locals in *.
  destruct (m s h) as [[[a|msg] s1] e1]; cbn in *.
  - apply HQR, Hm.
  - specialize (Hk msg s1 (h ++ e1) Hm). unfold locals in Hk.
    destruct (handler msg s1 (h ++ e1)) as [[r s2] e2]. exact Hk.
Qed.

(** [s <- get ;; k s]: the body may use that [s] is the current locals. *)
Lemma ensures_get {B} P R (k : S -> M S B) :
  (forall s0, ensures (fun s => s = s0 /\ P s) (k s0) R) ->
  ensures P (bind get k) R.
Proof.
  intros Hk s h Hs. unfold bind, get, locals. cbn.
  specialize (Hk s s (h ++ []) (conj eq_refl Hs)). unfold locals in Hk.
  destruct (k s s (h ++ [])) as [[r s2] e2]. exact Hk.
Qed.

Lemma ensures_when P Q (c : bool) (m : M S unit) :
  (c = true -> ensures P m Q) -> (forall s, P s -> Q s) ->
  ensures P (when c m) Q.
Proof.
  intros Hm HPQ. destruct c; cbn.
  - apply Hm; reflexivity.
  - intros s h Hs. apply HPQ, Hs.
Qed.

Lemma ensures_when_text P Q (o : option string) (body : string -> M S unit) :
  (forall t, o = Some t -> PyStr.truthy t = true -> ensures P (body t) Q) ->
  (forall s, P s -> Q s) ->
  ensures P (when_text o body) Q.
Proof.
  intros Hm HPQ. destruct o as [t|]; cbn.
  - destruct (PyStr.truthy t) eqn:E.
    + apply Hm; auto.
    + intros s h Hs. apply HPQ, Hs.
  - intros s h Hs. apply HPQ, Hs.
Qed.

Lemma ensures_for_each {A} P (l : list A) (body : A -> M S unit) :
  (forall x, In x l -> ensures P (body x) P) ->
  ensures P (for_each l body) P.
Proof.
  induction l as [|x l IH]; intros Hb; cbn.
  - apply ensures_ret.
  - apply ensures_bind with (Q := P).
    + apply Hb. now left.
    + auto.
    + intros _. apply IH. intros y Hy. apply Hb. now right.
Qed.

(** A loop over numbered items, for an invariant that follows the
    number: [P n] before item [n], [P (n + 1)] after it. *)
Lemma ensures_for_enumerate {A} (P : nat -> S -> Prop) (l : list A)
    (body : nat -> A -> M S unit) :
  (forall n x, ensures (P n) (body n x) (P (Datatypes.S n))) ->
  forall start,
    ensures (P start) (for_enumerate start l body) (fun s => exists n, P n s).
Proof.
  intros Hb. induction l as [|x l IH]; intros start; cbn.
  - intros s h Hs. exists start. exact Hs.
  - apply ensures_bind with (Q := P (Datatypes.S start)).
    + apply Hb.
    + intros s Hs. eexists; exact Hs.
    + intros _. apply IH.
Qed.
End Ensures.

Lemma ensures_for_enumerate_same {S A} (P : S -> Prop) (l : list A)
    (body : nat -> A -> M S unit) :
  (forall n x, ensures P (body n x) P) ->
  forall start, ensures P (for_enumerate start l body) P.
Proof.
  intros Hb. induction l as [|x l IH]; intros start; cbn.
  - apply ensures_ret.
  - apply ensures_bind with (Q := P); auto.
Qed.

Section MakesCall.
Context {S : Type}.





End MakesCall.

(* ================================================================== *)
(** ** The recognition cascade *)
(* ================================================================== *)

Section Cascade.
Variable cfg : Config.
Variable w : World.

Lemma ocr_with_vertex_gemini_calls img h :
  let x := ocr_with_vertex_gemini w img tt h in
  (calls x = [EvGoogleAuth] \/ calls x = [EvGoogleAuth; EvVertexGemini])
  /\ (forall t, outcome x = Ok (Some t) -> PyStr.truthy t = true).
Proof.
  unfold ocr_with_vertex_gemini, bind, call, raise, lift_exc, ret, calls, outcome.
  cbn.
  destruct (google_token w h) as [token|msg]; cbn.
  2:{ split; [now left | discriminate]. }
  destruct (PyStr.truthy token); cbn.
  2:{ split; [now left | discriminate]. }
  destruct (vertex_post w (h ++ [EvGoogleAuth]) img) as [resp|msg]; cbn.
  2:{ split; [now right | discriminate]. }
  destruct (vertex_status resp =? 200)%nat; cbn.
  2:{ split; [now right | discriminate]. }
  destruct (vertex_parts resp) as [parts|msg]; cbn.
  2:{ split; [now right | discriminate]. }
  split; [now right|].
  intros t. destruct (PyStr.truthy (PyStr.strip (PyStr.join "" parts))) eqn:E.
  - intros H; injection H as <-. exact E.
  - discriminate.
Qed.

Lemma ocr_with_openai_calls img h :
  calls (ocr_with_openai w img tt h) = [EvOpenAI].
Proof.
  unfold ocr_with_openai, bind, call, raise, lift_exc, ret, calls. cbn.
  destruct (openai_post w h img) as [resp|msg]; cbn; [|reflexivity].
  destruct (openai_status resp =? 200)%nat; cbn; [|reflexivity].
  destruct (openai_content resp); reflexivity.
Qed.

(** The third tier, as the cascade runs it: behind a [try], and only
    with a key. It never raises and calls OpenAI at most once. *)
Lemma openai_tier img h :
  let x := (if PyStr.truthy (OPENAI_API_KEY cfg)
            then try_except (ocr_with_openai w img) (fun _ => ret None)
            else ret None) tt h in
  (exists v, outcome x = Ok v)
  /\ (calls x = [] \/
      (calls x = [EvOpenAI] /\ PyStr.truthy (OPENAI_API_KEY cfg) = true)).
Proof.
  destruct (PyStr.truthy (OPENAI_API_KEY cfg)); cbn.
  - pose proof (ocr_with_openai_calls img h) as Hc.
    unfold try_except, ret, calls, outcome in *.
    destruct (ocr_with_openai w img tt h) as [[[v|msg] u] e]; cbn in *; subst e.
    + split; [eexists; reflexivity | right; split; reflexivity].
    + split; [eexists; reflexivity | right; split; reflexivity].
  - split; [eexists; reflexivity | left; reflexivity].
Qed.

Lemma generative_fallback_cascade img h :
  let x := generative_fallback cfg w img tt h in
  let vertex := ocr_with_vertex_gemini w img tt h in
  (exists v, outcome x = Ok v)
  /\ In (calls x)
        [ []; [EvGoogleAuth]; [EvGoogleAuth; EvVertexGemini];
          [EvOpenAI]; [EvGoogleAuth; EvOpenAI];
          [EvGoogleAuth; EvVertexGemini; EvOpenAI] ]
  /\ (In EvGoogleAuth (calls x) -> VERTEX_GEMINI_OCR_ENABLED cfg = true)
  /\ (In EvOpenAI (calls x) ->
      PyStr.truthy (OPENAI_API_KEY cfg) = true
      /\ (VERTEX_GEMINI_OCR_ENABLED cfg = true -> gave_text (outcome vertex) = false))
  /\ (forall t, VERTEX_GEMINI_OCR_ENABLED cfg = true ->
      outcome vertex = Ok (Some t) ->
      outcome x = Ok (Some t) /\ ~ In EvOpenAI (calls x)).
Proof.
  intros x vertex.
  destruct x as [[r u] e] eqn:Hx. subst x vertex.
  unfold generative_fallback in Hx. unfold calls, outcome. cbn [fst snd].
  destruct (VERTEX_GEMINI_OCR_ENABLED cfg) eqn:En.
  - (* Vertex Gemini is tried first *)
    pose proof (ocr_with_vertex_gemini_calls img h) as [Hc Ht].
    unfold bind at 1 in Hx. unfold try_except at 1 in Hx. unfold bind at 1 in Hx.
    unfold calls, outcome in *.
    destruct (ocr_with_vertex_gemini w img tt h) as [[rv []] ev]; cbn in Hc, Ht.
    destruct rv as [[t|]|msg]; cbn in Hx.
    + (* it returned text: final *)
      rewrite (Ht t eq_refl) in Hx. cbn in Hx. rewrite app_nil_r in Hx.
      injection Hx as <- <- <-. cbn.
      rewrite (Ht t eq_refl).
      refine (conj _ (conj _ (conj _ (conj _ _)))).
      * eexists; reflexivity.
      * destruct Hc as [-> | ->]; in_list.
      * reflexivity.
      * destruct Hc as [-> | ->]; intros H; from_events H.
      * intros t' _ Heq. split; [congruence|].
        destruct Hc as [-> | ->]; intros H; from_events H.
    + (* it returned nothing *)
      rewrite app_nil_r in Hx.
      pose proof (openai_tier img (h ++ ev)) as [[v Hv] Ho].
      unfold calls, outcome in *.
      destruct ((if PyStr.truthy (OPENAI_API_KEY cfg)
                 then try_except (ocr_with_openai w img) (fun _ => ret None)
                 else ret None) tt (h ++ ev)) as [[r2 u2] e2]; cbn in *.
      subst r2. injection Hx as <- <- <-.
      refine (conj _ (conj _ (conj _ (conj _ _)))).
      * eexists; reflexivity.
      * destruct Hc as [-> | ->]; destruct Ho as [-> | [-> _]]; in_list.
      * reflexivity.
      * intros H. split; [|reflexivity].
        destruct Ho as [-> | [-> Hk]]; [|exact Hk].
        rewrite app_nil_r in H. destruct Hc as [-> | ->]; from_events H.
      * discriminate.
    + (* it raised: absorbed *)
      pose proof (openai_tier img (h ++ ev ++ [])) as [[v Hv] Ho].
      unfold calls, outcome in *.
      destruct ((if PyStr.truthy (OPENAI_API_KEY cfg)
                 then try_except (ocr_with_openai w img) (fun _ => ret None)
                 else ret None) tt (h ++ ev ++ [])) as [[r2 u2] e2]; cbn in *.
      subst r2. rewrite app_nil_r in Hx. injection Hx as <- <- <-.
      refine (conj _ (conj _ (conj _ (conj _ _)))).
      * eexists; reflexivity.
      * destruct Hc as [-> | ->]; destruct Ho as [-> | [-> _]]; in_list.
      * reflexivity.
      * intros H. split; [|reflexivity].
        destruct Ho as [-> | [-> Hk]]; [|exact Hk].
        rewrite app_nil_r in H. destruct Hc as [-> | ->]; from_events H.
      * discriminate.
  - (* Vertex Gemini is disabled *)
    unfold bind at 1 in Hx. unfold ret at 1 in Hx. cbn in Hx.
    pose proof (openai_tier img (h ++ [])) as [[v Hv] Ho].
    unfold calls, outcome in *.
    destruct ((if PyStr.truthy (OPENAI_API_KEY cfg)
               then try_except (ocr_with_openai w img) (fun _ => ret None)
               else ret None) tt (h ++ [])) as [[r2 u2] e2]; cbn in *.
    subst r2. injection Hx as <- <- <-.
    refine (conj _ (conj _ (conj _ (conj _ _)))).
    + eexists; reflexivity.
    + destruct Ho as [-> | [-> _]]; in_list.
    + destruct Ho as [-> | [-> _]]; intros H; from_events H.
    + intros H. split; [|discriminate].
      destruct Ho as [-> | [-> Hk]]; [from_events H | exact Hk].
    + discriminate.
Qed.

(** The two generative tiers, run after the calls [h]: Vertex Gemini if
    enabled, whose text is final; otherwise OpenAI if a key is set. *)
Lemma generative_fallback_run img h :
  let vertex := ocr_with_vertex_gemini w img tt h in
  let tried := if VERTEX_GEMINI_OCR_ENABLED cfg then calls vertex else [] in
  generative_fallback cfg w img tt h
  = if VERTEX_GEMINI_OCR_ENABLED cfg && gave_text (outcome vertex)
    then (Ok (absorbed (outcome vertex)), tt, tried)
    else if PyStr.truthy (OPENAI_API_KEY cfg)
         then (Ok (absorbed (outcome (ocr_with_openai w img tt (h ++ tried)))), tt,
               tried ++ [EvOpenAI])
         else (Ok None, tt, tried).
Proof.
  cbv zeta.
  assert (Hopenai : forall h0 pre,
    (let (p, e2) :=
       (if PyStr.truthy (OPENAI_API_KEY cfg)
        then try_except (ocr_with_openai w img) (fun _ => ret None)
        else ret None) tt (h0 ++ pre) in
     let (r, s2) := p in (r, s2, pre ++ e2))
    = if PyStr.truthy (OPENAI_API_KEY cfg)
      then (Ok (absorbed (outcome (ocr_with_openai w img tt (h0 ++ pre)))), tt,
            pre ++ [EvOpenAI])
      else (Ok None, tt, pre)).
  { intros h0 pre. destruct (PyStr.truthy (OPENAI_API_KEY cfg)).
    - pose proof (ocr_with_openai_calls img (h0 ++ pre)) as Hc.
      unfold try_except, ret, calls, outcome in *.
      destruct (ocr_with_openai w img tt (h0 ++ pre)) as [[[v | msg] []] e];
        cbn in *; subst e; rewrite ?app_nil_r; reflexivity.
    - cbn. rewrite app_nil_r. reflexivity. }
  unfold generative_fallback.
  destruct (VERTEX_GEMINI_OCR_ENABLED cfg); cbn [andb].
  - pose proof (ocr_with_vertex_gemini_calls img h) as [_ Ht].
    unfold bind at 1. unfold try_except at 1. unfold bind at 1.
    unfold calls, outcome in *.
    destruct (ocr_with_vertex_gemini w img tt h) as [[rv []] ev]; cbn [fst snd] in *.
    destruct rv as [[t|]|msg]; cbn [gave_text absorbed].
    + rewrite (Ht t eq_refl). unfold ret. cbn. rewrite (Ht t eq_refl).
      rewrite !app_nil_r. reflexivity.
    + unfold ret at 1. cbn [opt_truthy fst snd]. rewrite app_nil_r.
      apply Hopenai.
    + unfold ret at 1. cbn [fst snd]. rewrite app_nil_r.
      apply Hopenai.
  - unfold bind at 1. unfold ret at 1. cbn [fst snd].
    apply (Hopenai h []).
Qed.

(** [ocr_image] is the cascade. *)
Lemma ocr_image_run img h :
  ocr_image cfg w img tt h
  = (Ok (fst (cascade cfg w img h)), tt, snd (cascade cfg w img h)).
Proof.
  assert (Hfallback :
    (let (p, e2) := generative_fallback cfg w img tt (h ++ [EvVision]) in
     let (r, s2) := p in (r, s2, [EvVision] ++ e2))
    = (let vertex := ocr_with_vertex_gemini w img tt (h ++ [EvVision]) in
       let tried :=
         if VERTEX_GEMINI_OCR_ENABLED cfg then EvVision :: calls vertex else [EvVision] in
       let c :=
         if VERTEX_GEMINI_OCR_ENABLED cfg && gave_text (outcome vertex)
         then (absorbed (outcome vertex), tried)
         else if PyStr.truthy (OPENAI_API_KEY cfg)
              then (absorbed (outcome (ocr_with_openai w img tt (h ++ tried))),
                    tried ++ [EvOpenAI])
              else (None, tried) in
       (Ok (fst c), tt, snd c))).
  { rewrite generative_fallback_run. cbv zeta.
    destruct (VERTEX_GEMINI_OCR_ENABLED cfg); cbn [andb].
    - destruct (gave_text (outcome (ocr_with_vertex_gemini w img tt (h ++ [EvVision]))));
        [reflexivity|].
      rewrite <- app_assoc.
      destruct (PyStr.truthy (OPENAI_API_KEY cfg)); reflexivity.
    - rewrite app_nil_r.
      destruct (PyStr.truthy (OPENAI_API_KEY cfg)); reflexivity. }
  unfold ocr_image, cascade, try_except. unfold bind at 1. unfold call at 1.
  destruct (text_detection w h img) as [[|d rest]|msg]; cbn [fst snd].
  - cbv zeta in Hfallback.
    destruct (generative_fallback cfg w img tt (h ++ [EvVision])) as [[r2 s2] e2].
    cbv zeta. rewrite <- Hfallback.
    injection Hfallback as -> -> _. reflexivity.
  - reflexivity.
  - cbv zeta in Hfallback. cbv zeta. rewrite <- Hfallback.
    destruct (generative_fallback cfg w img tt (h ++ [EvVision])) as [[r2 s2] e2].
    reflexivity.
Qed.

(** The order of the calls of [ocr_image], and what each call tells. *)
Lemma ocr_image_order img h :
  let x := ocr_image cfg w img tt h in
  let vision := text_detection w h img in
  let vertex := ocr_with_vertex_gemini w img tt (h ++ [EvVision]) in
  (exists v, outcome x = Ok v)
  /\ In (calls x)
        [ [EvVision]; [EvVision; EvGoogleAuth];
          [EvVision; EvGoogleAuth; EvVertexGemini];
          [EvVision; EvOpenAI]; [EvVision; EvGoogleAuth; EvOpenAI];
          [EvVision; EvGoogleAuth; EvVertexGemini; EvOpenAI] ]
  /\ (In EvGoogleAuth (calls x) ->
      VERTEX_GEMINI_OCR_ENABLED cfg = true /\ vision_gave_text vision = false)
  /\ (In EvOpenAI (calls x) ->
      PyStr.truthy (OPENAI_API_KEY cfg) = true
      /\ vision_gave_text vision = false
      /\ (VERTEX_GEMINI_OCR_ENABLED cfg = true -> gave_text (outcome vertex) = false))
  /\ (forall msg t, vision = Raise msg ->
      VERTEX_GEMINI_OCR_ENABLED cfg = true ->
      outcome vertex = Ok (Some t) ->
      outcome x = Ok (Some t) /\ ~ In EvOpenAI (calls x)).
Proof.
  intros x vision vertex.
  destruct x as [[r u] e] eqn:Hx. subst x vision vertex.
  unfold ocr_image, try_except, bind, call in Hx.
  unfold calls, outcome. cbn [fst snd].
  pose proof (generative_fallback_cascade img (h ++ [EvVision]))
    as (Hok & Hcalls & Hauth & Hopenai & Hfinal).
  unfold calls, outcome in *.
  destruct (text_detection w h img) as [[|d rest]|msg]; cbn in Hx.
  - (* Vision answered without annotations *)
    destruct (generative_fallback cfg w img tt (h ++ [EvVision]))
      as [[[v|m] []] e2]; cbn [fst snd] in *;
      [injection Hx as <- <- <- | destruct Hok as [? Hok]; discriminate Hok].
    refine (conj _ (conj _ (conj _ (conj _ _)))).
      * eexists; reflexivity.
      * from_events Hcalls; subst e2; in_list.
      * intros [H|H]; [discriminate H | auto].
      * intros [H|H]; [discriminate H |].
        destruct (Hopenai H); auto.
      * discriminate.
  - (* Vision found text: final *)
    injection Hx as <- <- <-.
    refine (conj _ (conj _ (conj _ (conj _ _)))).
    + eexists; reflexivity.
    + in_list.
    + intros H; from_events H.
    + intros H; from_events H.
    + discriminate.
  - (* Vision raised: absorbed *)
    destruct (generative_fallback cfg w img tt (h ++ [EvVision]))
      as [[[v|m] []] e2]; cbn [fst snd] in *;
      [injection Hx as <- <- <- | destruct Hok as [? Hok]; discriminate Hok].
    refine (conj _ (conj _ (conj _ (conj _ _)))).
      * eexists; reflexivity.
      * from_events Hcalls; subst e2; in_list.
      * intros [H|H]; [discriminate H | auto].
      * intros [H|H]; [discriminate H |].
        destruct (Hopenai H); auto.
      * intros msg0 t _ Hen Hv. destruct (Hfinal t) as [E Hn]; auto.
        split; [exact E|]. intros [H|H]; [discriminate H | auto].
Qed.

(** Each tier is tried when the tiers before it gave no text, and the
    text of the first tier that gives one is the result. *)
Lemma ocr_image_tiers img h :
  let x := ocr_image cfg w img tt h in
  let vision := text_detection w h img in
  let vertex := ocr_with_vertex_gemini w img tt (h ++ [EvVision]) in
  (forall description rest,
     vision = Ok (description :: rest) ->
     x = (Ok (Some (PyStr.strip description)), tt, [EvVision]))
  /\ (vision_gave_text vision = false ->
      VERTEX_GEMINI_OCR_ENABLED cfg = true ->
      calls x = EvVision :: calls vertex \/ calls x = EvVision :: calls vertex ++ [EvOpenAI])
  /\ (forall t,
        vision_gave_text vision = false ->
        VERTEX_GEMINI_OCR_ENABLED cfg = true ->
        outcome vertex = Ok (Some t) ->
        x = (Ok (Some t), tt, EvVision :: calls vertex))
  /\ (vision_gave_text vision = false ->
      (VERTEX_GEMINI_OCR_ENABLED cfg = true -> gave_text (outcome vertex) = false) ->
      PyStr.truthy (OPENAI_API_KEY cfg) = true ->
      exists tried,
        x = (Ok (absorbed (outcome (ocr_with_openai w img tt (h ++ tried)))), tt,
             tried ++ [EvOpenAI])
        /\ tried = if VERTEX_GEMINI_OCR_ENABLED cfg
                   then EvVision :: calls vertex else [EvVision])
  /\ (vision_gave_text vision = false ->
      (VERTEX_GEMINI_OCR_ENABLED cfg = true -> gave_text (outcome vertex) = false) ->
      PyStr.truthy (OPENAI_API_KEY cfg) = false ->
      outcome x = Ok None /\ ~ In EvOpenAI (calls x)).
Proof.
  cbv zeta. rewrite ocr_image_run.
  pose proof (ocr_with_vertex_gemini_calls img (h ++ [EvVision])) as [Hc Ht].
  cbv zeta in Hc, Ht.
  unfold cascade. cbv zeta.
  set (vertex := ocr_with_vertex_gemini w img tt (h ++ [EvVision])) in *.
  refine (conj _ (conj _ (conj _ (conj _ _)))).
  - intros d rest ->. reflexivity.
  - intros Hvision Hen. rewrite Hen. cbn [andb].
    destruct (text_detection w h img) as [[|d rest]|msg]; [|discriminate Hvision|];
      (destruct (gave_text (outcome vertex)); [left; reflexivity|];
       destruct (PyStr.truthy (OPENAI_API_KEY cfg)); [right | left]; reflexivity).
  - intros t Hvision Hen Hv. rewrite Hen. cbn [andb].
    unfold gave_text. rewrite Hv, (Ht t Hv). cbn [absorbed].
    destruct (text_detection w h img) as [[|d rest]|msg]; [|discriminate Hvision|];
      reflexivity.
  - intros Hvision Hvertex Hkey. rewrite Hkey.
    eexists. split; [|reflexivity].
    destruct (VERTEX_GEMINI_OCR_ENABLED cfg); cbn [andb];
      [rewrite (Hvertex eq_refl)|];
      (destruct (text_detection w h img) as [[|d rest]|msg]; [|discriminate Hvision|];
       reflexivity).
  - intros Hvision Hvertex Hkey. rewrite Hkey.
    assert (Hno : ~ In EvOpenAI (calls vertex)).
    { destruct Hc as [-> | ->]; intros H; from_events H. }
    destruct (VERTEX_GEMINI_OCR_ENABLED cfg); cbn [andb];
      [rewrite (Hvertex eq_refl)|];
      (destruct (text_detection w h img) as [[|d rest]|msg]; [|discriminate Hvision|];
       (split; [reflexivity|]; unfold calls at 1; cbn [snd];
        intros [H | H]; [discriminate H | auto])).
Qed.

(** C6. [ocr_image] never raises. Its calls are Vision, then Vertex
    Gemini (token, then request), then OpenAI, each at most once and
    in that order. Vertex Gemini is called only when enabled and Vision
    failed or found nothing; OpenAI only with a key, after Vision
    failed or found nothing, and after Vertex Gemini, if enabled,
    failed or returned nothing. When Vision fails and Vertex Gemini
    returns text, that text is the result and OpenAI is not called.
    Conversely each tier is tried when it is due, and the first text
    is the result: the first description of Vision, stripped, after
    that single call; when Vision failed or found nothing, Vertex
    Gemini is called if enabled, and its text is final; when it is
    disabled, failed or returned nothing, OpenAI is called if a key is
    set, as the last call, and what it returns is the result, its
    failure becoming [None]; without a key the result is [None]. In
    short [ocr_image] is the [cascade]. *)
Theorem ocr_image_cascade img h :
  let x := ocr_image cfg w img tt h in
  let vision := text_detection w h img in
  let vertex := ocr_with_vertex_gemini w img tt (h ++ [EvVision]) in
  (exists v, outcome x = Ok v)
  /\ In (calls x)
        [ [EvVision]; [EvVision; EvGoogleAuth];
          [EvVision; EvGoogleAuth; EvVertexGemini];
          [EvVision; EvOpenAI]; [EvVision; EvGoogleAuth; EvOpenAI];
          [EvVision; EvGoogleAuth; EvVertexGemini; EvOpenAI] ]
  /\ (In EvGoogleAuth (calls x) ->
      VERTEX_GEMINI_OCR_ENABLED cfg = true /\ vision_gave_text vision = false)
  /\ (In EvOpenAI (calls x) ->
      PyStr.truthy (OPENAI_API_KEY cfg) = true
      /\ vision_gave_text vision = false
      /\ (VERTEX_GEMINI_OCR_ENABLED cfg = true -> gave_text (outcome vertex) = false))
  /\ (forall msg t, vision = Raise msg ->
      VERTEX_GEMINI_OCR_ENABLED cfg = true ->
      outcome vertex = Ok (Some t) ->
      outcome x = Ok (Some t) /\ ~ In EvOpenAI (calls x))
  /\ x = (Ok (fst (cascade cfg w img h)), tt, snd (cascade cfg w img h))
  /\ (forall description rest,
        vision = Ok (description :: rest) ->
        x = (Ok (Some (PyStr.strip description)), tt, [EvVision]))
  /\ (vision_gave_text vision = false ->
      VERTEX_GEMINI_OCR_ENABLED cfg = true ->
      calls x = EvVision :: calls vertex \/ calls x = EvVision :: calls vertex ++ [EvOpenAI])
  /\ (forall t,
        vision_gave_text vision = false ->
        VERTEX_GEMINI_OCR_ENABLED cfg = true ->
        outcome vertex = Ok (Some t) ->
        x = (Ok (Some t), tt, EvVision :: calls vertex))
  /\ (vision_gave_text vision = false ->
      (VERTEX_GEMINI_OCR_ENABLED cfg = true -> gave_text (outcome vertex) = false) ->
      PyStr.truthy (OPENAI_API_KEY cfg) = true ->
      exists tried,
        x = (Ok (absorbed (outcome (ocr_with_openai w img tt (h ++ tried)))), tt,
             tried ++ [EvOpenAI])
        /\ tried = if VERTEX_GEMINI_OCR_ENABLED cfg
                   then EvVision :: calls vertex else [EvVision])
  /\ (vision_gave_text vision = false ->
      (VERTEX_GEMINI_OCR_ENABLED cfg = true -> gave_text (outcome vertex) = false) ->
      PyStr.truthy (OPENAI_API_KEY cfg) = false ->
      outcome x = Ok None /\ ~ In EvOpenAI (calls x)).
Proof.
  cbv zeta.
  destruct (ocr_image_order img h) as (H1 & H2 & H3 & H4 & H5).
  destruct (ocr_image_tiers img h) as (T1 & T2 & T3 & T4 & T5).
  cbv zeta in H1, H2, H3, H4, H5, T1, T2, T3, T4, T5.
  refine (conj H1 (conj H2 (conj H3 (conj H4 (conj H5
            (conj (ocr_image_run img h) (conj T1 (conj T2 (conj T3 (conj T4 T5)))))))))).
Qed.
End Cascade.

Section Facts.
Variable cfg : Config.
Variable w : World.

(** The cascade never raises. *)
Lemma ocr_image_total img h :
  exists v e, ocr_image cfg w img tt h = (Ok v, tt, e).
Proof.
  unfold ocr_image, try_except, bind, call.
  destruct (text_detection w h img) as [[|d rest]|msg]; cbn.
  - destruct (generative_fallback_cascade cfg w img (h ++ [EvVision])) as [[v Hv] _].
    unfold outcome in Hv.
    destruct (generative_fallback cfg w img tt (h ++ [EvVision])) as [[r []] e].
    cbn in Hv. subst r. eauto.
  - eauto.
  - destruct (generative_fallback_cascade cfg w img (h ++ [EvVision])) as [[v Hv] _].
    unfold outcome in Hv.
    destruct (generative_fallback cfg w img tt (h ++ [EvVision])) as [[r []] e].
    cbn in Hv. subst r. eauto.
Qed.

(** C7, as amended. For a picture handed to the cascade by the PPTX or
    DOCX extractor, recognized text of more than 20 characters is
    appended as one [image_ocr] block of confidence 0.7 together with
    its image record (in DOCX the text is prefixed with the image
    marker); text of 20 characters or fewer, or no text, changes
    nothing. The step itself never raises. *)
Theorem image_ocr_threshold slide_num img (s : PptxLocals.t) (d : DocxLocals.t) h :
  let o := outcome (ocr_image cfg w img tt h) in
  let p := pptx_image_ocr cfg w slide_num img s h in
  let q := docx_image_ocr cfg w img d h in
  outcome p = Ok tt /\ outcome q = Ok tt
  /\ (forall t, o = Ok (Some t) -> 20 < String.length t ->
      locals p =
        PptxLocals.add_image (SlideOcr slide_num t)
          (PptxLocals.add_block
             {| Block.text := t; Block.page := slide_num;
                Block.confidence := 0.7%float; Block.type := "image_ocr" |} s)
      /\ locals q =
        DocxLocals.add_image (PartOcr t)
          (DocxLocals.add_block
             {| Block.text := "[Image Text]" ++ PyStr.nl ++ t; Block.page := 1;
                Block.confidence := 0.7%float; Block.type := "image_ocr" |} d))
  /\ (forall t, o = Ok (Some t) -> String.length t <= 20 ->
      locals p = s /\ locals q = d)
  /\ (o = Ok None -> locals p = s /\ locals q = d).
Proof.
  intros o p q. subst o p q.
  unfold pptx_image_ocr, docx_image_ocr, bind, lift, outcome, locals.
  destruct (ocr_image_total img h) as (v & e & E). rewrite E. cbn [fst snd].
  destruct v as [t|].
  - destruct (PyStr.truthy t && (20 <? String.length t)%nat) eqn:C; cbn.
    + apply andb_prop in C. destruct C as [_ C]. apply Nat.ltb_lt in C.
      refine (conj eq_refl (conj eq_refl (conj _ (conj _ _)))).
      * intros t' H _; injection H as <-. split; reflexivity.
      * intros t' H Hle; injection H as <-; lia.
      * discriminate.
    + assert (Hlen : 20 < String.length t -> False).
      { intros Hl. apply Nat.ltb_lt in Hl. rewrite Hl, andb_true_r in C.
        destruct t; [cbn in Hl; discriminate | discriminate]. }
      refine (conj eq_refl (conj eq_refl (conj _ (conj _ _)))).
      * intros t' H Hl; injection H as <-; tauto.
      * intros t' H Hl. split; reflexivity.
      * discriminate.
  - cbn. refine (conj eq_refl (conj eq_refl (conj _ (conj _ _)))).
    + discriminate.
    + discriminate.
    + split; reflexivity.
Qed.
End Facts.

(* ================================================================== *)
(** ** The PDF extractor *)
(* ================================================================== *)

Lemma has_page_text_app p l l' :
  has_page_text p (l ++ l') = has_page_text p l || has_page_text p l'.
Proof. unfold has_page_text. apply existsb_app. Qed.

Lemma has_page_text_other p b :
  Block.page b <> p -> has_page_text p [b] = false.
Proof.
  intros H. unfold has_page_text. cbn [existsb].
  apply Nat.eqb_neq in H. rewrite H. reflexivity.
Qed.

Section Thumbnails.
Variable cfg : Config.
Variable w : World.

Lemma thumbnails_inv_add_block np nb b s :
  thumbnails_inv cfg np nb s -> np < Block.page b <= nb ->
  thumbnails_inv cfg np nb (PdfLocals.add_block b s).
Proof.
  intros (Hb & Hi & Hl & Hm) Hp. unfold thumbnails_inv. cbn.
  refine (conj _ (conj _ (conj Hl Hm))).
  - intros b' Hin. apply in_app_or in Hin. destruct Hin as [Hin | [<- | []]].
    + auto.
    + lia.
  - intros i Hin. destruct (Hi i Hin) as (p & u & c & -> & Hle & Hno).
    exists p, u, c. refine (conj eq_refl (conj Hle _)).
    rewrite has_page_text_app, Hno. apply has_page_text_other. lia.
Qed.

Lemma thumbnails_inv_next n s :
  thumbnails_inv cfg n (n + 1) s -> thumbnails_inv cfg (n + 1) (n + 1) s.
Proof.
  intros (Hb & Hi & Hl & Hm). refine (conj Hb (conj _ (conj Hl Hm))).
  intros i Hin. destruct (Hi i Hin) as (p & u & c & -> & Hle & Hno).
  exists p, u, c. refine (conj eq_refl (conj _ Hno)). lia.
Qed.

Lemma thumbnails_inv_start n s :
  thumbnails_inv cfg n n s -> thumbnails_inv cfg n (n + 1) s.
Proof.
  intros (Hb & Hi & Hl & Hm). refine (conj _ (conj Hi (conj Hl Hm))).
  intros b Hin. specialize (Hb b Hin). lia.
Qed.

Lemma pdf_page_image_inv n img :
  ensures (thumbnails_inv cfg n (n + 1)) (pdf_page_image cfg w n img)
          (thumbnails_inv cfg n (n + 1)).
Proof.
  unfold pdf_page_image.
  apply ensures_try with (Q := thumbnails_inv cfg n (n + 1)); auto.
  - apply ensures_bind with (Q := thumbnails_inv cfg n (n + 1)); auto.
    + apply ensures_lift_exc.
    + intros img_data.
      apply ensures_bind with (Q := thumbnails_inv cfg n (n + 1)); auto.
      * apply ensures_lift.
      * intros ocr_text. apply ensures_when_text; auto.
        intros t _ _. apply ensures_modify. intros s Hs.
        apply thumbnails_inv_add_block; [exact Hs | cbn; lia].
  - intros msg. apply ensures_ret.
Qed.

Lemma pdf_page_thumbnail_inv n page :
  ensures (thumbnails_inv cfg n (n + 1)) (pdf_page_thumbnail cfg n page)
          (thumbnails_inv cfg (n + 1) (n + 1)).
Proof.
  unfold pdf_page_thumbnail. apply ensures_get. intros s0.
  apply ensures_when.
  2:{ intros s [_ Hs]. apply thumbnails_inv_next, Hs. }
  intros Hlt. apply Z.ltb_lt in Hlt.
  apply ensures_try with (Q := thumbnails_inv cfg (n + 1) (n + 1)); auto.
  2:{ intros msg. apply ensures_ret. }
  apply ensures_when.
  2:{ intros s [_ Hs]. apply thumbnails_inv_next, Hs. }
  intros Hno. apply negb_true_iff in Hno.
  apply ensures_bind with (Q := fun s => s = s0 /\ thumbnails_inv cfg n (n + 1) s).
  - apply ensures_lift.
  - intros s [_ Hs]. apply thumbnails_inv_next, Hs.
  - intros data_url. apply ensures_when_text.
    2:{ intros s [_ Hs]. apply thumbnails_inv_next, Hs. }
    intros u _ _. apply ensures_modify. intros s [-> (Hb & Hi & Hl & Hm)].
    unfold thumbnails_inv. cbn.
    refine (conj Hb (conj _ (conj _ _))).
    + intros i Hin. apply in_app_or in Hin. destruct Hin as [Hin | [<- | []]].
      * destruct (Hi i Hin) as (p & u' & c & -> & Hle & Hnone).
        exists p, u', c. refine (conj eq_refl (conj _ Hnone)). lia.
      * eexists _, _, _. refine (conj eq_refl (conj _ Hno)). lia.
    + rewrite length_app. cbn. lia.
    + lia.
Qed.

Lemma pdf_page_inv n page :
  ensures (thumbnails_inv cfg n n) (pdf_page cfg w n page)
          (thumbnails_inv cfg (Datatypes.S n) (Datatypes.S n)).
Proof.
  replace (Datatypes.S n) with (n + 1) by lia.
  unfold pdf_page.
  apply ensures_bind with (Q := thumbnails_inv cfg n (n + 1)).
  - apply ensures_weaken with (P' := thumbnails_inv cfg n (n + 1))
                              (Q' := thumbnails_inv cfg n (n + 1)); auto.
    + apply ensures_lift_exc.
    + apply thumbnails_inv_start.
  - apply thumbnails_inv_next.
  - intros page_text.
    apply ensures_bind with (Q := thumbnails_inv cfg n (n + 1)).
    + apply ensures_when; auto. intros _. apply ensures_modify. intros s Hs.
      apply thumbnails_inv_add_block; [exact Hs | cbn; lia].
    + apply thumbnails_inv_next.
    + intros _.
      apply ensures_bind with (Q := thumbnails_inv cfg n (n + 1)).
      * apply ensures_when; auto. intros _.
        apply ensures_bind with (Q := thumbnails_inv cfg n (n + 1)); auto.
        -- apply ensures_lift_exc.
        -- intros imgs. apply ensures_for_each. intros img _.
           apply pdf_page_image_inv.
      * apply thumbnails_inv_next.
      * intros _. apply pdf_page_thumbnail_inv.
Qed.

Lemma pdf_text_layer_inv file_buffer :
  ensures (fun s => s = PdfLocals.init) (pdf_text_layer cfg w file_buffer)
          (fun s => exists n, thumbnails_inv cfg n n s).
Proof.
  assert (Hinit : forall pc, thumbnails_inv cfg 0 0
                    (PdfLocals.set_thumbnails_added 0
                       (PdfLocals.set_page_count pc PdfLocals.init))).
  { intros pc. unfold thumbnails_inv. cbn.
    refine (conj _ (conj _ (conj eq_refl _))); [tauto | tauto | lia]. }
  assert (Hinit0 : thumbnails_inv cfg 0 0 PdfLocals.init).
  { unfold thumbnails_inv. cbn.
    refine (conj _ (conj _ (conj eq_refl _))); [tauto | tauto | lia]. }
  unfold pdf_text_layer.
  apply ensures_bind with (Q := fun s => s = PdfLocals.init).
  - apply ensures_call.
  - intros s ->. exists 0. exact Hinit0.
  - intros doc.
    apply ensures_bind
      with (Q := fun s => exists pc, s = PdfLocals.set_page_count pc PdfLocals.init).
    + apply ensures_modify. intros s ->. eexists; reflexivity.
    + intros s [pc ->]. exists 0. unfold thumbnails_inv. cbn.
      refine (conj _ (conj _ (conj eq_refl _))); [tauto | tauto | lia].
    + intros _.
      apply ensures_bind with (Q := thumbnails_inv cfg 0 0).
      * apply ensures_modify. intros s [pc ->]. apply Hinit.
      * intros s Hs. exists 0. exact Hs.
      * intros _.
        apply (ensures_for_enumerate (fun n => thumbnails_inv cfg n n)).
        intros n x. apply pdf_page_inv.
Qed.
End Thumbnails.

Section PdfFacts.
Variable cfg : Config.
Variable w : World.

(** The paragraphs of a page become blocks, without a call. *)
Lemma docai_paragraphs_run (f : DocAI.Layout -> Block.t) paragraphs : forall s h,
  for_each paragraphs (fun paragraph => modify (DocAILocals.add_block (f paragraph))) s h
  = (Ok tt,
     {| DocAILocals.text_blocks := DocAILocals.text_blocks s ++ map f paragraphs;
        DocAILocals.tables := DocAILocals.tables s |}, []).
Proof.
  induction paragraphs as [|p paragraphs IH]; intros [blocks tables] h.
  - cbn. rewrite app_nil_r. reflexivity.
  - cbn [for_each]. unfold bind at 1. unfold modify at 1. rewrite IH.
    cbn. rewrite <- app_assoc. reflexivity.
Qed.

(** A page: its paragraphs become blocks; its first table, if it has
    one, raises. *)
Lemma docai_page_run document page s h :
  docai_page document page s h
  = (match DocAI.tables page with
     | [] => Ok tt
     | _ :: _ => Raise "unsupported operand type(s) for +: 'RepeatedComposite' and 'RepeatedComposite'"
     end,
     {| DocAILocals.text_blocks :=
          DocAILocals.text_blocks s
          ++ map (paragraph_block document page) (DocAI.paragraphs page);
        DocAILocals.tables := DocAILocals.tables s |}, []).
Proof.
  unfold docai_page. cbv zeta. unfold bind at 1.
  rewrite (docai_paragraphs_run (paragraph_block document page)).
  destruct (DocAI.tables page) as [|table tables]; reflexivity.
Qed.

(** The loop over pages makes no call; it returns for a [tableless]
    answer, with the blocks of all the paragraphs, and raises otherwise. *)
Lemma docai_pages_run document pages : forall s h,
  exists s',
    for_each pages (docai_page document) s h
    = (if forallb (fun page => match DocAI.tables page with [] => true | _ :: _ => false end)
                  pages
       then Ok tt
       else Raise "unsupported operand type(s) for +: 'RepeatedComposite' and 'RepeatedComposite'",
       s', [])
    /\ DocAILocals.tables s' = DocAILocals.tables s
    /\ (forallb (fun page => match DocAI.tables page with [] => true | _ :: _ => false end)
                pages = true ->
        DocAILocals.text_blocks s'
        = DocAILocals.text_blocks s
          ++ flat_map (fun page => map (paragraph_block document page)
                                       (DocAI.paragraphs page)) pages).
Proof.
  induction pages as [|page pages IH]; intros s h.
  - exists s. cbn. rewrite app_nil_r. auto.
  - cbn [for_each forallb flat_map]. unfold bind at 1. rewrite docai_page_run.
    destruct (DocAI.tables page) as [|table tables] eqn:Htables; cbn [andb].
    + match goal with |- context [for_each pages _ ?st ?hh] =>
        destruct (IH st hh) as (s' & -> & Htab & Hblocks) end.
      exists s'. cbn [DocAILocals.text_blocks DocAILocals.tables] in *.
      refine (conj eq_refl (conj Htab _)).
      intros Hall. rewrite (Hblocks Hall), <- app_assoc. reflexivity.
    + eexists. refine (conj eq_refl (conj eq_refl _)). discriminate.
Qed.

(** The structured stage, when the processor answers: one call; the
    result for a [tableless] answer, the [TypeError] otherwise. *)
Lemma document_ai_run file_buffer h document :
  process_document w h file_buffer = Ok document ->
  extract_pdf_with_document_ai w file_buffer tt h
  = (if tableless document then Ok (document_ai_result document)
     else Raise "unsupported operand type(s) for +: 'RepeatedComposite' and 'RepeatedComposite'",
     tt, [EvDocumentAI]).
Proof.
  intros Hdoc. unfold extract_pdf_with_document_ai.
  unfold bind at 1. unfold call at 1. rewrite Hdoc. cbn [fst snd].
  unfold bind at 1. unfold scoped.
  destruct (docai_pages_run document (DocAI.pages document) DocAILocals.init
              (h ++ [EvDocumentAI])) as (s' & -> & Htab & Hblocks).
  unfold tableless.
  destruct (forallb _ (DocAI.pages document)); cbn [fst snd].
  - unfold ret. cbn [app]. unfold document_ai_result. cbv zeta.
    rewrite (Hblocks eq_refl), Htab. reflexivity.
  - reflexivity.
Qed.

(** The structured stage makes one call; what it returns is tagged
    [document_ai] and has no images. *)
Lemma extract_pdf_with_document_ai_result file_buffer h :
  let x := extract_pdf_with_document_ai w file_buffer tt h in
  calls x = [EvDocumentAI] /\ locals x = tt
  /\ (forall r, outcome x = Ok r ->
      Result.method r = "document_ai" /\ Result.images r = []).
Proof.
  cbv zeta. unfold calls, locals, outcome.
  destruct (process_document w h file_buffer) as [document|msg] eqn:Hdoc.
  - rewrite (document_ai_run file_buffer h document Hdoc). cbn [fst snd].
    refine (conj eq_refl (conj eq_refl _)).
    destruct (tableless document); [|discriminate].
    intros r H; injection H as <-. split; reflexivity.
  - unfold extract_pdf_with_document_ai, bind, call. rewrite Hdoc.
    refine (conj eq_refl (conj eq_refl _)). discriminate.
Qed.

(** The two ways [extract_pdf] ends: with the structured result, or
    with the locals of the local pass. It never raises. *)
Lemma extract_pdf_cases file_buffer h :
  exists r e,
    extract_pdf cfg w file_buffer tt h = (Ok r, tt, e)
    /\ ((PyStr.truthy (DOCUMENT_AI_PROCESSOR_ID cfg) = true
         /\ outcome (extract_pdf_with_document_ai w file_buffer tt h) = Ok r
         /\ float_ge (Result.confidence r) 0.7%float = true
         /\ e = [EvDocumentAI])
        \/ (exists h',
              r = PdfLocals.result
                    (locals (try_except (pdf_local_pass cfg w file_buffer)
                               (fun _ => ret tt) PdfLocals.init h')))).
Proof.
  assert (Hlocal : forall h0 e0,
    exists r e,
      (let (p, e2) :=
         (ran <- scoped PdfLocals.init
                   (try_except (pdf_local_pass cfg w file_buffer) (fun _ => ret tt)) ;;
          ret (PdfLocals.result (snd ran))) tt h0 in
       let (r, s2) := p in (r, s2, e0 ++ e2)) = (Ok r, tt, e)
      /\ exists h',
           r = PdfLocals.result
                 (locals (try_except (pdf_local_pass cfg w file_buffer)
                            (fun _ => ret tt) PdfLocals.init h'))).
  { intros h0 e0. unfold bind, scoped.
    destruct (try_except (pdf_local_pass cfg w file_buffer) (fun _ => ret tt)
                PdfLocals.init h0) as [[r2 s2] e2] eqn:E.
    cbn. eexists _, _. split; [reflexivity|].
    exists h0. rewrite E. reflexivity. }
  unfold extract_pdf.
  destruct (PyStr.truthy (DOCUMENT_AI_PROCESSOR_ID cfg)) eqn:Hid.
  - pose proof (extract_pdf_with_document_ai_result file_buffer h) as (Hc & Hl & Hr).
    unfold bind at 1. unfold try_except at 1. unfold bind at 1.
    unfold calls, locals, outcome in *.
    destruct (extract_pdf_with_document_ai w file_buffer tt h) as [[[r|msg] u] e1];
      cbn [fst snd] in *; subst u e1.
    + unfold ret at 1.
      destruct (float_ge (Result.confidence r) 0.7%float) eqn:Hge.
      * cbn. eexists _, _. split; [reflexivity|]. left. auto.
      * destruct (Hlocal (h ++ [EvDocumentAI] ++ []) ([EvDocumentAI] ++ []))
          as (r' & e' & E & Hr').
        exists r', e'. split; [exact E | right; exact Hr'].
    + unfold ret at 1.
      destruct (Hlocal (h ++ [EvDocumentAI] ++ []) ([EvDocumentAI] ++ []))
        as (r' & e' & E & Hr').
      exists r', e'. split; [exact E | right; exact Hr'].
  - unfold bind at 1. unfold ret at 1.
    destruct (Hlocal (h ++ []) (@nil Event)) as (r' & e' & E & Hr').
    exists r', e'. split; [exact E | right; exact Hr'].
Qed.
End PdfFacts.

Section LocalPass.
Variable cfg : Config.
Variable w : World.

(** The full-page stage appends blocks and touches nothing that [P]
    looks at, until its closing assignments. *)
Lemma pdf_full_page_ocr_ensures (P Q : PdfLocals.t -> Prop) file_buffer :
  (forall s b, P s -> P (PdfLocals.add_block b s)) ->
  (forall s n, P s -> P (PdfLocals.set_page_count n s)) ->
  (forall s, P s ->
     Q (PdfLocals.set_summary (join_blocks (PdfLocals.text_blocks s))
          0.6%float "pymupdf_ocr" s)) ->
  (forall s, P s -> Q s) ->
  ensures P (pdf_full_page_ocr cfg w file_buffer) Q.
Proof.
  intros Hblock Hcount Hsum HPQ. unfold pdf_full_page_ocr.
  apply ensures_bind with (Q := P); auto.
  - apply ensures_call.
  - intros doc. apply ensures_bind with (Q := P); auto.
    + apply ensures_modify. intros s Hs. apply Hcount, Hs.
    + intros _. apply ensures_bind with (Q := P); auto.
      * apply ensures_for_enumerate_same. intros n page.
        apply ensures_bind with (Q := P); auto.
        -- apply ensures_lift_exc.
        -- intros img_data. apply ensures_bind with (Q := P); auto.
           ++ apply ensures_lift.
           ++ intros ocr_text. apply ensures_when_text; auto.
              intros t _ _. apply ensures_modify. intros s Hs. apply Hblock, Hs.
      * intros _. apply ensures_modify. exact Hsum.
Qed.

Lemma pdf_local_pass_images file_buffer :
  ensures (fun s => s = PdfLocals.init) (pdf_local_pass cfg w file_buffer)
          (fun s => thumbnails_within cfg (PdfLocals.images s)).
Proof.
  set (TW := fun s => thumbnails_within cfg (PdfLocals.images s)).
  assert (Hinv : forall s, (exists n, thumbnails_inv cfg n n s) -> TW s).
  { intros s (n & Hb & Hi & Hl & Hm). split.
    - rewrite Hl. exact Hm.
    - intros i Hin. destruct (Hi i Hin) as (p & u & c & -> & _). eauto. }
  unfold pdf_local_pass.
  apply ensures_bind with (Q := TW); auto.
  - eapply ensures_weaken; [apply pdf_text_layer_inv | auto | exact Hinv].
  - intros _. apply ensures_bind with (Q := TW); auto.
    + apply ensures_modify. intros s Hs. exact Hs.
    + intros _. apply ensures_get. intros s0. apply ensures_when.
      * intros _.
        apply ensures_weaken with (P' := TW) (Q' := TW); auto.
        -- apply pdf_full_page_ocr_ensures; auto.
        -- intros s [_ Hs]; exact Hs.
      * intros s [_ Hs]; exact Hs.
Qed.

Lemma pdf_text_layer_method file_buffer :
  ensures (fun s => PdfLocals.method s = "unknown")
          (pdf_text_layer cfg w file_buffer)
          (fun s => PdfLocals.method s = "unknown").
Proof.
  set (U := fun s => PdfLocals.method s = "unknown").
  unfold pdf_text_layer.
  apply ensures_bind with (Q := U); auto.
  - apply ensures_call.
  - intros doc. apply ensures_bind with (Q := U); auto.
    + apply ensures_modify. auto.
    + intros _. apply ensures_bind with (Q := U); auto.
      * apply ensures_modify. auto.
      * intros _. apply ensures_for_enumerate_same. intros n page.
        unfold pdf_page.
        apply ensures_bind with (Q := U); auto.
        -- apply ensures_lift_exc.
        -- intros page_text. apply ensures_bind with (Q := U); auto.
           ++ apply ensures_when; auto. intros _. apply ensures_modify. auto.
           ++ intros _. apply ensures_bind with (Q := U); auto.
              ** apply ensures_when; auto. intros _.
                 apply ensures_bind with (Q := U); auto.
                 --- apply ensures_lift_exc.
                 --- intros imgs. apply ensures_for_each. intros img _.
                     unfold pdf_page_image.
                     apply ensures_try with (Q := U); auto.
                     +++ apply ensures_bind with (Q := U); auto.
                         *** apply ensures_lift_exc.
                         *** intros img_data. apply ensures_bind with (Q := U); auto.
                             ---- apply ensures_lift.
                             ---- intros ocr_text. apply ensures_when_text; auto.
                                  intros t _ _. apply ensures_modify. auto.
                     +++ intros msg. apply ensures_ret.
              ** intros _. unfold pdf_page_thumbnail.
                 apply ensures_get. intros s0. apply ensures_when.
                 2:{ intros s [_ Hs]; exact Hs. }
                 intros _. apply ensures_try with (Q := U); auto.
                 2:{ intros msg. apply ensures_ret. }
                 apply ensures_when.
                 2:{ intros s [_ Hs]; exact Hs. }
                 intros _.
                 apply ensures_bind with (Q := U); auto.
                 --- apply ensures_weaken with (P' := U) (Q' := U);
                       [apply ensures_lift | intros s [_ Hs]; exact Hs | auto].
                 --- intros data_url. apply ensures_when_text; auto.
                     intros u _ _. apply ensures_modify. auto.
Qed.

Lemma pdf_local_pass_summary file_buffer :
  ensures (fun s => PdfLocals.method s = "unknown")
          (pdf_local_pass cfg w file_buffer)
          (fun s => summary_joined (PdfLocals.method s) (PdfLocals.raw_text s)
                      (PdfLocals.text_blocks s)).
Proof.
  set (D := fun s => summary_joined (PdfLocals.method s) (PdfLocals.raw_text s)
                       (PdfLocals.text_blocks s)).
  set (U := fun s => PdfLocals.method s = "unknown").
  set (J := fun s => PdfLocals.method s = "pymupdf"
                     /\ PdfLocals.raw_text s = join_blocks (PdfLocals.text_blocks s)).
  set (L := fun s => PdfLocals.method s = "pymupdf"
                     /\ String.length (PdfLocals.raw_text s) < 100).
  assert (HU : forall s, U s -> D s).
  { intros s Hs [H | [H _]]; unfold U in Hs; rewrite Hs in H; discriminate H. }
  assert (HJ : forall s, J s -> D s).
  { intros s [_ Hs] _. exact Hs. }
  assert (HL : forall s, L s -> D s).
  { intros s [Hm Hlen] [H | [_ H]]; [rewrite Hm in H; discriminate H | lia]. }
  unfold pdf_local_pass.
  apply ensures_bind with (Q := U); auto.
  - apply pdf_text_layer_method.
  - intros _. apply ensures_bind with (Q := J); auto.
    + apply ensures_modify. intros s _. split; reflexivity.
    + intros _. apply ensures_get. intros s0. apply ensures_when.
      * intros Hlt. apply Nat.ltb_lt in Hlt.
        apply ensures_weaken with (P' := L) (Q' := D); auto.
        -- apply pdf_full_page_ocr_ensures; auto.
           intros s _ _. reflexivity.
        -- intros s [-> [Hm _]]. split; [exact Hm | exact Hlt].
      * intros s [_ Hs]. apply HJ, Hs.
Qed.
End LocalPass.

(* ================================================================== *)
(** ** The handler *)
(* ================================================================== *)

Section Orchestrator.
Variable cfg : Config.
Variable w : World.

(** The handler's last step cannot raise and makes no call. *)
Lemma respond_run result file_buffer filename file_type request_id h :
  respond w result file_buffer filename file_type request_id tt h =
  (Ok (Success request_id (elapsed_ms w (h ++ []))
         (build_canonical_model (ResultDict.of_result result) filename file_type
            (List.length file_buffer) request_id (strftime w h))
         {| meta_filename := filename;
            meta_fileType := file_type;
            meta_fileSize := List.length file_buffer;
            meta_extractionMethod := Result.method result;
            meta_confidence := Result.confidence result |}),
   tt, []).
Proof. reflexivity. Qed.

(** C4. With a processor configured, a result of the structured stage
    whose confidence is at least 0.7 is what [extract_pdf] returns; the
    only call made is the one to Document AI, so neither PyMuPDF, nor a
    thumbnail rendering, nor any recognition tier is invoked; and the
    canonical document built by the handler has method [document_ai]. *)
Theorem structured_result_is_final file_buffer h r :
  PyStr.truthy (DOCUMENT_AI_PROCESSOR_ID cfg) = true ->
  outcome (extract_pdf_with_document_ai w file_buffer tt h) = Ok r ->
  float_ge (Result.confidence r) 0.7%float = true ->
  extract_pdf cfg w file_buffer tt h = (Ok r, tt, [EvDocumentAI])
  /\ Result.method r = "document_ai"
  /\ forall filename mimetype request_id,
       detect_file_type filename mimetype = "pdf" ->
       exists ms canonical metadata,
         dispatch cfg w file_buffer filename mimetype request_id tt h =
           (Ok (Success request_id ms canonical metadata), tt, [EvDocumentAI])
         /\ Canonical.method (Canonical.extraction canonical) = "document_ai".
Proof.
  intros Hid Hr Hge.
  pose proof (extract_pdf_with_document_ai_result w file_buffer h) as (Hc & Hl & Hm).
  destruct (Hm r Hr) as [Hmethod _].
  assert (Hrun : extract_pdf cfg w file_buffer tt h = (Ok r, tt, [EvDocumentAI])).
  { unfold extract_pdf. rewrite Hid.
    unfold bind at 1. unfold try_except at 1. unfold bind at 1.
    unfold calls, locals, outcome in *.
    destruct (extract_pdf_with_document_ai w file_buffer tt h) as [[r0 u] e].
    cbn [fst snd] in *. subst r0 u e.
    unfold ret at 1. rewrite Hge. reflexivity. }
  refine (conj Hrun (conj Hmethod _)).
  intros filename mimetype request_id Hpdf.
  unfold dispatch, dispatch_type. rewrite Hpdf. cbn [String.eqb Ascii.eqb Bool.eqb].
  unfold bind. rewrite Hrun. rewrite respond_run. cbn.
  eexists _, _, _. split; [reflexivity | exact Hmethod].
Qed.

End Orchestrator.

Lemma str_in_cons x y l : str_in x (y :: l) = (x =? y) || str_in x l.
Proof. reflexivity. Qed.

Section Orchestrator2.
Variable cfg : Config.
Variable w : World.

(** On strings the detector for values that may be [None] is the
    detector. *)
Lemma detect_file_type_py_strings filename mimetype :
  detect_file_type_py w (Some filename) (Some mimetype)
  = Ok (detect_file_type filename mimetype).
Proof.
  unfold detect_file_type_py, detect_file_type, py_in, exc_bind. cbv zeta.
  repeat match goal with
         | |- context [if ?c then _ else _] => destruct c; cbn [orb]
         end; reflexivity.
Qed.

(** On [None] for a file name the detector raises. *)
Lemma detect_file_type_py_returns filename mimetype file_type :
  detect_file_type_py w filename mimetype = Ok file_type ->
  exists f, filename = Some f.
Proof. destruct filename as [f|]; [eauto | discriminate]. Qed.

(** A request that brings a file is answered by the extractor of its
    type, inside the [try] of the handler. *)
Lemma extract_received request h file_buffer filename file_type pre :
  received w h request = Some (file_buffer, filename, file_type, pre) ->
  extract cfg w request tt h
  = answered (uuid8 w) pre
      (dispatch_type cfg w file_buffer filename file_type (uuid8 w) tt (h ++ pre)).
Proof.
  unfold received, extract, try_except, answered.
  destruct request as [content fname ctype | signedUrl fileName mimeType | error | ].
  - intros H. injection H as <- <- <- <-. rewrite app_nil_r. unfold dispatch.
    destruct (dispatch_type cfg w content (str_or fname "document")
                (detect_file_type (str_or fname "document") (str_or ctype ""))
                (uuid8 w) tt h) as [[[r | msg] u] e]; cbn; rewrite ?app_nil_r; reflexivity.
  - destruct signedUrl as [| | url]; try discriminate.
    destruct (PyStr.truthy url); [|discriminate].
    unfold bind at 1. unfold call at 1.
    destruct (http_get w h url) as [fb | msg]; [|discriminate].
    cbn [fst snd].
    destruct (jget fileName "document") as [f|]; [|discriminate].
    unfold bind at 1. unfold lift_exc at 1.
    destruct (detect_file_type_py w (Some f) (jget mimeType "")) as [ft | msg];
      [|discriminate].
    intros H. injection H as <- <- <- <-. cbn [fst snd dict_get].
    rewrite app_nil_r.
    destruct (dispatch_type cfg w fb f ft (uuid8 w) tt (h ++ [EvDownload]))
      as [[[r | msg] u] e]; cbn; rewrite ?app_nil_r; reflexivity.
  - discriminate.
  - discriminate.
Qed.

(** A request that brings no file is answered 400 without a call, or
    500 with the request id after at most the download. *)
Lemma extract_not_received request h :
  received w h request = None ->
  exists response e,
    extract cfg w request tt h = (Ok response, tt, e)
    /\ ((response = ErrorResponse 400 "No file provided" None /\ e = [])
        \/ (exists msg, response = ErrorResponse 500 msg (Some (uuid8 w)))
           /\ (e = [] \/ e = [EvDownload])).
Proof.
  unfold received, extract, try_except.
  destruct request as [content fname ctype | signedUrl fileName mimeType | error | ].
  - discriminate.
  - destruct signedUrl as [| | url].
    + intros _. eexists _, _. split; [reflexivity | left; split; reflexivity].
    + intros _. eexists _, _. split; [reflexivity | left; split; reflexivity].
    + destruct (PyStr.truthy url);
        [|intros _; eexists _, _; split; [reflexivity | left; split; reflexivity]].
      unfold bind at 1. unfold call at 1.
      destruct (http_get w h url) as [fb | msg].
      * cbn [fst snd]. unfold bind at 1. unfold lift_exc at 1.
        destruct (detect_file_type_py w (jget fileName "document") (jget mimeType ""))
          as [ft | msg] eqn:Hdetect.
        -- destruct (detect_file_type_py_returns _ _ _ Hdetect) as [f ->]. discriminate.
        -- intros _. cbn. eexists _, _. split; [reflexivity|].
           right. split; [eauto | right; reflexivity].
      * intros _. cbn. eexists _, _. split; [reflexivity|].
        right. split; [eauto | right; reflexivity].
  - intros _. cbn. eexists _, _. split; [reflexivity|].
    right. split; [eauto | left; reflexivity].
  - intros _. eexists _, _. split; [reflexivity | left; split; reflexivity].
Qed.

Lemma extract_pptx_open_fails file_buffer msg h :
  Presentation w file_buffer = Raise msg ->
  extract_pptx cfg w file_buffer tt h = (Raise msg, tt, [EvPresentation]).
Proof.
  intros H. unfold extract_pptx, bind, scoped, call. rewrite H. reflexivity.
Qed.

Lemma extract_docx_open_fails file_buffer msg h :
  Document w file_buffer = Raise msg ->
  extract_docx cfg w file_buffer tt h = (Raise msg, tt, [EvDocument]).
Proof.
  intros H. unfold extract_docx, docx_body, bind, scoped, call. rewrite H. reflexivity.
Qed.

Lemma extract_pdf_open_fails file_buffer msg h :
  PyStr.truthy (DOCUMENT_AI_PROCESSOR_ID cfg) = false ->
  fitz_open w file_buffer = Raise msg ->
  extract_pdf cfg w file_buffer tt h =
    (Ok (PdfLocals.result PdfLocals.init), tt, [EvFitzOpen]).
Proof.
  intros Hid H. unfold extract_pdf. rewrite Hid.
  unfold pdf_local_pass, pdf_text_layer, bind, scoped, try_except, call, ret.
  rewrite H. reflexivity.
Qed.


(** C2, as amended. For a request that brings a file, uploaded or
    downloaded from a signed URL: when the file is dispatched to the
    PPTX or to the DOCX extractor and the extractor raises, the handler
    answers with status 500, the message of the exception and the
    request id, and no canonical model; a container that cannot be
    opened makes these extractors raise. PDF is different by design:
    [extract_pdf] catches the failures of its stages, so the handler
    always answers a PDF with a success response; when the file cannot
    be opened the canonical model has method [unknown], confidence 0.0
    and no text. *)
Theorem container_failure_surfaces request h file_buffer filename file_type pre :
  received w h request = Some (file_buffer, filename, file_type, pre) ->
  let response := outcome (extract cfg w request tt h) in
  (forall msg,
     str_in file_type ["pptx"; "ppt"] = true ->
     outcome (extract_pptx cfg w file_buffer tt (h ++ pre)) = Raise msg ->
     response = Ok (ErrorResponse 500 msg (Some (uuid8 w))))
  /\ (forall msg,
        str_in file_type ["docx"; "doc"] = true ->
        outcome (extract_docx cfg w file_buffer tt (h ++ pre)) = Raise msg ->
        response = Ok (ErrorResponse 500 msg (Some (uuid8 w))))
  /\ (forall msg h',
        Presentation w file_buffer = Raise msg ->
        outcome (extract_pptx cfg w file_buffer tt h') = Raise msg)
  /\ (forall msg h',
        Document w file_buffer = Raise msg ->
        outcome (extract_docx cfg w file_buffer tt h') = Raise msg)
  /\ (file_type = "pdf" ->
      exists ms canonical metadata,
        response = Ok (Success (uuid8 w) ms canonical metadata))
  /\ (forall msg,
        file_type = "pdf" ->
        PyStr.truthy (DOCUMENT_AI_PROCESSOR_ID cfg) = false ->
        fitz_open w file_buffer = Raise msg ->
        exists ms canonical metadata,
          response = Ok (Success (uuid8 w) ms canonical metadata)
          /\ Canonical.method (Canonical.extraction canonical) = "unknown"
          /\ Canonical.confidence (Canonical.extraction canonical) = 0%float
          /\ Canonical.text_blocks (Canonical.content canonical) = []
          /\ Canonical.full_text (Canonical.content canonical) = "").
Proof.
  intros Hrec response. subst response.
  assert (Hpdf_tag : forall x, str_in x ["pptx"; "ppt"] = true -> (x =? "pdf") = false).
  { intros x Hx. rewrite !str_in_cons in Hx.
    destruct (x =? "pptx") eqn:E1; [apply String.eqb_eq in E1; subst x; reflexivity|].
    destruct (x =? "ppt") eqn:E2; [apply String.eqb_eq in E2; subst x; reflexivity|].
    discriminate Hx. }
  assert (Hdoc_tag : forall x, str_in x ["docx"; "doc"] = true ->
                       (x =? "pdf") = false /\ str_in x ["pptx"; "ppt"] = false).
  { intros x Hx. rewrite !str_in_cons in Hx.
    destruct (x =? "docx") eqn:E1; [apply String.eqb_eq in E1; subst x; split; reflexivity|].
    destruct (x =? "doc") eqn:E2; [apply String.eqb_eq in E2; subst x; split; reflexivity|].
    discriminate Hx. }
  rewrite (extract_received _ _ _ _ _ _ Hrec).
  unfold answered, dispatch_type, outcome. cbv zeta.
  refine (conj _ (conj _ (conj _ (conj _ (conj _ _))))).
  - intros msg Hft Hraise. rewrite (Hpdf_tag _ Hft), Hft.
    unfold bind.
    destruct (extract_pptx cfg w file_buffer tt (h ++ pre)) as [[[r | m] u] e];
      cbn in Hraise; [discriminate Hraise|].
    injection Hraise as ->. reflexivity.
  - intros msg Hft Hraise. destruct (Hdoc_tag _ Hft) as [H1 H2].
    rewrite H1, H2, Hft. unfold bind.
    destruct (extract_docx cfg w file_buffer tt (h ++ pre)) as [[[r | m] u] e];
      cbn in Hraise; [discriminate Hraise|].
    injection Hraise as ->. reflexivity.
  - intros msg h' Hopen. rewrite (extract_pptx_open_fails _ _ _ Hopen). reflexivity.
  - intros msg h' Hopen. rewrite (extract_docx_open_fails _ _ _ Hopen). reflexivity.
  - intros ->. cbn [String.eqb Ascii.eqb Bool.eqb]. unfold bind.
    destruct (extract_pdf_cases cfg w file_buffer (h ++ pre)) as (r & e & Hrun & _).
    rewrite Hrun, respond_run. cbn. eexists _, _, _. reflexivity.
  - intros msg -> Hid Hopen. cbn [String.eqb Ascii.eqb Bool.eqb].
    unfold bind. rewrite (extract_pdf_open_fails _ _ _ Hid Hopen).
    rewrite respond_run. cbn.
    eexists _, _, _. split; [reflexivity|]. repeat split.
Qed.

(** A success response comes from [respond]: it carries the request id
    and the canonical document the builder made of some result. *)
Lemma dispatch_type_success file_buffer filename file_type request_id h rid ms canonical
    metadata u e :
  dispatch_type cfg w file_buffer filename file_type request_id tt h
    = (Ok (Success rid ms canonical metadata), u, e) ->
  rid = request_id
  /\ exists result now,
       canonical = build_canonical_model (ResultDict.of_result result) filename
                     file_type (List.length file_buffer) request_id now.
Proof.
  assert (Hstep : forall (m : M unit Result.t),
            bind m (fun result =>
                      respond w result file_buffer filename file_type request_id) tt h
              = (Ok (Success rid ms canonical metadata), u, e) ->
            rid = request_id
            /\ exists result now,
                 canonical = build_canonical_model (ResultDict.of_result result) filename
                               file_type (List.length file_buffer) request_id now).
  { intros m H. unfold bind in H.
    destruct (m tt h) as [[[result | msg] []] e1]; [|discriminate H].
    rewrite respond_run in H. injection H as <- _ <- _ _ _.
    split; [reflexivity|]. eexists _, _. reflexivity. }
  unfold dispatch_type.
  destruct (file_type =? "pdf"); [apply Hstep|].
  destruct (str_in file_type ["pptx"; "ppt"]); [apply Hstep|].
  destruct (str_in file_type ["docx"; "doc"]); [apply Hstep|].
  destruct (file_type =? "txt"); [apply Hstep|].
  discriminate.
Qed.

Lemma dispatch_success file_buffer filename mimetype request_id h rid ms canonical metadata u e :
  dispatch cfg w file_buffer filename mimetype request_id tt h
    = (Ok (Success rid ms canonical metadata), u, e) ->
  rid = request_id
  /\ exists result now,
       canonical = build_canonical_model (ResultDict.of_result result) filename
                     (detect_file_type filename mimetype) (List.length file_buffer)
                     request_id now.
Proof. apply dispatch_type_success. Qed.

Lemma extract_success request h rid ms canonical metadata :
  outcome (extract cfg w request tt h) = Ok (Success rid ms canonical metadata) ->
  exists result filename file_type file_size now,
    canonical = build_canonical_model (ResultDict.of_result result) filename file_type
                  file_size rid now.
Proof.
  unfold outcome. intros H.
  destruct (received w h request) as [[[[fb f] ft] pre]|] eqn:Hrec.
  - rewrite (extract_received _ _ _ _ _ _ Hrec) in H. unfold answered in H.
    destruct (dispatch_type cfg w fb f ft (uuid8 w) tt (h ++ pre))
      as [[[resp | msg] u] e] eqn:E; cbn in H; [|discriminate H].
    injection H as ->.
    destruct (dispatch_type_success _ _ _ _ _ _ _ _ _ _ _ E) as (-> & result & now & ->).
    eexists _, _, _, _, _. reflexivity.
  - destruct (extract_not_received _ _ Hrec)
      as (resp & e & E & [[-> _] | [[msg ->] _]]);
      rewrite E in H; discriminate H.
Qed.
End Orchestrator2.

(* ================================================================== *)
(** ** The builder, the detector, and the extractors' results *)
(* ================================================================== *)

(** C1. Whatever result dictionary and file metadata the builder is
    given, the statistics of the canonical document agree with its
    content: [total_chars] is the length of [full_text] and
    [total_blocks] the number of [text_blocks]. The same holds of the
    canonical document in every success response of the handler. *)
Theorem canonical_stats_match_content result filename file_type file_size request_id now :
  let canonical :=
    build_canonical_model result filename file_type file_size request_id now in
  (Canonical.total_chars (Canonical.stats canonical)
     = String.length (Canonical.full_text (Canonical.content canonical))
   /\ Canonical.total_blocks (Canonical.stats canonical)
     = List.length (Canonical.text_blocks (Canonical.content canonical)))
  /\ forall cfg w request h rid ms document metadata,
       outcome (extract cfg w request tt h) = Ok (Success rid ms document metadata) ->
       Canonical.total_chars (Canonical.stats document)
         = String.length (Canonical.full_text (Canonical.content document))
       /\ Canonical.total_blocks (Canonical.stats document)
         = List.length (Canonical.text_blocks (Canonical.content document)).
Proof.
  cbv zeta. split; [split; reflexivity|].
  intros cfg w request h rid ms document metadata H.
  destruct (extract_success cfg w request h rid ms document metadata H)
    as (r & fn & ft & sz & t & ->).
  split; reflexivity.
Qed.

(** C9. Two runs of the builder on the same arguments differ at most
    in [extraction.timestamp]: replacing it makes the documents equal,
    and every other field is the same. The builder has no failing
    outcome, and the handler's last step, which calls it, returns
    without raising and without any call. *)
Theorem build_canonical_model_only_timestamp_varies
    result filename file_type file_size request_id now1 now2 :
  let d1 := build_canonical_model result filename file_type file_size request_id now1 in
  let d2 := build_canonical_model result filename file_type file_size request_id now2 in
  Canonical.with_timestamp now2 d1 = d2
  /\ Canonical.id d1 = Canonical.id d2
  /\ Canonical.filename d1 = Canonical.filename d2
  /\ Canonical.file_type d1 = Canonical.file_type d2
  /\ Canonical.file_size d1 = Canonical.file_size d2
  /\ Canonical.method (Canonical.extraction d1) = Canonical.method (Canonical.extraction d2)
  /\ Canonical.confidence (Canonical.extraction d1)
     = Canonical.confidence (Canonical.extraction d2)
  /\ Canonical.structure d1 = Canonical.structure d2
  /\ Canonical.content d1 = Canonical.content d2
  /\ Canonical.stats d1 = Canonical.stats d2
  /\ Canonical.timestamp (Canonical.extraction d1) = now1
  /\ forall w (r : Result.t) file_buffer h,
       exists ms metadata,
         respond w r file_buffer filename file_type request_id tt h =
           (Ok (Success request_id ms
                  (build_canonical_model (ResultDict.of_result r) filename file_type
                     (List.length file_buffer) request_id (strftime w h))
                  metadata), tt, []).
Proof.
  cbv zeta. repeat (split; [reflexivity|]).
  intros w r file_buffer h. rewrite respond_run. eexists _, _. reflexivity.
Qed.

(** C3, as amended. Detection is the first of five tests that accepts,
    in the order pdf, pptx, docx, txt, image, and [unknown] when none
    does; each of the first four tests accepts its extensions or its
    MIME keywords (pdf; presentation, powerpoint; word, document;
    text/plain), and the image test its extensions alone. So a
    recognized extension gives its format's tag provided the MIME type
    names no format tested before it; a MIME type containing [pdf]
    gives [pdf] for every filename; a keyword of a format gives that
    format when the extension is not recognized and the MIME type names
    no format tested before; and the answer is [image] exactly for an
    image extension with a MIME type that names none of the four
    formats. *)
Theorem extension_wins_unless_earlier_mime filename mimetype :
  (forall tag,
     extension_tag (extension filename) = Some tag ->
     mime_names_earlier tag mimetype = false ->
     detect_file_type filename mimetype = tag)
  /\ (PyStr.contains "pdf" mimetype = true ->
      detect_file_type filename mimetype = "pdf")
  /\ detect_file_type filename mimetype = first_accepted (extension filename) mimetype
  /\ (forall tag extensions keywords kw,
        In (tag, extensions, keywords) format_tests ->
        In kw keywords ->
        PyStr.contains kw mimetype = true ->
        extension_tag (extension filename) = None ->
        mime_names_earlier tag mimetype = false ->
        detect_file_type filename mimetype = tag)
  /\ (detect_file_type filename mimetype = "image"
      <-> extension_tag (extension filename) = Some "image"
          /\ mime_names_earlier "image" mimetype = false).
Proof.
  unfold detect_file_type, extension_tag. cbv zeta.
  generalize (extension filename) as ext. intros ext.
  refine (conj _ (conj _ (conj _ (conj _ _)))).
  - intros tag.
    destruct (ext =? "pdf") eqn:E1.
    { intros H _. injection H as <-. reflexivity. }
    destruct (str_in ext ["pptx"; "ppt"]) eqn:E2.
    { intros H Hm. injection H as <-. cbn in Hm.
      rewrite orb_false_r in Hm. rewrite Hm. reflexivity. }
    destruct (str_in ext ["docx"; "doc"]) eqn:E3.
    { intros H Hm. injection H as <-. cbn in Hm.
      repeat (apply orb_false_iff in Hm; destruct Hm as [? Hm]).
      repeat match goal with H : PyStr.contains _ _ = false |- _ => rewrite H; clear H end.
      reflexivity. }
    destruct (ext =? "txt") eqn:E4.
    { intros H Hm. injection H as <-. cbn in Hm.
      repeat (apply orb_false_iff in Hm; destruct Hm as [? Hm]).
      repeat match goal with H : PyStr.contains _ _ = false |- _ => rewrite H; clear H end.
      reflexivity. }
    destruct (str_in ext ["png"; "jpg"; "jpeg"; "webp"; "gif"]) eqn:E5.
    { intros H Hm. injection H as <-. cbn in Hm.
      repeat (apply orb_false_iff in Hm; destruct Hm as [? Hm]).
      repeat match goal with H : PyStr.contains _ _ = false |- _ => rewrite H; clear H end.
      reflexivity. }
    discriminate.
  - intros ->. rewrite orb_true_r. reflexivity.
  - unfold first_accepted, format_tests, accepts. cbn [find existsb].
    rewrite !str_in_cons. cbn [str_in existsb]. rewrite ?orb_false_r, <- ?orb_assoc.
    repeat match goal with
           | |- (if ?c then _ else _) = _ => destruct c; [reflexivity|]
           end.
    reflexivity.
  - intros tag extensions keywords kw Htest Hkw Hin Hext Hm.
    assert (E1 : (ext =? "pdf") = false) by (destruct (ext =? "pdf"); [discriminate Hext | reflexivity]).
    rewrite E1 in Hext |- *.
    assert (E2 : str_in ext ["pptx"; "ppt"] = false)
      by (destruct (str_in ext ["pptx"; "ppt"]); [discriminate Hext | reflexivity]).
    rewrite E2 in Hext |- *.
    assert (E3 : str_in ext ["docx"; "doc"] = false)
      by (destruct (str_in ext ["docx"; "doc"]); [discriminate Hext | reflexivity]).
    rewrite E3 in Hext |- *.
    assert (E4 : (ext =? "txt") = false) by (destruct (ext =? "txt"); [discriminate Hext | reflexivity]).
    rewrite E4 in Hext |- *.
    cbn [orb].
    unfold format_tests in Htest. cbn [In] in Htest.
    destruct Htest as [H | [H | [H | [H | [H | []]]]]]; injection H as <- <- <-;
      cbn [In] in Hkw; cbn in Hm;
      repeat (apply orb_false_iff in Hm; destruct Hm as [? Hm]);
      repeat match goal with H : PyStr.contains _ _ = false |- _ => rewrite H; clear H end;
      repeat match goal with
             | H : _ \/ _ |- _ => destruct H as [H | H]
             | H : False |- _ => destruct H
             end;
      subst kw; rewrite Hin; cbn [orb]; rewrite ?orb_true_r; reflexivity.
  - split.
    + intros H.
      destruct (ext =? "pdf"); [discriminate H|].
      destruct (PyStr.contains "pdf" mimetype) eqn:M1; [discriminate H|].
      destruct (str_in ext ["pptx"; "ppt"]); [discriminate H|].
      destruct (PyStr.contains "presentation" mimetype) eqn:M2; [discriminate H|].
      destruct (PyStr.contains "powerpoint" mimetype) eqn:M3; [discriminate H|].
      destruct (str_in ext ["docx"; "doc"]); [discriminate H|].
      destruct (PyStr.contains "word" mimetype) eqn:M4; [discriminate H|].
      destruct (PyStr.contains "document" mimetype) eqn:M5; [discriminate H|].
      destruct (ext =? "txt"); [discriminate H|].
      destruct (PyStr.contains "text/plain" mimetype) eqn:M6; [discriminate H|].
      destruct (str_in ext ["png"; "jpg"; "jpeg"; "webp"; "gif"]); [|discriminate H].
      split; [reflexivity|]. cbn. rewrite M1, M2, M3, M4, M5, M6. reflexivity.
    + intros [Hext Hm]. cbn in Hm.
      repeat (apply orb_false_iff in Hm; destruct Hm as [? Hm]).
      repeat match goal with H : PyStr.contains _ _ = false |- _ => rewrite H; clear H end.
      destruct (ext =? "pdf"); [discriminate Hext|].
      destruct (str_in ext ["pptx"; "ppt"]); [discriminate Hext|].
      destruct (str_in ext ["docx"; "doc"]); [discriminate Hext|].
      destruct (ext =? "txt"); [discriminate Hext|].
      destruct (str_in ext ["png"; "jpg"; "jpeg"; "webp"; "gif"]); [reflexivity|].
      discriminate Hext.
Qed.

Section Final.
Variable cfg : Config.
Variable w : World.

(** C8. After the walk over the pages of a PDF, however it ended, every
    image is a thumbnail of a page none of whose blocks has 20
    characters or more once stripped, and the images number at most
    [MAX_PAGE_THUMBNAILS] (at most zero when that is negative). The
    result of [extract_pdf] respects the same bound. *)
Theorem page_thumbnails_sparse_and_bounded file_buffer h :
  let st := locals (pdf_text_layer cfg w file_buffer PdfLocals.init h) in
  (forall i, In i (PdfLocals.images st) ->
     exists p url caption,
       i = PageThumbnail p url caption
       /\ has_page_text p (PdfLocals.text_blocks st) = false)
  /\ (Z.of_nat (List.length (PdfLocals.images st))
      <= Z.max 0 (MAX_PAGE_THUMBNAILS cfg))%Z
  /\ exists r e,
       extract_pdf cfg w file_buffer tt h = (Ok r, tt, e)
       /\ thumbnails_within cfg (Result.images r).
Proof.
  intros st.
  destruct (pdf_text_layer_inv cfg w file_buffer PdfLocals.init h eq_refl)
    as (n & Hb & Hi & Hl & Hm).
  fold st in Hb, Hi, Hl, Hm.
  refine (conj _ (conj _ _)).
  - intros i Hin. destruct (Hi i Hin) as (p & u & c & -> & _ & Hno). eauto.
  - rewrite Hl. exact Hm.
  - destruct (extract_pdf_cases cfg w file_buffer h) as (r & e & Hrun & Hcase).
    exists r, e. split; [exact Hrun|].
    destruct Hcase as [(_ & Hr & _) | [h' ->]].
    + destruct (extract_pdf_with_document_ai_result w file_buffer h) as (_ & _ & Hres).
      destruct (Hres r Hr) as [_ Himg]. rewrite Himg. split.
      * cbn. lia.
      * intros i [].
    + apply (ensures_try (fun s => s = PdfLocals.init)
               (fun s => thumbnails_within cfg (PdfLocals.images s))
               (fun s => thumbnails_within cfg (PdfLocals.images s))).
      * apply pdf_local_pass_images.
      * auto.
      * intros msg. apply ensures_ret.
      * reflexivity.
Qed.

(** C5, as amended. For a result of the PPTX, DOCX or TXT extractor,
    and for a result of the local PDF pass that ran to its end (method
    [pymupdf_ocr], or method [pymupdf] with at least 100 characters of
    raw text), [raw_text] is the blocks' text joined by two newlines. *)
Theorem raw_text_joins_blocks file_buffer h r :
  outcome (extract_pptx cfg w file_buffer tt h) = Ok r
  \/ outcome (extract_docx cfg w file_buffer tt h) = Ok r
  \/ outcome (extract_txt w file_buffer tt h) = Ok r
  \/ (outcome (extract_pdf cfg w file_buffer tt h) = Ok r
      /\ (Result.method r = "pymupdf_ocr"
          \/ (Result.method r = "pymupdf" /\ 100 <= String.length (Result.raw_text r)))) ->
  Result.raw_text r = join_blocks (Result.text_blocks r).
Proof.
  intros [H | [H | [H | [H Hm]]]].
  - unfold extract_pptx, outcome in H. unfold bind at 1 in H. unfold scoped in H.
    match type of H with
    | context [match ?m PptxLocals.init ?hh with _ => _ end] =>
        destruct (m PptxLocals.init hh) as [[[n|msg] st] e]
    end; cbn in H; [|discriminate H].
    injection H as <-. reflexivity.
  - unfold extract_docx, outcome in H. unfold bind at 1 in H. unfold scoped in H.
    match type of H with
    | context [match ?m DocxLocals.init ?hh with _ => _ end] =>
        destruct (m DocxLocals.init hh) as [[[n|msg] st] e]
    end; cbn in H; [|discriminate H].
    injection H as <-. reflexivity.
  - unfold extract_txt, bind, outcome in H.
    destruct (decode_first w ["utf-8"; "latin-1"; "cp1252"] file_buffer tt h)
      as [[[found|msg] u] e]; cbn in H; [|discriminate H].
    destruct (negb (opt_truthy found)); cbn in H; injection H as <-; reflexivity.
  - destruct (extract_pdf_cases cfg w file_buffer h) as (r' & e & Hrun & Hcase).
    rewrite Hrun in H. cbn in H. injection H as ->.
    destruct Hcase as [(_ & Hr & _) | [h' ->]].
    + destruct (extract_pdf_with_document_ai_result w file_buffer h) as (_ & _ & Hres).
      destruct (Hres r Hr) as [Hmethod _]. rewrite Hmethod in Hm.
      destruct Hm as [Hm | [Hm _]]; discriminate Hm.
    + revert Hm. cbn [PdfLocals.result Result.method Result.raw_text Result.text_blocks].
      apply (ensures_try (fun s => PdfLocals.method s = "unknown")
               (fun s => summary_joined (PdfLocals.method s) (PdfLocals.raw_text s)
                           (PdfLocals.text_blocks s))
               (fun s => summary_joined (PdfLocals.method s) (PdfLocals.raw_text s)
                           (PdfLocals.text_blocks s))).
      * apply pdf_local_pass_summary.
      * auto.
      * intros msg. apply ensures_ret.
      * reflexivity.
Qed.
End Final.

(* ================================================================== *)
(** ** The functions on sample inputs *)
(* ================================================================== *)

Example strip_example : PyStr.strip "  a b  " = "a b".
Proof. reflexivity. Qed.

Example split_example : PyStr.split " ab  c d " = ["ab"; "c"; "d"].
Proof. reflexivity. Qed.

Example extension_example : extension "My.Report.PDF" = "pdf".
Proof. reflexivity. Qed.

Example detect_ppt_example : detect_file_type "slides.PPT" "" = "pptx".
Proof. reflexivity. Qed.

Example detect_image_example : detect_file_type "photo.png" "" = "image".
Proof. reflexivity. Qed.

Example extract_txt_latin1_example :
  outcome (extract_txt
             (mkWorld "0a1b2c3d" (fun _ => "") (fun _ => 0%Z)
                (fun _ _ => Raise "") (fun _ _ => Raise "") (fun _ _ => Raise "")
                (fun _ => Raise "") (fun _ _ => Raise "") (fun _ _ => Raise "")
                (fun _ => Raise "") (fun _ => Raise "") (fun _ => Raise "")
                (fun enc _ => if enc =? "latin-1" then Ok "caf" else Raise "invalid byte")
                (fun _ => "") "")
             [] tt [])
  = Ok {| Result.method := "direct_read"; Result.confidence := 1%float;
          Result.text_blocks :=
            [ {| Block.text := "caf"; Block.page := 1;
                 Block.confidence := 1%float; Block.type := "text" |} ];
          Result.tables := []; Result.images := [];
          Result.page_count := 1; Result.raw_text := "caf" |}.
Proof. reflexivity. Qed.

Example extract_pdf_report_example :
  extract_pdf plain_config report_world [] tt []
  = (Ok report_result, tt, [EvFitzOpen; EvThumbnail; EvFitzOpen; EvVision]).
Proof. vm_compute. reflexivity. Qed.

Example three_blank_pages_two_thumbnails :
  Result.images
    (PdfLocals.result
       (locals (pdf_local_pass (sample_config "" "" false 2) (blank_pdf_world 3)
                  [] PdfLocals.init [])))
  = [ PageThumbnail 1 "data:image/jpeg;base64,AAAA" "Page thumbnail (no text extracted)";
      PageThumbnail 2 "data:image/jpeg;base64,AAAA" "Page thumbnail (no text extracted)" ].
Proof. vm_compute. reflexivity. Qed.

(* ================================================================== *)
(** ** Concrete instances *)
(* ================================================================== *)

(** A PDF that PyMuPDF cannot open still yields a success response
    with a canonical model: the extractor absorbs the failure. *)
Lemma pdf_open_failure_returns_model :
  detect_file_type "scan.pdf" "" = "pdf"
  /\ fitz_open offline [] = Raise "cannot open broken document"
  /\ exists ms canonical metadata,
       extract plain_config offline (Upload [] (Some "scan.pdf") None) tt []
         = (Ok (Success "0a1b2c3d" ms canonical metadata), tt, [EvFitzOpen])
       /\ Canonical.method (Canonical.extraction canonical) = "unknown".
Proof.
  split; [reflexivity|]. split; [reflexivity|].
  eexists _, _, _. split; reflexivity.
Qed.

(** C2 on an uploaded presentation, a document downloaded from a signed
    URL, and an uploaded PDF, none of which opens. *)
Lemma container_failure_surfaces_witness :
  outcome (extract plain_config offline (Upload [] (Some "deck.pptx") None) tt [])
    = Ok (ErrorResponse 500 "Package not found" (Some "0a1b2c3d"))
  /\ outcome (extract plain_config storage_world
                (Json (JStr "https://storage/memo") (JStr "memo.doc") JMissing) tt [])
    = Ok (ErrorResponse 500 "File is not a zip file" (Some "0a1b2c3d"))
  /\ exists ms canonical metadata,
       outcome (extract plain_config offline (Upload [] (Some "scan.pdf") None) tt [])
         = Ok (Success "0a1b2c3d" ms canonical metadata)
       /\ Canonical.method (Canonical.extraction canonical) = "unknown"
       /\ Canonical.confidence (Canonical.extraction canonical) = 0%float
       /\ Canonical.text_blocks (Canonical.content canonical) = []
       /\ Canonical.full_text (Canonical.content canonical) = "".
Proof.
  split; [|split].
  - apply (proj1 (container_failure_surfaces plain_config offline
                    (Upload [] (Some "deck.pptx") None) [] [] "deck.pptx" "pptx" []
                    eq_refl) "Package not found");
      [reflexivity|].
    apply (proj1 (proj2 (proj2 (container_failure_surfaces plain_config offline
                    (Upload [] (Some "deck.pptx") None) [] [] "deck.pptx" "pptx" []
                    eq_refl)))).
    reflexivity.
  - apply (proj1 (proj2 (container_failure_surfaces plain_config storage_world
                    (Json (JStr "https://storage/memo") (JStr "memo.doc") JMissing)
                    [] [] "memo.doc" "docx" [EvDownload] eq_refl))
             "File is not a zip file");
      [reflexivity|].
    apply (proj1 (proj2 (proj2 (proj2 (container_failure_surfaces plain_config
                    storage_world
                    (Json (JStr "https://storage/memo") (JStr "memo.doc") JMissing)
                    [] [] "memo.doc" "docx" [EvDownload] eq_refl))))).
    reflexivity.
  - apply (proj2 (proj2 (proj2 (proj2 (proj2
             (container_failure_surfaces plain_config offline
                (Upload [] (Some "scan.pdf") None) [] [] "scan.pdf" "pdf" []
                eq_refl)))))
             "cannot open broken document"); reflexivity.
Defined.

(** A [.txt] filename sent with a PDF content type is detected as a
    PDF: the MIME test of an earlier format comes before the extension
    test of a later one. *)
Lemma mime_overrides_txt_extension :
  extension_tag (extension "notes.txt") = Some "txt"
  /\ detect_file_type "notes.txt" "application/pdf" = "pdf"
  /\ detect_file_type "notes.txt" "application/pdf" <> "txt".
Proof.
  split; [reflexivity|]. split; [reflexivity|]. discriminate.
Qed.

(** C3 on three requests: an extension alone, a MIME type against a
    later extension, and a MIME keyword alone. *)
Lemma extension_wins_unless_earlier_mime_witness :
  detect_file_type "report.docx" "application/octet-stream" = "docx"
  /\ detect_file_type "notes.txt" "application/pdf" = "pdf"
  /\ detect_file_type "slides" "application/vnd.ms-powerpoint" = "pptx".
Proof.
  refine (conj _ (conj _ _)).
  - apply (proj1 (extension_wins_unless_earlier_mime "report.docx"
                    "application/octet-stream")); reflexivity.
  - apply (proj1 (proj2 (extension_wins_unless_earlier_mime "notes.txt"
                           "application/pdf")));
      reflexivity.
  - apply (proj1 (proj2 (proj2 (proj2 (extension_wins_unless_earlier_mime "slides"
                                         "application/vnd.ms-powerpoint"))))
             "pptx" ["pptx"; "ppt"] ["presentation"; "powerpoint"] "powerpoint");
      try reflexivity.
    + right. left. reflexivity.
    + right. left. reflexivity.
Defined.

(** C4 on a PDF for which Document AI reports confidence 0.95. *)
Lemma structured_result_is_final_witness :
  extract_pdf structured_config structured_world [] tt []
    = (Ok hello_result, tt, [EvDocumentAI])
  /\ Result.method hello_result = "document_ai"
  /\ exists ms canonical metadata,
       dispatch structured_config structured_world [] "paper.pdf" "" "0a1b2c3d" tt []
         = (Ok (Success "0a1b2c3d" ms canonical metadata), tt, [EvDocumentAI])
       /\ Canonical.method (Canonical.extraction canonical) = "document_ai".
Proof.
  assert (H := structured_result_is_final structured_config structured_world [] []
                 hello_result).
  destruct H as (Hrun & Hmethod & Hdispatch).
  - reflexivity.
  - vm_compute. reflexivity.
  - vm_compute. reflexivity.
  - refine (conj Hrun (conj Hmethod _)). apply Hdispatch. reflexivity.
Defined.

(** The structured stage returns the service's full text as [raw_text],
    whatever its paragraphs cover. *)
Lemma structured_raw_text_is_not_joined :
  outcome (extract_pdf structured_config structured_world [] tt []) = Ok hello_result
  /\ Result.raw_text hello_result = "Hello world"
  /\ join_blocks (Result.text_blocks hello_result) = "Hello"
  /\ Result.raw_text hello_result <> join_blocks (Result.text_blocks hello_result).
Proof.
  split; [vm_compute; reflexivity|].
  split; [reflexivity|]. split; [reflexivity|]. discriminate.
Qed.

(** C5 on a PDF that went through both local stages. *)
Lemma raw_text_joins_blocks_witness :
  Result.raw_text report_result = join_blocks (Result.text_blocks report_result).
Proof.
  apply (raw_text_joins_blocks plain_config report_world [] [] report_result).
  right. right. right. split.
  - vm_compute. reflexivity.
  - left. reflexivity.
Defined.

(** C6 on the invoice: Vision is down, Vertex Gemini reads it, and
    OpenAI, though configured, is not asked. And with nothing
    reachable: the three tiers are tried in turn and there is no text. *)
Lemma ocr_image_cascade_witness :
  (outcome (ocr_image cascade_config invoice_world [] tt []) = Ok (Some "Invoice #123")
   /\ ~ In EvOpenAI (calls (ocr_image cascade_config invoice_world [] tt [])))
  /\ exists tried,
       ocr_image cascade_config offline [] tt []
       = (Ok (absorbed (outcome (ocr_with_openai offline [] tt ([] ++ tried)))), tt,
          tried ++ [EvOpenAI])
       /\ tried = [EvVision; EvGoogleAuth].
Proof.
  split.
  - apply (proj1 (proj2 (proj2 (proj2 (proj2
             (ocr_image_cascade cascade_config invoice_world [] [])))))
             "network error" "Invoice #123"); reflexivity.
  - apply (proj1 (proj2 (proj2 (proj2 (proj2 (proj2 (proj2 (proj2 (proj2 (proj2
             (ocr_image_cascade cascade_config offline [] []))))))))))); reflexivity.
Defined.

(** Twenty recognized characters make no block, in a slide or in a
    document. *)
Lemma twenty_characters_make_no_block :
  outcome (ocr_image plain_config (picture_world twenty) [] tt []) = Ok (Some twenty)
  /\ String.length twenty = 20
  /\ (exists r,
        extract_pptx plain_config (picture_world twenty) [] tt []
          = (Ok r, tt, [EvPresentation; EvVision])
        /\ Result.text_blocks r = [] /\ Result.images r = [])
  /\ (exists r,
        extract_docx plain_config (picture_world twenty) [] tt []
          = (Ok r, tt, [EvDocument; EvVision])
        /\ Result.text_blocks r = [] /\ Result.images r = []).
Proof.
  split; [reflexivity|]. split; [reflexivity|].
  split; eexists; (split; [reflexivity|]); split; reflexivity.
Qed.

(** C7 on 21 and on 20 recognized characters. *)
Lemma image_ocr_threshold_witness :
  let t := (twenty ++ "1")%string in
  locals (pptx_image_ocr plain_config (picture_world t) 3 [] PptxLocals.init [])
    = PptxLocals.add_image (SlideOcr 3 t)
        (PptxLocals.add_block
           {| Block.text := t; Block.page := 3;
              Block.confidence := 0.7%float; Block.type := "image_ocr" |}
           PptxLocals.init)
  /\ locals (pptx_image_ocr plain_config (picture_world twenty) 3 [] PptxLocals.init [])
    = PptxLocals.init.
Proof.
  cbv zeta. split.
  - apply (proj1 (proj2 (proj2
             (image_ocr_threshold plain_config (picture_world (twenty ++ "1")) 3 []
                PptxLocals.init DocxLocals.init []))) (twenty ++ "1")%string).
    + reflexivity.
    + cbn. lia.
  - apply (proj1 (proj2 (proj2 (proj2
             (image_ocr_threshold plain_config (picture_world twenty) 3 []
                PptxLocals.init DocxLocals.init [])))) twenty).
    + reflexivity.
    + cbn. lia.
Defined.


(** C1 on the response to an uploaded PDF. *)
Lemma canonical_stats_match_content_witness :
  exists ms document metadata,
    outcome (extract plain_config report_world (Upload [] (Some "report.pdf") None) tt [])
      = Ok (Success "0a1b2c3d" ms document metadata)
    /\ Canonical.total_chars (Canonical.stats document) = 30
    /\ String.length (Canonical.full_text (Canonical.content document)) = 30
    /\ Canonical.total_blocks (Canonical.stats document)
       = List.length (Canonical.text_blocks (Canonical.content document)).
Proof.
  eexists _, _, _. split; [reflexivity|].
  split; [reflexivity|]. split; [reflexivity|].
  eapply (proj2 (canonical_stats_match_content
                   (ResultDict.of_result report_result) "" "" 0 "" "")
            plain_config report_world (Upload [] (Some "report.pdf") None) []).
  reflexivity.
Defined.

Example ocr_image_offline_example :
  ocr_image cascade_config offline [] tt []
  = (Ok None, tt, [EvVision; EvGoogleAuth; EvOpenAI]).
Proof. reflexivity. Qed.

(* ================================================================== *)
(** ** Further properties of the extractors and the handler *)
(* ================================================================== *)

(** *** Plain text files *)

Section Txt.
Variable w : World.

(** X1. [extract_txt] never raises, whatever the bytes and whatever the
    codecs do. It returns method [direct_read], confidence 1, one page,
    and exactly one block whose text is also [raw_text]. It decodes
    between one and four times, and the text is empty only if the
    lenient UTF-8 decoding is empty. *)
Theorem extract_txt_always_one_block file_buffer h :
  exists text e,
    extract_txt w file_buffer tt h = (Ok (txt_result text), tt, e)
    /\ Forall is_decode e
    /\ 1 <= List.length e <= 4
    /\ (text = "" -> decode_ignore w file_buffer = "").
Proof.
  unfold extract_txt. cbn [decode_first].
  unfold try_except, bind, call, ret.
  destruct (decode w "utf-8" file_buffer) as [t1 | m1]; cbn.
  - destruct t1 as [| c t1]; cbn.
    + exists (decode_ignore w file_buffer), [EvDecode "utf-8"; EvDecode "utf-8"].
      repeat split; cbn; try lia; auto.
      repeat constructor; eexists; reflexivity.
    + exists (String c t1), [EvDecode "utf-8"].
      repeat split; cbn; try lia; try discriminate.
      repeat constructor; eexists; reflexivity.
  - destruct (decode w "latin-1" file_buffer) as [t2 | m2]; cbn.
    + destruct t2 as [| c t2]; cbn.
      * exists (decode_ignore w file_buffer),
          [EvDecode "utf-8"; EvDecode "latin-1"; EvDecode "utf-8"].
        repeat split; cbn; try lia; auto.
        repeat constructor; eexists; reflexivity.
      * exists (String c t2), [EvDecode "utf-8"; EvDecode "latin-1"].
        repeat split; cbn; try lia; try discriminate.
        repeat constructor; eexists; reflexivity.
    + destruct (decode w "cp1252" file_buffer) as [t3 | m3]; cbn.
      * destruct t3 as [| c t3]; cbn.
        -- exists (decode_ignore w file_buffer),
             [EvDecode "utf-8"; EvDecode "latin-1"; EvDecode "cp1252"; EvDecode "utf-8"].
           repeat split; cbn; try lia; auto.
           repeat constructor; eexists; reflexivity.
        -- exists (String c t3), [EvDecode "utf-8"; EvDecode "latin-1"; EvDecode "cp1252"].
           repeat split; cbn; try lia; try discriminate.
           repeat constructor; eexists; reflexivity.
      * exists (decode_ignore w file_buffer),
          [EvDecode "utf-8"; EvDecode "latin-1"; EvDecode "cp1252"; EvDecode "utf-8"].
        repeat split; cbn; try lia; auto.
        repeat constructor; eexists; reflexivity.
Qed.

(** X2. The encodings are tried in the order utf-8, latin-1, cp1252 and
    the first non-empty decoding is the text: a successful UTF-8
    decoding is used after one attempt; if UTF-8 raises, Latin-1 is used
    after two; if all three raise, the text is the lenient UTF-8
    decoding, the fourth attempt. *)
Theorem extract_txt_first_encoding_wins file_buffer h :
  (forall t, decode w "utf-8" file_buffer = Ok t -> PyStr.truthy t = true ->
     extract_txt w file_buffer tt h = (Ok (txt_result t), tt, [EvDecode "utf-8"]))
  /\ (forall m t,
        decode w "utf-8" file_buffer = Raise m ->
        decode w "latin-1" file_buffer = Ok t -> PyStr.truthy t = true ->
        extract_txt w file_buffer tt h
          = (Ok (txt_result t), tt, [EvDecode "utf-8"; EvDecode "latin-1"]))
  /\ (forall m1 m2 m3,
        decode w "utf-8" file_buffer = Raise m1 ->
        decode w "latin-1" file_buffer = Raise m2 ->
        decode w "cp1252" file_buffer = Raise m3 ->
        extract_txt w file_buffer tt h
          = (Ok (txt_result (decode_ignore w file_buffer)), tt,
             [EvDecode "utf-8"; EvDecode "latin-1"; EvDecode "cp1252"; EvDecode "utf-8"])).
Proof.
  unfold extract_txt. cbn [decode_first].
  unfold try_except, bind, call, ret.
  refine (conj _ (conj _ _)).
  - intros t -> Ht. cbn. destruct t; [discriminate Ht | reflexivity].
  - intros m t -> -> Ht. cbn. destruct t; [discriminate Ht | reflexivity].
  - intros m1 m2 m3 -> -> ->. reflexivity.
Qed.
End Txt.

(** *** The format detector *)

Lemma lower_char_idempotent c : PyStr.lower_char (PyStr.lower_char c) = PyStr.lower_char c.
Proof. destruct c as [[] [] [] [] [] [] [] []]; reflexivity. Qed.

(** Lower-casing neither makes nor removes a dot. *)
Lemma lower_char_dot c : Ascii.eqb (PyStr.lower_char c) "."%char = Ascii.eqb c "."%char.
Proof. destruct c as [[] [] [] [] [] [] [] []]; reflexivity. Qed.

Lemma lower_idempotent s : PyStr.lower (PyStr.lower s) = PyStr.lower s.
Proof.
  induction s as [|c s IH]; cbn; [reflexivity|].
  rewrite lower_char_idempotent, IH. reflexivity.
Qed.

Lemma lower_app a b : PyStr.lower (a ++ b) = (PyStr.lower a ++ PyStr.lower b)%string.
Proof. induction a as [|c a IH]; cbn; [reflexivity | rewrite IH; reflexivity]. Qed.

(** [. in s], character by character. *)
Lemma contains_dot_cons c s :
  PyStr.contains "." (String c s) = Ascii.eqb c "."%char || PyStr.contains "." s.
Proof.
  cbn [PyStr.contains prefix].
  destruct (ascii_dec "." c) as [<- | Hne].
  - cbn. destruct s; reflexivity.
  - assert (E : Ascii.eqb c "."%char = false).
    { apply Ascii.eqb_neq. congruence. }
    rewrite E. reflexivity.
Qed.

Lemma contains_dot_lower s : PyStr.contains "." (PyStr.lower s) = PyStr.contains "." s.
Proof.
  induction s as [|c s IH]; [reflexivity|].
  cbn [PyStr.lower]. rewrite !contains_dot_cons, lower_char_dot, IH. reflexivity.
Qed.

Lemma contains_dot_app a b :
  PyStr.contains "." (a ++ b) = PyStr.contains "." a || PyStr.contains "." b.
Proof.
  induction a as [|c a IH].
  - cbn [append]. destruct (PyStr.contains "." b); destruct b; reflexivity.
  - cbn [append]. rewrite !contains_dot_cons, IH, orb_assoc. reflexivity.
Qed.

(** [s.split(sep)] is never the empty list. *)
Lemma split_char_nonempty sep s : PyStr.split_char sep s <> [].
Proof.
  destruct s as [|c s]; cbn; [discriminate|].
  destruct (Ascii.eqb c sep); [discriminate|].
  destruct (PyStr.split_char sep s); discriminate.
Qed.

(** A text without dot splits into itself. *)
Lemma split_char_no_dot e :
  PyStr.contains "." e = false -> PyStr.split_char "."%char e = [e].
Proof.
  induction e as [|c e IH]; [reflexivity|].
  rewrite contains_dot_cons. intros H. apply orb_false_iff in H. destruct H as [Hc He].
  cbn [PyStr.split_char]. rewrite Hc, (IH He). reflexivity.
Qed.

(** Splitting [x.e] at dots gives pieces of [x], then the pieces of [e]. *)
Lemma split_char_after_dot x e :
  exists front,
    PyStr.split_char "."%char (x ++ String "."%char e)
      = front ++ PyStr.split_char "."%char e
    /\ front <> [].
Proof.
  induction x as [|c x (front & IH & Hne)].
  - exists [""]. split; [reflexivity | discriminate].
  - cbn [append PyStr.split_char]. rewrite IH.
    destruct (Ascii.eqb c "."%char).
    + exists ("" :: front). split; [reflexivity | discriminate].
    + destruct front as [|f front]; [contradiction|].
      exists (String c f :: front). split; [reflexivity | discriminate].
Qed.

Lemma last_app_nonempty {A} (l1 l2 : list A) d : l2 <> [] -> last (l1 ++ l2) d = last l2 d.
Proof.
  intros H. induction l1 as [|a l1 IH]; [reflexivity|].
  cbn [app]. destruct (l1 ++ l2) eqn:E.
  - destruct l1; [cbn in E; contradiction | discriminate E].
  - cbn [last]. exact IH.
Qed.

(** X3. The extension the detector looks at is the lower-cased text
    after the last dot of the file name, and the empty string when the
    name has no dot. So the case of the file name never changes the
    detected type, and neither does anything before the last dot. *)
Theorem extension_is_suffix_after_last_dot :
  (forall x e, PyStr.contains "." e = false ->
     extension (x ++ "." ++ e) = PyStr.lower e)
  /\ (forall f, PyStr.contains "." f = false -> extension f = "")
  /\ (forall f m, detect_file_type (PyStr.lower f) m = detect_file_type f m)
  /\ (forall x e m, PyStr.contains "." e = false ->
        detect_file_type (x ++ "." ++ e) m = detect_file_type ("." ++ e) m).
Proof.
  assert (Hext : forall x e, PyStr.contains "." e = false ->
                   extension (x ++ "." ++ e) = PyStr.lower e).
  { intros x e He. unfold extension.
    rewrite contains_dot_app. cbn [append]. rewrite contains_dot_cons. cbn [Ascii.eqb Bool.eqb].
    rewrite orb_true_r.
    rewrite lower_app. cbn [PyStr.lower append].
    change (PyStr.lower_char ".") with "."%char.
    destruct (split_char_after_dot (PyStr.lower x) (PyStr.lower e)) as (front & -> & _).
    rewrite last_app_nonempty by apply split_char_nonempty.
    rewrite split_char_no_dot; [reflexivity|].
    rewrite contains_dot_lower. exact He. }
  refine (conj Hext (conj _ (conj _ _))).
  - intros f Hf. unfold extension. rewrite Hf. reflexivity.
  - intros f m. unfold detect_file_type, extension.
    rewrite contains_dot_lower, lower_idempotent. reflexivity.
  - intros x e m He. unfold detect_file_type.
    rewrite (Hext x e He).
    change ("." ++ e)%string with ("" ++ "." ++ e)%string.
    rewrite (Hext "" e He). reflexivity.
Qed.

(** The legacy tags [ppt] and [doc] never come out of the detector, so
    the two list tests of the handler are tests for [pptx] and [docx]. *)
Lemma office_tags_collapse f m :
  (str_in (detect_file_type f m) ["pptx"; "ppt"] = (detect_file_type f m =? "pptx"))
  /\ (str_in (detect_file_type f m) ["docx"; "doc"] = (detect_file_type f m =? "docx")).
Proof.
  unfold detect_file_type. cbv zeta.
  repeat match goal with
         | |- context [if ?c then _ else _] => destruct c
         end; split; reflexivity.
Qed.

(** X4. The detector returns one of the six tags pdf, pptx, docx, txt,
    image, unknown. It never returns [ppt] or [doc], so the handler's
    tests [file_type in ['pptx', 'ppt']] and [file_type in ['docx',
    'doc']] are tests for [pptx] and for [docx]. *)
Theorem detect_file_type_tags f m :
  In (detect_file_type f m) format_tags
  /\ detect_file_type f m <> "ppt" /\ detect_file_type f m <> "doc"
  /\ (str_in (detect_file_type f m) ["pptx"; "ppt"] = (detect_file_type f m =? "pptx"))
  /\ (str_in (detect_file_type f m) ["docx"; "doc"] = (detect_file_type f m =? "docx")).
Proof.
  unfold detect_file_type. cbv zeta.
  repeat match goal with
         | |- context [if ?c then _ else _] => destruct c
         end;
    (split; [cbn; tauto | split; [discriminate | split; [discriminate | split; reflexivity]]]).
Qed.

Section Nameless.
Variable cfg : Config.
Variable w : World.

(** X5. An upload whose file name has no dot (in particular one without
    a name, which is called [document]) is typed by its content type
    alone; when that names none of the six keywords, the handler answers
    400 [Unsupported file type: unknown] without calling anything. *)
Theorem undotted_upload_typed_by_content_type file_buffer fname ctype h :
  PyStr.contains "." (str_or fname "document") = false ->
  detect_file_type (str_or fname "document") (str_or ctype "")
    = detect_file_type "" (str_or ctype "")
  /\ (existsb (fun kw => PyStr.contains kw (str_or ctype "")) mime_keywords = false ->
      extract cfg w (Upload file_buffer fname ctype) tt h
        = (Ok (ErrorResponse 400 "Unsupported file type: unknown" None), tt, [])).
Proof.
  intros Hdot.
  assert (E : detect_file_type (str_or fname "document") (str_or ctype "")
              = detect_file_type "" (str_or ctype "")).
  { unfold detect_file_type, extension. rewrite Hdot. reflexivity. }
  split; [exact E|].
  intros Hm. unfold extract, try_except, dispatch, dispatch_type. cbv zeta. rewrite E.
  assert (U : detect_file_type "" (str_or ctype "") = "unknown").
  { unfold detect_file_type. cbv zeta. cbn in Hm.
    repeat (apply orb_false_iff in Hm; destruct Hm as [? Hm]).
    repeat match goal with H : PyStr.contains _ _ = false |- _ => rewrite H; clear H end.
    reflexivity. }
  rewrite U. reflexivity.
Qed.
End Nameless.

(** *** The responses of the handler *)

Section Handler.
Variable cfg : Config.
Variable w : World.

(** The detector for values that may be [None] returns one of the six
    tags, when it returns. *)
Lemma detect_file_type_py_tags filename mimetype file_type :
  detect_file_type_py w filename mimetype = Ok file_type -> In file_type format_tags.
Proof.
  unfold detect_file_type_py, py_in, exc_bind.
  destruct filename as [f|]; [|discriminate]. cbv zeta.
  destruct mimetype as [m|];
    repeat match goal with
           | |- context [if ?c then _ else _] => destruct c
           end;
    intros H; try discriminate H; injection H as <-; cbn; tauto.
Qed.

(** What a request brings is of one of the six types. *)
Lemma received_tag request h file_buffer filename file_type pre :
  received w h request = Some (file_buffer, filename, file_type, pre) ->
  In file_type format_tags.
Proof.
  unfold received.
  destruct request as [content fname ctype | signedUrl fileName mimeType | error | ];
    try discriminate.
  - intros H. injection H as _ _ <- _.
    apply (detect_file_type_py_tags (Some (str_or fname "document"))
             (Some (str_or ctype ""))).
    apply detect_file_type_py_strings.
  - destruct signedUrl as [| | url]; try discriminate.
    destruct (PyStr.truthy url); [|discriminate].
    destruct (http_get w h url); [|discriminate].
    destruct (jget fileName "document") as [f|]; [|discriminate].
    destruct (detect_file_type_py w (Some f) (jget mimeType "")) as [ft|] eqn:E;
      [|discriminate].
    intros H. injection H as _ _ <- _.
    exact (detect_file_type_py_tags _ _ _ E).
Qed.

(** What the extractor step returns when it returns: a success that
    mirrors the canonical document of an extracted format, or the 400
    for an unsupported type, in which case no call was made. *)
Lemma dispatch_type_returns file_buffer filename file_type request_id h resp u e :
  In file_type format_tags ->
  dispatch_type cfg w file_buffer filename file_type request_id tt h = (Ok resp, u, e) ->
  (exists ms canonical metadata,
     resp = Success request_id ms canonical metadata
     /\ Canonical.id canonical = request_id
     /\ Canonical.filename canonical = filename
     /\ Canonical.file_size canonical = List.length file_buffer
     /\ In (Canonical.file_type canonical) extracted_tags
     /\ metadata_mirrors canonical metadata)
  \/ (resp = ErrorResponse 400 ("Unsupported file type: " ++ file_type) None
      /\ e = []).
Proof.
  assert (Hstep : forall (m : M unit Result.t),
            In file_type extracted_tags ->
            bind m (fun result =>
                      respond w result file_buffer filename file_type request_id) tt h
              = (Ok resp, u, e) ->
            exists ms canonical metadata,
              resp = Success request_id ms canonical metadata
              /\ Canonical.id canonical = request_id
              /\ Canonical.filename canonical = filename
              /\ Canonical.file_size canonical = List.length file_buffer
              /\ In (Canonical.file_type canonical) extracted_tags
              /\ metadata_mirrors canonical metadata).
  { intros m Hin H. unfold bind in H.
    destruct (m tt h) as [[[result | msg] []] e1]; [|discriminate H].
    rewrite respond_run in H. injection H as <- _ _.
    eexists _, _, _. split; [reflexivity|].
    cbn. repeat split; try reflexivity. exact Hin. }
  intros Htag. unfold dispatch_type.
  cbn in Htag.
  destruct Htag as [<- | [<- | [<- | [<- | [<- | [<- | []]]]]]];
    cbn [String.eqb Ascii.eqb Bool.eqb str_in existsb orb];
    try (intros H; left; apply (Hstep _) in H; [exact H | cbn; tauto]);
    intros H; right; injection H as <- _ <-; split; reflexivity.
Qed.

(** How the handler answers a request that brings a file. *)
Lemma extract_received_answer request h file_buffer filename file_type pre :
  received w h request = Some (file_buffer, filename, file_type, pre) ->
  exists resp e,
    extract cfg w request tt h = (Ok resp, tt, e)
    /\ ((exists ms canonical metadata,
           resp = Success (uuid8 w) ms canonical metadata
           /\ Canonical.id canonical = uuid8 w
           /\ Canonical.filename canonical = filename
           /\ Canonical.file_size canonical = List.length file_buffer
           /\ In (Canonical.file_type canonical) extracted_tags
           /\ metadata_mirrors canonical metadata)
        \/ (exists msg, resp = ErrorResponse 400 msg None)
        \/ (exists msg, resp = ErrorResponse 500 msg (Some (uuid8 w)))).
Proof.
  intros Hrec. rewrite (extract_received _ _ _ _ _ _ _ _ Hrec). unfold answered.
  destruct (dispatch_type cfg w file_buffer filename file_type (uuid8 w) tt (h ++ pre))
    as [[[resp | msg] []] e] eqn:E.
  - eexists _, _. split; [reflexivity|].
    destruct (dispatch_type_returns _ _ _ _ _ _ _ _ (received_tag _ _ _ _ _ _ Hrec) E)
      as [H | [-> _]]; [left; exact H | right; left; eauto].
  - eexists _, _. split; [reflexivity|]. right. right. eauto.
Qed.

(** X6. The handler always returns a response, it never lets an
    exception out. The response is a success carrying the request id,
    also as the id of its canonical document; or a 400 without a request
    id; or a 500 with the request id. *)
Theorem extract_always_answers request h :
  exists resp e,
    extract cfg w request tt h = (Ok resp, tt, e)
    /\ well_formed_response (uuid8 w) resp.
Proof.
  destruct (received w h request) as [[[[fb f] ft] pre]|] eqn:Hrec.
  - destruct (extract_received_answer _ _ _ _ _ _ Hrec)
      as (resp & e & Hrun & [(ms & c & md & -> & Hid & _) | [[msg ->] | [msg ->]]]);
      eexists _, e; (split; [exact Hrun|]); cbn; auto.
  - destruct (extract_not_received cfg w _ _ Hrec)
      as (resp & e & Hrun & [[-> _] | [[msg ->] _]]);
      eexists _, e; (split; [exact Hrun|]); cbn; auto.
Qed.

(** X7. A request without an upload that is not of JSON type, or whose
    JSON object has no [signedUrl], a null one or an empty one, is
    answered 400 [No file provided] without any call. A JSON body that
    is malformed, or no object, is answered 500 with the message of the
    exception and the request id, without any call. When the download
    of the signed URL raises, the answer is 500 with that message and
    the download is the only call. When the download succeeds and
    [fileName] is null, or [mimeType] is null and the extension of the
    file name is not pdf, detection raises and the answer is 500 with
    the message of its [TypeError], after the download. *)
Theorem extract_without_file_or_download request h :
  (request = NoFile
   \/ (exists fileName mimeType, request = Json JMissing fileName mimeType)
   \/ (exists fileName mimeType, request = Json JNull fileName mimeType)
   \/ (exists fileName mimeType, request = Json (JStr "") fileName mimeType) ->
   extract cfg w request tt h = (Ok (ErrorResponse 400 "No file provided" None), tt, []))
  /\ (forall error,
        request = BadJson error ->
        extract cfg w request tt h
          = (Ok (ErrorResponse 500 error (Some (uuid8 w))), tt, []))
  /\ (forall url fileName mimeType msg,
        request = Json (JStr url) fileName mimeType ->
        PyStr.truthy url = true ->
        http_get w h url = Raise msg ->
        extract cfg w request tt h
          = (Ok (ErrorResponse 500 msg (Some (uuid8 w))), tt, [EvDownload]))
  /\ (forall url fileName mimeType file_buffer,
        request = Json (JStr url) fileName mimeType ->
        PyStr.truthy url = true ->
        http_get w h url = Ok file_buffer ->
        fileName = JNull
        \/ (mimeType = JNull
            /\ exists filename, jget fileName "document" = Some filename
                                /\ (extension filename =? "pdf") = false) ->
        extract cfg w request tt h
          = (Ok (ErrorResponse 500 (none_not_iterable w) (Some (uuid8 w))), tt,
             [EvDownload])).
Proof.
  refine (conj _ (conj _ (conj _ _))).
  - intros [-> | [(fn & mt & ->) | [(fn & mt & ->) | (fn & mt & ->)]]]; reflexivity.
  - intros error ->. reflexivity.
  - intros url fn mt msg -> Hurl Hget.
    unfold extract, try_except, bind, call.
    rewrite Hurl, Hget. reflexivity.
  - intros url fn mt fb -> Hurl Hget Hnull.
    unfold extract, try_except. rewrite Hurl.
    unfold bind at 1. unfold call at 1. rewrite Hget. cbn [fst snd].
    unfold bind at 1. unfold lift_exc at 1.
    destruct Hnull as [-> | (-> & f & -> & Hext)].
    + reflexivity.
    + unfold detect_file_type_py, py_in, exc_bind. cbv zeta. rewrite Hext.
      reflexivity.
Qed.

(** X8. In every success response the metadata repeats the canonical
    document: file name, type, size, extraction method and confidence
    are the same in both. The request id is the canonical id, the type
    is one of pdf, pptx, docx, txt, and for an upload the name and size
    are those of the uploaded file. *)
Theorem success_response_mirrors_canonical request h rid ms canonical metadata :
  outcome (extract cfg w request tt h) = Ok (Success rid ms canonical metadata) ->
  rid = uuid8 w
  /\ Canonical.id canonical = uuid8 w
  /\ In (Canonical.file_type canonical) extracted_tags
  /\ metadata_mirrors canonical metadata
  /\ (forall content fname ctype,
        request = Upload content fname ctype ->
        Canonical.filename canonical = str_or fname "document"
        /\ Canonical.file_size canonical = List.length content).
Proof.
  unfold outcome. intros H.
  destruct (received w h request) as [[[[fb f] ft] pre]|] eqn:Hrec.
  - destruct (extract_received_answer _ _ _ _ _ _ Hrec)
      as (resp & e & Hrun & Hresp).
    rewrite Hrun in H. cbn in H. injection H as ->.
    destruct Hresp as [(ms' & c & md & Heq & Hid & Hfn & Hsz & Hft & Hmir)
                      | [[msg Heq] | [msg Heq]]]; try discriminate Heq.
    injection Heq as -> -> -> ->.
    refine (conj eq_refl (conj Hid (conj Hft (conj Hmir _)))).
    intros content fname ctype ->. cbn in Hrec. injection Hrec as <- <- _ _. auto.
  - destruct (extract_not_received cfg w _ _ Hrec)
      as (resp & e & Hrun & [[-> _] | [[msg ->] _]]);
      rewrite Hrun in H; discriminate H.
Qed.
End Handler.

(** *** More rules for computations *)

Section MoreRules.
Context {S : Type}.
Implicit Types P R : S -> Prop.

(** *** never_raises *)

Lemma never_raises_ret {A} (a : A) : never_raises (@ret S A a).
Proof. intros s h. eexists; reflexivity. Qed.

Lemma never_raises_modify (f : S -> S) : never_raises (modify f).
Proof. intros s h. eexists; reflexivity. Qed.

Lemma never_raises_get : never_raises (@get S).
Proof. intros s h. eexists; reflexivity. Qed.

Lemma never_raises_bind {A B} (m : M S A) (k : A -> M S B) :
  never_raises m -> (forall a, never_raises (k a)) -> never_raises (bind m k).
Proof.
  intros Hm Hk s h. destruct (Hm s h) as [a Ha]. unfold bind, outcome in *.
  destruct (m s h) as [[r s1] e1]. cbn in Ha. subst r.
  destruct (Hk a s1 (h ++ e1)) as [b Hb]. unfold outcome in Hb.
  destruct (k a s1 (h ++ e1)) as [[r2 s2] e2]. cbn in *. eauto.
Qed.

Lemma never_raises_try {A} (m : M S A) (handler : string -> M S A) :
  (forall msg, never_raises (handler msg)) -> never_raises (try_except m handler).
Proof.
  intros Hh s h. unfold try_except, outcome.
  destruct (m s h) as [[[a | msg] s1] e1]; cbn; [eauto|].
  destruct (Hh msg s1 (h ++ e1)) as [b Hb]. unfold outcome in Hb.
  destruct (handler msg s1 (h ++ e1)) as [[r2 s2] e2]. cbn in *. eauto.
Qed.

Lemma never_raises_when (c : bool) (m : M S unit) :
  never_raises m -> never_raises (when c m).
Proof. intros Hm. destruct c; [exact Hm | apply never_raises_ret]. Qed.

Lemma never_raises_when_text (o : option string) (body : string -> M S unit) :
  (forall t, never_raises (body t)) -> never_raises (when_text o body).
Proof.
  intros Hb. destruct o as [t|]; cbn; [|apply never_raises_ret].
  destruct (PyStr.truthy t); [apply Hb | apply never_raises_ret].
Qed.

Lemma never_raises_for_each {A} (l : list A) (body : A -> M S unit) :
  (forall x, never_raises (body x)) -> never_raises (for_each l body).
Proof.
  intros Hb. induction l as [|x l IH]; cbn.
  - apply never_raises_ret.
  - apply never_raises_bind; auto.
Qed.

Lemma never_raises_lift {A} (m : M unit A) : never_raises m -> never_raises (@lift S A m).
Proof.
  intros Hm s h. destruct (Hm tt h) as [a Ha]. unfold lift, outcome in *.
  destruct (m tt h) as [[r u] e]. cbn in *. eauto.
Qed.

(** *** calls_all *)

Lemma calls_all_silent {A} F (m : M S A) :
  (forall s h, calls (m s h) = []) -> calls_all F m.
Proof. intros H s h. rewrite H. constructor. Qed.

Lemma calls_all_call {A} (F : Event -> Prop) ev (f : list Event -> exc A) :
  F ev -> calls_all F (@call S A ev f).
Proof. intros H s h. cbn. repeat constructor. exact H. Qed.

Lemma calls_all_bind {A B} F (m : M S A) (k : A -> M S B) :
  calls_all F m -> (forall a, calls_all F (k a)) -> calls_all F (bind m k).
Proof.
  intros Hm Hk s h. specialize (Hm s h). unfold bind, calls in *.
  destruct (m s h) as [[[a | msg] s1] e1]; cbn in *; [|exact Hm].
  specialize (Hk a s1 (h ++ e1)). unfold calls in Hk.
  destruct (k a s1 (h ++ e1)) as [[r2 s2] e2]. cbn in *.
  apply Forall_app. split; assumption.
Qed.

Lemma calls_all_try {A} F (m : M S A) (handler : string -> M S A) :
  calls_all F m -> (forall msg, calls_all F (handler msg)) ->
  calls_all F (try_except m handler).
Proof.
  intros Hm Hk s h. specialize (Hm s h). unfold try_except, calls in *.
  destruct (m s h) as [[[a | msg] s1] e1]; cbn in *; [exact Hm|].
  specialize (Hk msg s1 (h ++ e1)). unfold calls in Hk.
  destruct (handler msg s1 (h ++ e1)) as [[r2 s2] e2]. cbn in *.
  apply Forall_app. split; assumption.
Qed.

Lemma calls_all_when F (c : bool) (m : M S unit) :
  calls_all F m -> calls_all F (when c m).
Proof. intros Hm. destruct c; [exact Hm | intros s h; constructor]. Qed.

Lemma calls_all_when_text F (o : option string) (body : string -> M S unit) :
  (forall t, calls_all F (body t)) -> calls_all F (when_text o body).
Proof.
  intros Hb. destruct o as [t|]; cbn; [|intros s h; constructor].
  destruct (PyStr.truthy t); [apply Hb | intros s h; constructor].
Qed.

Lemma calls_all_for_each {A} F (l : list A) (body : A -> M S unit) :
  (forall x, calls_all F (body x)) -> calls_all F (for_each l body).
Proof.
  intros Hb. induction l as [|x l IH]; cbn.
  - intros s h. constructor.
  - apply calls_all_bind; auto.
Qed.

Lemma calls_all_for_enumerate {A} F (l : list A) (body : nat -> A -> M S unit) :
  (forall n x, calls_all F (body n x)) ->
  forall start, calls_all F (for_enumerate start l body).
Proof.
  intros Hb. induction l as [|x l IH]; intros start; cbn.
  - intros s h. constructor.
  - apply calls_all_bind; auto.
Qed.

Lemma calls_all_lift {A} F (m : M unit A) : calls_all F m -> calls_all F (@lift S A m).
Proof.
  intros Hm s h. specialize (Hm tt h). unfold lift, calls in *.
  destruct (m tt h) as [[r u] e]. exact Hm.
Qed.

Lemma calls_all_scoped {T A} F (init : T) (m : M T A) :
  calls_all F m -> calls_all F (@scoped S T A init m).
Proof.
  intros Hm s h. specialize (Hm init h). unfold scoped, calls in *.
  destruct (m init h) as [[r t] e]. exact Hm.
Qed.

(** *** returns *)

Lemma returns_weaken {A} P P' (Q Q' : A -> S -> Prop) (m : M S A) :
  returns P' m Q' -> (forall s, P s -> P' s) -> (forall a s, Q' a s -> Q a s) ->
  returns P m Q.
Proof. intros H HP HQ s h a s' e Hs E. eapply HQ, H; eauto. Qed.

Lemma returns_ret {A} P (a : A) : returns P (ret a) (fun b s => b = a /\ P s).
Proof. intros s h b s' e Hs E. injection E as <- <- _. auto. Qed.

Lemma returns_modify P (f : S -> S) :
  returns P (modify f) (fun _ s' => exists s, P s /\ s' = f s).
Proof. intros s h b s' e Hs E. injection E as _ <- _. eauto. Qed.

Lemma returns_call {A} P ev (f : list Event -> exc A) :
  returns P (call ev f) (fun a s => P s /\ exists h, f h = Ok a).
Proof. intros s h b s' e Hs E. injection E as E <- _. eauto. Qed.

Lemma returns_lift_exc {A} P (r : exc A) :
  returns P (lift_exc r) (fun a s => P s /\ r = Ok a).
Proof. intros s h b s' e Hs E. injection E as E <- _. auto. Qed.

Lemma returns_lift {A} P (m : M unit A) :
  returns P (lift m) (fun a s => P s /\ exists h, outcome (m tt h) = Ok a).
Proof.
  intros s h b s' e Hs E. unfold lift in E.
  destruct (m tt h) as [[r u] e1] eqn:Em. injection E as -> <- _.
  split; [exact Hs|]. exists h. rewrite Em. reflexivity.
Qed.

Lemma returns_bind {A B} P (Q : A -> S -> Prop) (R : B -> S -> Prop)
    (m : M S A) (k : A -> M S B) :
  returns P m Q -> (forall a, returns (Q a) (k a) R) -> returns P (bind m k) R.
Proof.
  intros Hm Hk s h b s' e Hs E. unfold bind in E.
  destruct (m s h) as [[[a | msg] s1] e1] eqn:Em; [|discriminate E].
  destruct (k a s1 (h ++ e1)) as [[r2 s2] e2] eqn:Ek.
  injection E as -> <- _.
  eapply Hk; [|exact Ek]. eapply Hm; eauto.
Qed.

Lemma returns_get {B} P (R : B -> S -> Prop) (k : S -> M S B) :
  (forall s0, returns (fun s => s = s0 /\ P s) (k s0) R) ->
  returns P (bind get k) R.
Proof.
  intros Hk s h b s' e Hs E. unfold bind, get in E.
  destruct (k s s (h ++ [])) as [[r2 s2] e2] eqn:Ek.
  injection E as -> <- _. eapply Hk; [|exact Ek]. auto.
Qed.

(** [try]: either the body returned, or it raised, leaving locals in
    [Rx], and the handler returned. *)
Lemma returns_try {A} P Rx (Q : A -> S -> Prop) (m : M S A) (handler : string -> M S A) :
  returns P m Q -> ensures P m Rx -> (forall msg, returns Rx (handler msg) Q) ->
  returns P (try_except m handler) Q.
Proof.
  intros Hm Hx Hh s h a s' e Hs E. unfold try_except in E.
  specialize (Hx s h Hs). unfold locals in Hx.
  destruct (m s h) as [[[a1 | msg] s1] e1] eqn:Em; cbn in Hx.
  - injection E as <- <- _. eapply Hm; eauto.
  - destruct (handler msg s1 (h ++ e1)) as [[r2 s2] e2] eqn:Ek.
    injection E as -> <- _. eapply Hh; eauto.
Qed.

Lemma returns_when P (Q : S -> Prop) (c : bool) (m : M S unit) :
  (c = true -> returns P m (fun _ => Q)) -> (c = false -> forall s, P s -> Q s) ->
  returns P (when c m) (fun _ => Q).
Proof.
  intros Hm HPQ. destruct c; cbn.
  - apply Hm; reflexivity.
  - intros s h a s' e Hs E. injection E as _ <- _. apply HPQ; auto.
Qed.

(** A loop whose invariant follows the items already visited. *)
Lemma returns_for_each {A} (I : list A -> S -> Prop) (l : list A)
    (body : A -> M S unit) :
  (forall pre x, returns (I pre) (body x) (fun _ => I (pre ++ [x]))) ->
  forall pre, returns (I pre) (for_each l body) (fun _ => I (pre ++ l)).
Proof.
  intros Hb. induction l as [|x l IH]; intros pre; cbn.
  - intros s h a s' e Hs E. injection E as _ <- _. rewrite app_nil_r. exact Hs.
  - apply returns_bind with (Q := fun _ => I (pre ++ [x])).
    + apply Hb.
    + intros _. specialize (IH (pre ++ [x])).
      rewrite <- app_assoc in IH. exact IH.
Qed.

Lemma returns_for_enumerate {A} (I : list A -> S -> Prop) (l : list A)
    (body : nat -> A -> M S unit) :
  (forall n pre x, returns (I pre) (body n x) (fun _ => I (pre ++ [x]))) ->
  forall start pre, returns (I pre) (for_enumerate start l body) (fun _ => I (pre ++ l)).
Proof.
  intros Hb. induction l as [|x l IH]; intros start pre; cbn.
  - intros s h a s' e Hs E. injection E as _ <- _. rewrite app_nil_r. exact Hs.
  - apply returns_bind with (Q := fun _ => I (pre ++ [x])).
    + apply Hb.
    + intros _. specialize (IH (Datatypes.S start) (pre ++ [x])).
      rewrite <- app_assoc in IH. exact IH.
Qed.

(** *** ensures, with what the first step returned *)

Lemma ensures_bind_value {A B} P (Q : A -> S -> Prop) R (m : M S A) (k : A -> M S B) :
  returns P m Q -> ensures P m R -> (forall a, ensures (Q a) (k a) R) ->
  ensures P (bind m k) R.
Proof.
  intros Hv Hm Hk s h Hs. specialize (Hm s h Hs). unfold bind, locals in *.
  destruct (m s h) as [[[a | msg] s1] e1] eqn:Em; cbn in *; [|exact Hm].
  assert (HQ : Q a s1) by (eapply Hv; eauto).
  specialize (Hk a s1 (h ++ e1) HQ). unfold locals in Hk.
  destruct (k a s1 (h ++ e1)) as [[r s2] e2]. exact Hk.
Qed.

(** A loop over numbered items, with the bound on the numbers. *)
Lemma ensures_for_enumerate_upto {A} (P : nat -> S -> Prop) (l : list A)
    (body : nat -> A -> M S unit) (limit : nat) :
  (forall n x, n < limit -> ensures (P n) (body n x) (P (Datatypes.S n))) ->
  forall start, start + List.length l <= limit ->
    ensures (P start) (for_enumerate start l body)
            (fun s => exists n, n <= limit /\ P n s).
Proof.
  intros Hb. induction l as [|x l IH]; intros start Hle; cbn in *.
  - intros s h Hs. exists start. split; [lia | exact Hs].
  - apply ensures_bind with (Q := P (Datatypes.S start)).
    + apply Hb. lia.
    + intros s Hs. exists (Datatypes.S start). split; [lia | exact Hs].
    + intros _. apply IH. lia.
Qed.
End MoreRules.

(** *** The page loop of the local PDF pass *)

(** Appending a number above all the others keeps a list strictly
    sorted. *)
Lemma StronglySorted_snoc (l : list nat) x :
  StronglySorted lt l -> (forall y, In y l -> y < x) -> StronglySorted lt (l ++ [x]).
Proof.
  induction l as [|a l IH]; intros Hs Hlt; cbn.
  - repeat constructor.
  - inversion Hs as [|a' l' Hs' Ha]; subst. constructor.
    + apply IH; [exact Hs' | intros y Hy; apply Hlt; now right].
    + apply Forall_app. split; [exact Ha|].
      repeat constructor. apply Hlt. now left.
Qed.

Section Walk.
Variable cfg : Config.
Variable w : World.

(** A text the renderer returns is a JPEG data URL. *)
Lemma render_returns_data_url page h u :
  outcome (_render_page_thumbnail_data_url cfg page tt h) = Ok (Some u) ->
  exists b64, u = ("data:image/jpeg;base64," ++ b64)%string.
Proof.
  unfold _render_page_thumbnail_data_url, try_except, bind, call, ret, outcome.
  cbv zeta.
  match goal with
  | |- context [Pdf.render_jpeg page ?sc] => destruct (Pdf.render_jpeg page sc) as [b64 | msg]
  end; cbn; intros H.
  - injection H as <-. eauto.
  - discriminate H.
Qed.

(** The invariant, when a well-formed block of an allowed page is
    appended. *)
Lemma walk_inv_add_block N np nb b s :
  walk_inv N np nb s -> local_pdf_block b -> Block.page b <= nb ->
  walk_inv N np nb (PdfLocals.add_block b s).
Proof.
  intros (Hc & Ht & Hb & Hi & Hs) Hok Hp. unfold walk_inv. cbn.
  refine (conj Hc (conj Ht (conj _ (conj Hi Hs)))).
  intros b' Hin. apply in_app_or in Hin. destruct Hin as [Hin | [<- | []]]; auto.
Qed.

(** The invariant holds for larger bounds. *)
Lemma walk_inv_relax N np nb np' nb' s :
  walk_inv N np nb s -> np <= np' -> nb <= nb' -> walk_inv N np' nb' s.
Proof.
  intros (Hc & Ht & Hb & Hi & Hs) H1 H2.
  refine (conj Hc (conj Ht (conj _ (conj _ Hs)))).
  - intros b Hin. destruct (Hb b Hin). split; [assumption | lia].
  - intros i Hin. destruct (Hi i Hin) as (p & b64 & -> & Hp).
    exists p, b64. split; [reflexivity | lia].
Qed.

(** The invariant through one embedded image, one thumbnail step, and
    one page. *)
Lemma pdf_page_image_walk N n img :
  ensures (walk_inv N n (n + 1)) (pdf_page_image cfg w n img) (walk_inv N n (n + 1)).
Proof.
  unfold pdf_page_image.
  apply ensures_try with (Q := walk_inv N n (n + 1)); auto.
  - apply ensures_bind with (Q := walk_inv N n (n + 1)); auto.
    + apply ensures_lift_exc.
    + intros img_data.
      apply ensures_bind with (Q := walk_inv N n (n + 1)); auto.
      * apply ensures_lift.
      * intros ocr_text. apply ensures_when_text; auto.
        intros t _ Ht. apply ensures_modify. intros s Hs.
        apply walk_inv_add_block; [exact Hs | | cbn; lia].
        split; [exact Ht|]. split; [cbn; lia|]. right. left. split; reflexivity.
  - intros msg. apply ensures_ret.
Qed.

Lemma pdf_page_thumbnail_walk N n page :
  ensures (walk_inv N n (n + 1)) (pdf_page_thumbnail cfg n page)
          (walk_inv N (n + 1) (n + 1)).
Proof.
  assert (Hnext : forall s, walk_inv N n (n + 1) s -> walk_inv N (n + 1) (n + 1) s).
  { intros s Hs. eapply walk_inv_relax; [exact Hs | lia | lia]. }
  unfold pdf_page_thumbnail. apply ensures_get. intros s0.
  apply ensures_when.
  2:{ intros s [_ Hs]. auto. }
  intros _.
  apply ensures_try with (Q := walk_inv N (n + 1) (n + 1)); auto.
  2:{ intros msg. apply ensures_ret. }
  apply ensures_when.
  2:{ intros s [_ Hs]. auto. }
  intros _.
  apply ensures_bind_value
    with (Q := fun data_url s =>
                 walk_inv N n (n + 1) s
                 /\ exists h, outcome (_render_page_thumbnail_data_url cfg page tt h)
                              = Ok data_url).
  - eapply returns_weaken; [apply returns_lift | intros s [_ Hs]; exact Hs | auto].
  - eapply ensures_weaken; [apply ensures_lift | intros s [_ Hs]; exact Hs | auto].
  - intros data_url. apply ensures_when_text.
    2:{ intros s [Hs _]. auto. }
    intros u -> _. apply ensures_modify.
    intros s [(Hc & Ht & Hb & Hi & Hs) [h Hu]].
    destruct (render_returns_data_url _ _ _ Hu) as [b64 ->].
    unfold walk_inv. cbn.
    refine (conj Hc (conj Ht (conj Hb (conj _ _)))).
    + intros i Hin. apply in_app_or in Hin. destruct Hin as [Hin | [<- | []]].
      * destruct (Hi i Hin) as (p & b & -> & Hp). exists p, b. split; [reflexivity | lia].
      * eexists _, _. split; [reflexivity | lia].
    + rewrite map_app. cbn. apply StronglySorted_snoc; [exact Hs|].
      intros y Hy. apply in_map_iff in Hy. destruct Hy as (i & <- & Hin).
      destruct (Hi i Hin) as (p & b & -> & Hp). cbn. lia.
Qed.

Lemma pdf_page_walk N n page :
  ensures (walk_inv N n n) (pdf_page cfg w n page)
          (walk_inv N (Datatypes.S n) (Datatypes.S n)).
Proof.
  replace (Datatypes.S n) with (n + 1) by lia.
  assert (Hnext : forall s, walk_inv N n (n + 1) s -> walk_inv N (n + 1) (n + 1) s).
  { intros s Hs. eapply walk_inv_relax; [exact Hs | lia | lia]. }
  unfold pdf_page.
  apply ensures_bind with (Q := walk_inv N n (n + 1)); auto.
  - apply ensures_weaken with (P' := walk_inv N n (n + 1))
                              (Q' := walk_inv N n (n + 1)); auto.
    + apply ensures_lift_exc.
    + intros s Hs. eapply walk_inv_relax; [exact Hs | lia | lia].
  - intros page_text.
    apply ensures_bind with (Q := walk_inv N n (n + 1)); auto.
    + apply ensures_when; auto. intros Ht. apply ensures_modify. intros s Hs.
      apply walk_inv_add_block; [exact Hs | | cbn; lia].
      split; [exact Ht|]. split; [cbn; lia|]. left. split; reflexivity.
    + intros _.
      apply ensures_bind with (Q := walk_inv N n (n + 1)); auto.
      * apply ensures_when; auto. intros _.
        apply ensures_bind with (Q := walk_inv N n (n + 1)); auto.
        -- apply ensures_lift_exc.
        -- intros imgs. apply ensures_for_each. intros img _.
           apply pdf_page_image_walk.
      * intros _. apply pdf_page_thumbnail_walk.
Qed.
End Walk.

(** *** What the local PDF pass leaves *)

(** A call whose answer is known, followed by the rest. *)
Lemma ensures_bind_call_ok {S A B} (P R : S -> Prop) ev (a : A) (k : A -> M S B) :
  ensures P (k a) R -> ensures P (bind (call ev (fun _ => Ok a)) k) R.
Proof.
  intros Hk s h Hs. specialize (Hk s (h ++ [ev]) Hs). unfold bind, call, locals in *.
  destruct (k a s (h ++ [ev])) as [[r s2] e2]. exact Hk.
Qed.

Lemma ensures_bind_call_raise {S A B} (P : S -> Prop) ev msg (k : A -> M S B) :
  ensures P (bind (call ev (fun _ => Raise msg)) k) P.
Proof. intros s h Hs. exact Hs. Qed.

(** Two postconditions at once. *)
Lemma ensures_and {S A} (P1 P2 Q1 Q2 : S -> Prop) (m : M S A) :
  ensures P1 m Q1 -> ensures P2 m Q2 ->
  ensures (fun s => P1 s /\ P2 s) m (fun s => Q1 s /\ Q2 s).
Proof. intros H1 H2 s h [Hs1 Hs2]. split; [apply H1 | apply H2]; assumption. Qed.

Section LocalShape.
Variable cfg : Config.
Variable w : World.

(** A page of the walk keeps whatever appending blocks and thumbnails
    keeps. *)
Lemma pdf_page_keeps (P : PdfLocals.t -> Prop) n page :
  (forall s b, P s -> P (PdfLocals.add_block b s)) ->
  (forall s i, P s -> P (PdfLocals.add_thumbnail i s)) ->
  ensures P (pdf_page cfg w n page) P.
Proof.
  intros Hblock Hthumb. unfold pdf_page.
  apply ensures_bind with (Q := P); auto.
  - apply ensures_lift_exc.
  - intros page_text. apply ensures_bind with (Q := P); auto.
    + apply ensures_when; auto. intros _. apply ensures_modify. auto.
    + intros _. apply ensures_bind with (Q := P); auto.
      * apply ensures_when; auto. intros _.
        apply ensures_bind with (Q := P); auto.
        -- apply ensures_lift_exc.
        -- intros imgs. apply ensures_for_each. intros img _.
           unfold pdf_page_image.
           apply ensures_try with (Q := P); auto.
           ++ apply ensures_bind with (Q := P); auto.
              ** apply ensures_lift_exc.
              ** intros img_data. apply ensures_bind with (Q := P); auto.
                 --- apply ensures_lift.
                 --- intros ocr_text. apply ensures_when_text; auto.
                     intros t _ _. apply ensures_modify. auto.
           ++ intros msg. apply ensures_ret.
      * intros _. unfold pdf_page_thumbnail.
        apply ensures_get. intros s0. apply ensures_when.
        2:{ intros s [_ Hs]; exact Hs. }
        intros _. apply ensures_try with (Q := P); auto.
        2:{ intros msg. apply ensures_ret. }
        apply ensures_when.
        2:{ intros s [_ Hs]; exact Hs. }
        intros _.
        apply ensures_bind with (Q := P); auto.
        -- apply ensures_weaken with (P' := P) (Q' := P);
             [apply ensures_lift | intros s [_ Hs]; exact Hs | auto].
        -- intros data_url. apply ensures_when_text; auto.
           intros u _ _. apply ensures_modify. auto.
Qed.

(** The local pass on a file that opens, and on one that does not. *)
Lemma pdf_local_pass_opened file_buffer doc :
  fitz_open w file_buffer = Ok doc ->
  ensures (fun s => s = PdfLocals.init) (pdf_local_pass cfg w file_buffer)
          (local_pass_done (page_count_or_1 doc)).
Proof.
  intros Hopen.
  set (N := page_count_or_1 doc).
  set (L := List.length (Pdf.pages doc)).
  assert (HL : L <= N).
  { unfold N, page_count_or_1, Pdf.page_count. fold L. destruct (L =? 0)%nat eqn:E.
    - apply Nat.eqb_eq in E. lia.
    - lia. }
  set (U := fun s => PdfLocals.method s = "unknown" /\ PdfLocals.confidence s = 0%float
                     /\ PdfLocals.raw_text s = "").
  set (A := fun s => (exists n, n <= L /\ walk_inv N n n s) /\ U s).
  set (B := fun s => (exists n, n <= L /\ walk_inv N n n s)
                     /\ PdfLocals.method s = "pymupdf"
                     /\ PdfLocals.confidence s
                        = (if PyStr.truthy (PdfLocals.raw_text s)
                           then 0.85%float else 0%float)).
  set (C := fun s => walk_inv N L L s
                     /\ PdfLocals.method s = "pymupdf"
                     /\ PdfLocals.confidence s
                        = (if PyStr.truthy (PdfLocals.raw_text s)
                           then 0.85%float else 0%float)).
  assert (Hup : forall n s, n <= L -> walk_inv N n n s -> walk_inv N N N s).
  { intros n s Hn Hs. eapply walk_inv_relax; [exact Hs | lia | lia]. }
  assert (HA : forall s, A s -> local_pass_done N s).
  { intros s [(n & Hn & Hs) (Hm & Hc & Hr)]. split; [eauto|]. left. auto. }
  assert (HB : forall s, B s -> local_pass_done N s).
  { intros s [(n & Hn & Hs) (Hm & Hc)]. split; [eauto|]. right. left. auto. }
  assert (HC : forall s, C s -> local_pass_done N s).
  { intros s [Hs (Hm & Hc)]. split; [eapply Hup; [|exact Hs]; lia|]. right. left. auto. }
  unfold pdf_local_pass.
  apply ensures_bind with (Q := A); auto.
  - (* the walk over the pages *)
    unfold pdf_text_layer. rewrite Hopen.
    apply ensures_bind_call_ok.
    apply ensures_bind
      with (Q := fun s => s = PdfLocals.set_page_count N PdfLocals.init).
    + apply ensures_modify. intros s ->. reflexivity.
    + intros s ->. split; [|repeat split].
      exists 0. split; [lia|]. unfold walk_inv. cbn.
      repeat split; try tauto. constructor.
    + intros _.
      apply ensures_bind with (Q := fun s => walk_inv N 0 0 s /\ U s).
      * apply ensures_modify. intros s ->. split; [|repeat split].
        unfold walk_inv. cbn. repeat split; try tauto. constructor.
      * intros s [Hs Hu]. split; [exists 0; split; [lia | exact Hs] | exact Hu].
      * intros _.
        apply ensures_weaken
          with (P' := fun s => walk_inv N 0 0 s /\ U s)
               (Q' := fun s => exists n, n <= L /\ (walk_inv N n n s /\ U s)); auto.
        -- apply (ensures_for_enumerate_upto
                    (fun n s => walk_inv N n n s /\ U s) (Pdf.pages doc)
                    (pdf_page cfg w) L).
           ++ intros n x Hn. apply ensures_and.
              ** apply pdf_page_walk.
              ** apply pdf_page_keeps; intros s ? Hs; exact Hs.
           ++ cbn. lia.
        -- intros s (n & Hn & Hs & Hu). split; [eauto | exact Hu].
  - intros _. apply ensures_bind with (Q := B); auto.
    + apply ensures_modify. intros s [(n & Hn & Hs) _]. unfold B. cbn.
      repeat split; try reflexivity.
      exists n. split; [exact Hn|]. exact Hs.
    + intros _. apply ensures_get. intros s0. apply ensures_when.
      2:{ intros s [_ Hs]. auto. }
      intros _.
      apply ensures_weaken with (P' := C) (Q' := local_pass_done N); auto.
      2:{ intros s [_ [(n & Hn & Hs) Hrest]]. split; [|exact Hrest].
          eapply walk_inv_relax; [exact Hs | lia | lia]. }
      (* the full-page stage *)
      unfold pdf_full_page_ocr. rewrite Hopen.
      apply ensures_bind_call_ok.
      apply ensures_bind with (Q := C); auto.
      * apply ensures_modify. intros s [(Hc & Hrest) Hsum]. split; [|exact Hsum].
        unfold walk_inv. cbn. split; [|exact Hrest].
        unfold Pdf.page_count. fold L. rewrite Hc.
        unfold N, page_count_or_1, Pdf.page_count. fold L.
        destruct (L =? 0)%nat; reflexivity.
      * intros _. apply ensures_bind with (Q := C); auto.
        -- apply ensures_weaken with (P' := C) (Q' := fun s => exists n, n <= L /\ C s); auto.
           ++ apply (ensures_for_enumerate_upto (fun _ => C) (Pdf.pages doc) _ L).
              ** intros n page Hn.
                 apply ensures_bind with (Q := C); auto.
                 --- apply ensures_lift_exc.
                 --- intros img_data. apply ensures_bind with (Q := C); auto.
                     +++ apply ensures_lift.
                     +++ intros ocr_text. apply ensures_when_text; auto.
                         intros t _ Ht. apply ensures_modify.
                         intros s [Hs Hsum]. split; [|exact Hsum].
                         apply walk_inv_add_block; [exact Hs | | cbn; lia].
                         split; [exact Ht|]. split; [cbn; lia|].
                         right. right. split; reflexivity.
              ** cbn. lia.
           ++ intros s (n & _ & Hs). exact Hs.
        -- intros _. apply ensures_modify. intros s [Hs _]. split.
           ++ eapply walk_inv_relax; [exact Hs | lia | lia].
           ++ right. right. split; reflexivity.
Qed.

Lemma pdf_local_pass_unopened file_buffer msg :
  fitz_open w file_buffer = Raise msg ->
  ensures (fun s => s = PdfLocals.init) (pdf_local_pass cfg w file_buffer)
          (fun s => s = PdfLocals.init).
Proof.
  intros Hopen. unfold pdf_local_pass, pdf_text_layer. rewrite Hopen.
  intros s h ->. reflexivity.
Qed.

(** What [extract_pdf] returns: the structured result, or locals the
    local pass left for some page count. *)
Lemma extract_pdf_shape file_buffer h :
  exists r e,
    extract_pdf cfg w file_buffer tt h = (Ok r, tt, e)
    /\ ((Result.method r = "document_ai" /\ Result.images r = []
         /\ float_ge (Result.confidence r) 0.7%float = true)
        \/ (exists N s, 1 <= N /\ local_pass_done N s /\ r = PdfLocals.result s)).
Proof.
  destruct (extract_pdf_cases cfg w file_buffer h) as (r & e & Hrun & Hcase).
  exists r, e. split; [exact Hrun|].
  destruct Hcase as [(_ & Hr & Hge & _) | [h' ->]].
  - left. destruct (extract_pdf_with_document_ai_result w file_buffer h) as (_ & _ & Hres).
    destruct (Hres r Hr) as [Hm Hi]. auto.
  - right. destruct (fitz_open w file_buffer) as [doc | msg] eqn:Hopen.
    + exists (page_count_or_1 doc). eexists. split; [|split; [|reflexivity]].
      * unfold page_count_or_1. destruct (Pdf.page_count doc =? 0)%nat eqn:E; [lia|].
        apply Nat.eqb_neq in E. lia.
      * apply (ensures_try (fun s => s = PdfLocals.init)
                 (local_pass_done (page_count_or_1 doc))
                 (local_pass_done (page_count_or_1 doc))).
        -- apply pdf_local_pass_opened. exact Hopen.
        -- auto.
        -- intros m. apply ensures_ret.
        -- reflexivity.
    + exists 1. eexists. split; [lia|]. split; [|reflexivity].
      assert (E : locals (try_except (pdf_local_pass cfg w file_buffer) (fun _ => ret tt)
                            PdfLocals.init h') = PdfLocals.init).
      { apply (ensures_try (fun s => s = PdfLocals.init) (fun s => s = PdfLocals.init)
                 (fun s => s = PdfLocals.init)).
        - eapply pdf_local_pass_unopened. exact Hopen.
        - auto.
        - intros m. apply ensures_ret.
        - reflexivity. }
      rewrite E. split.
      * unfold walk_inv. cbn. repeat split; try tauto. constructor.
      * left. repeat split.
Qed.
End LocalShape.

(** *** The result of the PDF extractor *)

(** Stripping never lengthens a text. *)
Lemma lstrip_length s : String.length (PyStr.lstrip s) <= String.length s.
Proof.
  induction s as [|c s IH]; cbn; [lia|].
  destruct (PyStr.is_space c); cbn; lia.
Qed.

Lemma rstrip_length s : String.length (PyStr.rstrip s) <= String.length s.
Proof.
  induction s as [|c s IH]; cbn; [lia|].
  destruct (PyStr.rstrip s) as [|c' r'] eqn:E.
  - destruct (PyStr.is_space c); cbn; lia.
  - cbn in *. lia.
Qed.

Lemma strip_length s : String.length (PyStr.strip s) <= String.length s.
Proof.
  unfold PyStr.strip.
  pose proof (rstrip_length (PyStr.lstrip s)). pose proof (lstrip_length s). lia.
Qed.

Section PdfExtras.
Variable cfg : Config.
Variable w : World.

(** X9. [extract_pdf] never raises. Its result is either the structured
    one, with confidence at least 0.7, or a local one: without tables,
    with a page count of at least 1, and with method, confidence and
    text tied together: [unknown] with 0 and no text, [pymupdf] with
    0.85 exactly when there is text, or [pymupdf_ocr] with 0.6. *)
Theorem extract_pdf_summary file_buffer h :
  exists r e,
    extract_pdf cfg w file_buffer tt h = (Ok r, tt, e)
    /\ ((Result.method r = "document_ai"
         /\ float_ge (Result.confidence r) 0.7%float = true)
        \/ (Result.tables r = []
            /\ 1 <= Result.page_count r
            /\ local_summary (Result.method r) (Result.confidence r)
                 (Result.raw_text r))).
Proof.
  destruct (extract_pdf_shape cfg w file_buffer h) as (r & e & Hrun & Hshape).
  exists r, e. split; [exact Hrun|].
  destruct Hshape as [(Hm & Hi & Hge) | (N & s & HN & [(Hc & Ht & _) Hsum] & ->)].
  - left. auto.
  - right. cbn. rewrite Hc. auto.
Qed.

(** X10. Every block of a local PDF result has a non-empty text, sits on
    a page between 1 and [page_count], and has the confidence of its
    type: [paragraph] 0.85, [ocr] 0.7, [page_ocr] 0.6. *)
Theorem local_pdf_blocks_well_formed file_buffer h :
  exists r e,
    extract_pdf cfg w file_buffer tt h = (Ok r, tt, e)
    /\ (Result.method r = "document_ai"
        \/ forall b, In b (Result.text_blocks r) ->
             local_pdf_block b /\ Block.page b <= Result.page_count r).
Proof.
  destruct (extract_pdf_shape cfg w file_buffer h) as (r & e & Hrun & Hshape).
  exists r, e. split; [exact Hrun|].
  destruct Hshape as [(Hm & _) | (N & s & HN & [(Hc & Ht & Hb & _) Hsum] & ->)].
  - left. exact Hm.
  - right. cbn. rewrite Hc. exact Hb.
Qed.

(** X11. The images of a PDF result are page thumbnails in strictly
    increasing page order, so no page has two. Each is a JPEG data URL
    with the fixed caption for a page between 1 and [page_count]. A
    structured result has none. *)
Theorem pdf_thumbnails_one_per_page file_buffer h :
  exists r e,
    extract_pdf cfg w file_buffer tt h = (Ok r, tt, e)
    /\ StronglySorted lt (map image_page (Result.images r))
    /\ NoDup (map image_page (Result.images r))
    /\ (Result.method r = "document_ai" -> Result.images r = [])
    /\ forall i, In i (Result.images r) -> page_thumbnail (Result.page_count r) i.
Proof.
  assert (Hnodup : forall l, StronglySorted lt l -> NoDup l).
  { induction l as [|a l IH]; intros Hs; [constructor|].
    inversion Hs as [|a' l' Hs' Ha]; subst. constructor; [|auto].
    intros Hin. rewrite Forall_forall in Ha. specialize (Ha a Hin). lia. }
  destruct (extract_pdf_shape cfg w file_buffer h) as (r & e & Hrun & Hshape).
  exists r, e. split; [exact Hrun|].
  destruct Hshape as [(Hm & Hi & _) | (N & s & HN & [(Hc & Ht & Hb & Himg & Hs) Hsum] & ->)].
  - rewrite Hi. cbn. repeat split; try constructor. intros i [].
  - cbn. rewrite Hc. refine (conj Hs (conj (Hnodup _ Hs) (conj _ Himg))).
    intros Hm. destruct Hsum as [(E & _) | [(E & _) | (E & _)]];
      rewrite E in Hm; discriminate Hm.
Qed.

End PdfExtras.

(** *** Counting the openings of a PDF *)

Lemma count_opens_app e1 e2 : count_opens (e1 ++ e2) = count_opens e1 + count_opens e2.
Proof. unfold count_opens. rewrite filter_app, length_app. reflexivity. Qed.

(** Calls that are no opening count for nothing. *)
Lemma count_opens_none e :
  Forall (fun ev => is_open ev = false) e -> count_opens e = 0.
Proof.
  induction 1 as [|ev e Hev _ IH]; [reflexivity|].
  unfold count_opens in *. cbn. rewrite Hev. exact IH.
Qed.

Section Tracks.
Context {S : Type}.

(** From a postcondition on locals and a property of every call. *)
Lemma tracks_of {A} (P Q : S -> Prop) F (m : M S A) :
  ensures P m Q -> calls_all F m -> tracks P m (fun s e => Q s /\ Forall F e).
Proof. intros H1 H2 s h Hs. split; [apply H1, Hs | apply H2]. Qed.

Lemma tracks_weaken {A} (P P' : S -> Prop) (Q Q' : S -> list Event -> Prop) (m : M S A) :
  tracks P' m Q' -> (forall s, P s -> P' s) -> (forall s e, Q' s e -> Q s e) ->
  tracks P m Q.
Proof. intros H HP HQ s h Hs. apply HQ, H, HP, Hs. Qed.

Lemma tracks_bind {A B} (P : S -> Prop) (Q1 Q : S -> list Event -> Prop)
    (m : M S A) (k : A -> M S B) :
  tracks P m Q1 -> (forall s e, Q1 s e -> Q s e) ->
  (forall a e1, tracks (fun s => Q1 s e1) (k a) (fun s' e2 => Q s' (e1 ++ e2))) ->
  tracks P (bind m k) Q.
Proof.
  intros Hm HQ Hk s h Hs. specialize (Hm s h Hs). unfold bind, locals, calls in *.
  destruct (m s h) as [[[a | msg] s1] e1]; cbn in *.
  - specialize (Hk a e1 s1 (h ++ e1) Hm). unfold locals, calls in Hk.
    destruct (k a s1 (h ++ e1)) as [[r s2] e2]. exact Hk.
  - apply HQ, Hm.
Qed.

Lemma tracks_modify (P : S -> Prop) (f : S -> S) :
  tracks P (modify f) (fun s' e => (exists s, P s /\ s' = f s) /\ e = []).
Proof. intros s h Hs. split; [eauto | reflexivity]. Qed.

Lemma tracks_get {B} (P : S -> Prop) (Q : S -> list Event -> Prop) (k : S -> M S B) :
  (forall s0, tracks (fun s => s = s0 /\ P s) (k s0) Q) -> tracks P (bind get k) Q.
Proof.
  intros Hk s h Hs. unfold bind, get, locals, calls. cbn.
  specialize (Hk s s (h ++ []) (conj eq_refl Hs)). unfold locals, calls in Hk.
  destruct (k s s (h ++ [])) as [[r s2] e2]. exact Hk.
Qed.

Lemma tracks_when (P : S -> Prop) (Q : S -> list Event -> Prop) (c : bool) (m : M S unit) :
  (c = true -> tracks P m Q) -> (c = false -> forall s, P s -> Q s []) ->
  tracks P (when c m) Q.
Proof.
  intros Hm HPQ. destruct c; cbn.
  - apply Hm; reflexivity.
  - intros s h Hs. apply HPQ; auto.
Qed.

(** An assignment followed by the rest. *)
Lemma tracks_modify_then {B} (P : S -> Prop) (Q : S -> list Event -> Prop)
    (f : S -> S) (k : unit -> M S B) :
  tracks (fun s' => exists s, P s /\ s' = f s) (k tt) Q ->
  tracks P (bind (modify f) k) Q.
Proof.
  intros Hk s h Hs. unfold bind, modify, locals, calls. cbn.
  specialize (Hk (f s) (h ++ []) (ex_intro _ s (conj Hs eq_refl))).
  unfold locals, calls in Hk.
  destruct (k tt (f s) (h ++ [])) as [[r s2] e2]. exact Hk.
Qed.

(** [try: m except: pass] leaves what [m] left. *)
Lemma tracks_try_pass (P : S -> Prop) (Q : S -> list Event -> Prop) (m : M S unit) :
  tracks P m Q -> tracks P (try_except m (fun _ => ret tt)) Q.
Proof.
  intros Hm s h Hs. specialize (Hm s h Hs). unfold try_except, ret, locals, calls in *.
  destruct (m s h) as [[[a | msg] s1] e1]; cbn in *; [exact Hm|].
  rewrite app_nil_r. exact Hm.
Qed.
End Tracks.

Section Calls.
Variable cfg : Config.
Variable w : World.

(** The cascade, the renderer and a page make no call but their own. *)
Lemma ocr_image_calls_all (F : Event -> Prop) img :
  F EvVision -> F EvGoogleAuth -> F EvVertexGemini -> F EvOpenAI ->
  calls_all F (ocr_image cfg w img).
Proof.
  intros H1 H2 H3 H4.
  assert (Hv : calls_all F (ocr_with_vertex_gemini w img)).
  { unfold ocr_with_vertex_gemini.
    apply calls_all_bind; [apply calls_all_call; exact H2|].
    intros token. destruct (negb (PyStr.truthy token)); [intros s h; constructor|].
    apply calls_all_bind; [apply calls_all_call; exact H3|].
    intros resp. destruct (negb (vertex_status resp =? 200)%nat); [intros s h; constructor|].
    apply calls_all_bind; intros; intros s h; constructor. }
  assert (Ho : calls_all F (ocr_with_openai w img)).
  { unfold ocr_with_openai.
    apply calls_all_bind; [apply calls_all_call; exact H4|].
    intros resp. destruct (openai_status resp =? 200)%nat; [|intros s h; constructor].
    apply calls_all_bind; intros; intros s h; constructor. }
  assert (Hg : calls_all F (generative_fallback cfg w img)).
  { unfold generative_fallback. apply calls_all_bind.
    - destruct (VERTEX_GEMINI_OCR_ENABLED cfg); [|intros s h; constructor].
      apply calls_all_try.
      + apply calls_all_bind; [exact Hv | intros; intros s h; constructor].
      + intros; intros s h; constructor.
    - intros [text|]; [intros s h; constructor|].
      destruct (PyStr.truthy (OPENAI_API_KEY cfg)); [|intros s h; constructor].
      apply calls_all_try; [exact Ho | intros; intros s h; constructor]. }
  unfold ocr_image. apply calls_all_try.
  - apply calls_all_bind; [apply calls_all_call; exact H1|].
    intros [|d rest]; [exact Hg | intros s h; constructor].
  - intros msg. exact Hg.
Qed.

Lemma render_calls_all (F : Event -> Prop) page :
  F EvThumbnail -> calls_all F (_render_page_thumbnail_data_url cfg page).
Proof.
  intros H. unfold _render_page_thumbnail_data_url. cbv zeta.
  apply calls_all_try.
  - apply calls_all_bind; [apply calls_all_call; exact H|].
    intros; intros s h; constructor.
  - intros; intros s h; constructor.
Qed.

(** A page of the walk calls only the cascade and the renderer. *)
Lemma pdf_page_calls_all (F : Event -> Prop) n page :
  F EvVision -> F EvGoogleAuth -> F EvVertexGemini -> F EvOpenAI -> F EvThumbnail ->
  calls_all F (pdf_page cfg w n page).
Proof.
  intros H1 H2 H3 H4 H5. unfold pdf_page.
  apply calls_all_bind; [intros s h; constructor|]. intros page_text.
  apply calls_all_bind; [apply calls_all_when; intros s h; constructor|]. intros _.
  apply calls_all_bind.
  - apply calls_all_when. apply calls_all_bind; [intros s h; constructor|].
    intros imgs. apply calls_all_for_each. intros img. unfold pdf_page_image.
    apply calls_all_try; [|intros; intros s h; constructor].
    apply calls_all_bind; [intros s h; constructor|]. intros img_data.
    apply calls_all_bind; [apply calls_all_lift, ocr_image_calls_all; assumption|].
    intros ocr_text. apply calls_all_when_text. intros; intros s h; constructor.
  - intros _. unfold pdf_page_thumbnail.
    apply calls_all_bind; [intros s h; constructor|]. intros s0.
    apply calls_all_when. apply calls_all_try; [|intros; intros s h; constructor].
    apply calls_all_when.
    apply calls_all_bind; [apply calls_all_lift, render_calls_all; assumption|].
    intros data_url. apply calls_all_when_text. intros; intros s h; constructor.
Qed.

(** Each of the two passes opens the file exactly once. *)
Lemma pdf_text_layer_opens_once file_buffer s h :
  count_opens (calls (pdf_text_layer cfg w file_buffer s h)) = 1.
Proof.
  unfold pdf_text_layer. unfold bind at 1. unfold call.
  destruct (fitz_open w file_buffer) as [doc | msg]; [|reflexivity].
  match goal with
  | |- context [match ?k ?s0 ?h0 with _ => _ end] =>
      assert (Hrest : Forall (fun ev => is_open ev = false) (calls (k s0 h0)));
      [|destruct (k s0 h0) as [[r s2] e2]]
  end.
  - apply calls_all_bind; [intros s1 h1; constructor|]. intros _.
    apply calls_all_bind; [intros s1 h1; constructor|]. intros _.
    apply calls_all_for_enumerate. intros n page.
    apply pdf_page_calls_all; reflexivity.
  - unfold calls in *. cbn [fst snd] in *.
    rewrite count_opens_app, (count_opens_none _ Hrest). reflexivity.
Qed.

Lemma pdf_full_page_ocr_opens_once file_buffer s h :
  count_opens (calls (pdf_full_page_ocr cfg w file_buffer s h)) = 1.
Proof.
  unfold pdf_full_page_ocr. unfold bind at 1. unfold call.
  destruct (fitz_open w file_buffer) as [doc | msg]; [|reflexivity].
  match goal with
  | |- context [match ?k ?s0 ?h0 with _ => _ end] =>
      assert (Hrest : Forall (fun ev => is_open ev = false) (calls (k s0 h0)));
      [|destruct (k s0 h0) as [[r s2] e2]]
  end.
  - apply calls_all_bind; [intros s1 h1; constructor|]. intros _.
    apply calls_all_bind; [|intros; intros s1 h1; constructor].
    apply calls_all_for_enumerate. intros n page.
    apply calls_all_bind; [intros s1 h1; constructor|]. intros img_data.
    apply calls_all_bind; [apply calls_all_lift, ocr_image_calls_all; reflexivity|].
    intros ocr_text. apply calls_all_when_text. intros; intros s1 h1; constructor.
  - unfold calls in *. cbn [fst snd] in *.
    rewrite count_opens_app, (count_opens_none _ Hrest). reflexivity.
Qed.

(** The local pass: how many openings go with which summary. *)
Lemma pdf_local_pass_opens file_buffer :
  tracks (fun s => PdfLocals.method s = "unknown") (pdf_local_pass cfg w file_buffer)
         opens_as_summarised.
Proof.
  set (U := fun s => PdfLocals.method s = "unknown").
  set (J := fun s => PdfLocals.method s = "pymupdf"
                     /\ PdfLocals.confidence s
                        = (if PyStr.truthy (PdfLocals.raw_text s)
                           then 0.85%float else 0%float)).
  unfold pdf_local_pass.
  apply tracks_bind with (Q1 := fun s e => U s /\ count_opens e = 1).
  - intros s h Hs. split.
    + apply (pdf_text_layer_method cfg w file_buffer s h Hs).
    + apply pdf_text_layer_opens_once.
  - intros s e [Hu Hc]. left. auto.
  - intros _ e1. apply tracks_modify_then. apply tracks_get. intros s0.
    apply tracks_when.
    + (* the full-page stage runs *)
      intros Hlt. apply Nat.ltb_lt in Hlt.
      intros s h [-> (s1 & [Hu Hc] & ->)].
      match goal with
      | |- opens_as_summarised _ (e1 ++ ?e2) =>
          assert (Hcount : count_opens (e1 ++ e2) = 2)
            by (rewrite count_opens_app, Hc, pdf_full_page_ocr_opens_once; reflexivity)
      end.
      cbn [PdfLocals.raw_text PdfLocals.set_summary] in Hlt.
      assert (Hfinal :
        (fun s => (PdfLocals.method s = "pymupdf"
                   /\ String.length (PdfLocals.raw_text s) < 100)
                  \/ PdfLocals.method s = "pymupdf_ocr")
          (locals (pdf_full_page_ocr cfg w file_buffer
                     (PdfLocals.set_summary (join_blocks (PdfLocals.text_blocks s1))
                        (if PyStr.truthy (join_blocks (PdfLocals.text_blocks s1))
                         then 0.85%float else 0%float) "pymupdf" s1) h))).
      { apply (pdf_full_page_ocr_ensures cfg w
                 (fun s => PdfLocals.method s = "pymupdf"
                           /\ String.length (PdfLocals.raw_text s) < 100)).
        - intros s b Hs. exact Hs.
        - intros s n Hs. exact Hs.
        - intros s _. right. reflexivity.
        - intros s Hs. left. exact Hs.
        - split; [reflexivity | exact Hlt]. }
      cbv beta in Hfinal. destruct Hfinal as [[Hm Hl] | Hm].
      * right. right. left. auto.
      * right. right. right. auto.
    + (* the text layer was enough *)
      intros Hge s [-> (s1 & [Hu Hc] & ->)]. apply Nat.ltb_ge in Hge.
      right. left. cbn in *. rewrite app_nil_r. repeat split; auto.
      destruct (join_blocks (PdfLocals.text_blocks s1)); [cbn in Hge; lia | reflexivity].
Qed.
End Calls.

Section Opens.
Variable cfg : Config.
Variable w : World.

(** [extract_pdf], with the calls: the structured result after one
    call, or what the local pass left and called, after at most the
    call to Document AI. *)
Lemma extract_pdf_run file_buffer h :
  exists r e,
    extract_pdf cfg w file_buffer tt h = (Ok r, tt, e)
    /\ ((Result.method r = "document_ai" /\ e = [EvDocumentAI])
        \/ (exists pre h',
              (pre = [] \/ pre = [EvDocumentAI])
              /\ r = PdfLocals.result
                       (locals (try_except (pdf_local_pass cfg w file_buffer)
                                  (fun _ => ret tt) PdfLocals.init h'))
              /\ e = pre ++ calls (try_except (pdf_local_pass cfg w file_buffer)
                                     (fun _ => ret tt) PdfLocals.init h'))).
Proof.
  assert (Hlocal : forall h0 e0,
    exists r e,
      (let (p, e2) :=
         (ran <- scoped PdfLocals.init
                   (try_except (pdf_local_pass cfg w file_buffer) (fun _ => ret tt)) ;;
          ret (PdfLocals.result (snd ran))) tt h0 in
       let (r, s2) := p in (r, s2, e0 ++ e2)) = (Ok r, tt, e)
      /\ r = PdfLocals.result
               (locals (try_except (pdf_local_pass cfg w file_buffer)
                          (fun _ => ret tt) PdfLocals.init h0))
      /\ e = e0 ++ calls (try_except (pdf_local_pass cfg w file_buffer)
                            (fun _ => ret tt) PdfLocals.init h0)).
  { intros h0 e0. unfold bind, scoped.
    destruct (try_except (pdf_local_pass cfg w file_buffer) (fun _ => ret tt)
                PdfLocals.init h0) as [[r2 s2] e2] eqn:E.
    cbn. rewrite app_nil_r. eexists _, _. repeat split. }
  unfold extract_pdf.
  destruct (PyStr.truthy (DOCUMENT_AI_PROCESSOR_ID cfg)) eqn:Hid.
  - pose proof (extract_pdf_with_document_ai_result w file_buffer h) as (Hc & Hl & Hr).
    unfold bind at 1. unfold try_except at 1. unfold bind at 1.
    unfold calls, locals, outcome in *.
    destruct (extract_pdf_with_document_ai w file_buffer tt h) as [[[r | msg] u] e1];
      cbn [fst snd] in *; subst u e1.
    + unfold ret at 1.
      destruct (float_ge (Result.confidence r) 0.7%float) eqn:Hge.
      * cbn. eexists _, _. split; [reflexivity|]. left.
        split; [apply (Hr r eq_refl) | reflexivity].
      * destruct (Hlocal (h ++ [EvDocumentAI] ++ []) ([EvDocumentAI] ++ []))
          as (r' & e' & E & Hr' & He').
        exists r', e'. split; [exact E|]. right.
        exists [EvDocumentAI], (h ++ [EvDocumentAI] ++ []). auto.
    + unfold ret at 1.
      destruct (Hlocal (h ++ [EvDocumentAI] ++ []) ([EvDocumentAI] ++ []))
        as (r' & e' & E & Hr' & He').
      exists r', e'. split; [exact E|]. right.
      exists [EvDocumentAI], (h ++ [EvDocumentAI] ++ []). auto.
  - unfold bind at 1. unfold ret at 1.
    destruct (Hlocal (h ++ []) (@nil Event)) as (r' & e' & E & Hr' & He').
    exists r', e'. split; [exact E|]. right.
    exists [], (h ++ []). auto.
Qed.

(** X13. How often [extract_pdf] opens the file with PyMuPDF can be read
    off its result: never for a structured result; once for method
    [unknown] and for [pymupdf] with 100 characters or more (then with
    confidence 0.85); twice for [pymupdf] with fewer than 100 characters
    (the OCR pass was interrupted) and for [pymupdf_ocr]. *)
Theorem pdf_opened_once_or_twice file_buffer h :
  exists r e,
    extract_pdf cfg w file_buffer tt h = (Ok r, tt, e)
    /\ ((Result.method r = "document_ai" /\ count_opens e = 0)
        \/ (Result.method r = "unknown" /\ count_opens e = 1)
        \/ (Result.method r = "pymupdf" /\ 100 <= String.length (Result.raw_text r)
            /\ Result.confidence r = 0.85%float /\ count_opens e = 1)
        \/ (Result.method r = "pymupdf" /\ String.length (Result.raw_text r) < 100
            /\ count_opens e = 2)
        \/ (Result.method r = "pymupdf_ocr" /\ count_opens e = 2)).
Proof.
  destruct (extract_pdf_run file_buffer h) as (r & e & Hrun & Hcase).
  exists r, e. split; [exact Hrun|].
  destruct Hcase as [[Hm ->] | (pre & h' & Hpre & -> & ->)].
  - left. split; [exact Hm | reflexivity].
  - right.
    assert (H0 : count_opens pre = 0) by (destruct Hpre as [-> | ->]; reflexivity).
    rewrite count_opens_app, H0. cbn [Nat.add].
    pose proof (tracks_try_pass _ _ _ (pdf_local_pass_opens cfg w file_buffer)
                  PdfLocals.init h' eq_refl) as Hopen.
    cbn [PdfLocals.result Result.method Result.raw_text Result.confidence].
    exact Hopen.
Qed.
End Opens.

(** *** Strings *)

(** The length of a slice: what was asked for, cut at the end of the
    text. *)
Lemma substring_length a n s :
  String.length (substring a n s) = Nat.min n (String.length s - a).
Proof.
  revert a n. induction s as [|c s IH]; intros [|a] [|n]; cbn; try reflexivity.
  - rewrite IH. rewrite Nat.sub_0_r. reflexivity.
  - rewrite IH. reflexivity.
  - rewrite IH. reflexivity.
Qed.

Lemma substring_all s : substring 0 (String.length s) s = s.
Proof. induction s as [|c s IH]; cbn; [reflexivity | now rewrite IH]. Qed.

Lemma string_app_length (a b : string) :
  String.length (a ++ b) = String.length a + String.length b.
Proof. induction a as [|c a IH]; cbn; [reflexivity | now rewrite IH]. Qed.

(** Stripping twice is stripping once. *)
Lemma rstrip_idempotent s : PyStr.rstrip (PyStr.rstrip s) = PyStr.rstrip s.
Proof.
  induction s as [|c s IH]; [reflexivity|].
  cbn [PyStr.rstrip].
  destruct (PyStr.rstrip s) as [|c' r'] eqn:E.
  - destruct (PyStr.is_space c) eqn:Hc; [reflexivity|].
    cbn [PyStr.rstrip]. rewrite Hc. reflexivity.
  - cbn [PyStr.rstrip] in *. rewrite IH. reflexivity.
Qed.

(** A left-stripped text is empty or starts with a character that is no
    space; right-stripping keeps that character. *)
Lemma lstrip_head s :
  PyStr.lstrip s = "" \/ exists c r, PyStr.lstrip s = String c r /\ PyStr.is_space c = false.
Proof.
  induction s as [|c s IH]; [left; reflexivity|].
  cbn. destruct (PyStr.is_space c) eqn:Hc; [exact IH|].
  right. eauto.
Qed.

Lemma rstrip_head c r :
  PyStr.is_space c = false -> exists r', PyStr.rstrip (String c r) = String c r'.
Proof.
  intros Hc. cbn [PyStr.rstrip].
  destruct (PyStr.rstrip r); [rewrite Hc|]; eauto.
Qed.

Lemma strip_idempotent s : PyStr.strip (PyStr.strip s) = PyStr.strip s.
Proof.
  unfold PyStr.strip.
  destruct (lstrip_head s) as [-> | (c & r & -> & Hc)]; [reflexivity|].
  destruct (rstrip_head c r Hc) as [r' E].
  rewrite E at 1. cbn [PyStr.lstrip]. rewrite Hc. rewrite <- E.
  apply rstrip_idempotent.
Qed.

(** There are at most as many words as characters. *)
Lemma split_ws_from_length cur s :
  List.length (PyStr.split_ws_from cur s)
  <= (if PyStr.truthy cur then 1 else 0) + String.length s.
Proof.
  revert cur. induction s as [|c s IH]; intros cur.
  - cbn. destruct cur; cbn; lia.
  - cbn [PyStr.split_ws_from String.length].
    destruct (PyStr.is_space c).
    + specialize (IH ""). cbn in IH. destruct cur; cbn [List.length PyStr.truthy]; lia.
    + specialize (IH (cur ++ String c "")%string).
      destruct (PyStr.truthy (cur ++ String c "")%string); destruct (PyStr.truthy cur); lia.
Qed.

(** A word under way is never lost. *)
Lemma split_ws_from_pending cur s :
  cur <> "" -> PyStr.split_ws_from cur s <> [].
Proof.
  revert cur. induction s as [|c s IH]; intros cur Hcur.
  - cbn. destruct cur; [congruence | discriminate].
  - cbn. destruct (PyStr.is_space c).
    + destruct cur; [congruence | discriminate].
    + apply IH. destruct cur; discriminate.
Qed.

(** No word at all: the text is blank. *)
Lemma split_blank s : PyStr.split s = [] <-> PyStr.strip s = "".
Proof.
  unfold PyStr.split, PyStr.strip.
  induction s as [|c s IH]; [cbn; tauto|].
  cbn [PyStr.split_ws_from PyStr.lstrip].
  destruct (PyStr.is_space c) eqn:Hc; [exact IH|].
  split.
  - intros H. exfalso. revert H. apply split_ws_from_pending. discriminate.
  - intros H. destruct (rstrip_head c s Hc) as [r' E]. rewrite E in H. discriminate.
Qed.

(** *** Layout texts *)

(** The length of the concatenated segments. *)
Lemma layout_fold_length full_text segments acc :
  String.length
    (fold_left
       (fun text segment =>
          let start := if negb (DocAI.start_index segment =? 0)%nat
                       then DocAI.start_index segment else 0 in
          let end_ := DocAI.end_index segment in
          (text ++ PyStr.slice start end_ full_text)%string)
       segments acc)
  = String.length acc
    + list_sum (map (segment_width (String.length full_text)) segments).
Proof.
  revert acc. induction segments as [|seg segments IH]; intros acc.
  - cbn. lia.
  - cbn [fold_left map list_sum]. rewrite IH. cbv zeta.
    rewrite string_app_length. unfold PyStr.slice, segment_width.
    rewrite substring_length.
    destruct (DocAI.start_index seg) as [|k]; cbn [Nat.eqb negb];
      unfold list_sum; cbn [fold_right]; lia.
Qed.

(** X15. The text of a layout is never longer than its segments allow:
    at most the sum of the segment widths, each cut at the end of the
    document text (so a layout without segments has the empty text). It
    has no white space at either end, and a single segment spanning the
    document gives the document text stripped. *)
Theorem layout_text_is_clipped_and_stripped layout full_text :
  String.length (get_text_from_layout layout full_text)
    <= list_sum (map (segment_width (String.length full_text))
                   (DocAI.text_segments layout))
  /\ PyStr.strip (get_text_from_layout layout full_text)
     = get_text_from_layout layout full_text
  /\ forall confidence,
       get_text_from_layout
         {| DocAI.text_segments :=
              [ {| DocAI.start_index := 0;
                   DocAI.end_index := String.length full_text |} ];
            DocAI.confidence := confidence |} full_text
       = PyStr.strip full_text.
Proof.
  unfold get_text_from_layout. refine (conj _ (conj _ _)).
  - etransitivity; [apply strip_length|].
    rewrite layout_fold_length. cbn. lia.
  - apply strip_idempotent.
  - intros confidence. cbn. unfold PyStr.slice.
    rewrite Nat.sub_0_r, substring_all. reflexivity.
Qed.

(** *** Builder *)

(** X18. In the canonical document, [total_tables] and [total_images]
    are the lengths of the tables and images of [structure];
    [total_words] is at most [total_chars]; and [total_words] is 0
    exactly when the full text is empty or white space only. *)
Theorem canonical_counts_and_words result filename file_type file_size request_id now :
  let canonical :=
    build_canonical_model result filename file_type file_size request_id now in
  Canonical.total_tables (Canonical.stats canonical)
    = List.length (Canonical.tables (Canonical.structure canonical))
  /\ Canonical.total_images (Canonical.stats canonical)
    = List.length (Canonical.images (Canonical.structure canonical))
  /\ Canonical.total_words (Canonical.stats canonical)
    <= Canonical.total_chars (Canonical.stats canonical)
  /\ (Canonical.total_words (Canonical.stats canonical) = 0
      <-> PyStr.strip (Canonical.full_text (Canonical.content canonical)) = "").
Proof.
  cbv zeta. unfold build_canonical_model.
  cbn [Canonical.stats Canonical.structure Canonical.content Canonical.total_tables
       Canonical.total_images Canonical.total_words Canonical.total_chars
       Canonical.tables Canonical.images Canonical.full_text].
  refine (conj eq_refl (conj eq_refl (conj _ _))).
  - unfold PyStr.split.
    pose proof (split_ws_from_length "" (dict_get (ResultDict.raw_text result) "")) as H.
    cbn in H. exact H.
  - rewrite <- split_blank. apply length_zero_iff_nil.
Qed.

(** *** Document AI *)

Section DocAIFacts.
Variable cfg : Config.
Variable w : World.

(** The length of a [flat_map]. *)
Lemma length_flat_map_sum {A B} (f : A -> list B) (l : list A) :
  List.length (flat_map f l) = list_sum (map (fun a => List.length (f a)) l).
Proof.
  induction l as [|a l IH]; [reflexivity|].
  cbn. rewrite length_app, IH. reflexivity.
Qed.

(** The blocks of an answer without paragraphs. *)
Lemma paragraph_free_blocks document :
  paragraph_count document = 0 ->
  flat_map (fun page => map (paragraph_block document page) (DocAI.paragraphs page))
           (DocAI.pages document) = [].
Proof.
  intros Hzero. apply length_zero_iff_nil. rewrite length_flat_map_sum.
  unfold paragraph_count in Hzero. rewrite <- Hzero.
  f_equal. apply map_ext. intros page. apply length_map.
Qed.

(** The structured result of a [tableless] answer without paragraphs. *)
Lemma document_ai_blank file_buffer h document :
  process_document w h file_buffer = Ok document ->
  tableless document = true ->
  paragraph_count document = 0 ->
  exists r,
    extract_pdf_with_document_ai w file_buffer tt h = (Ok r, tt, [EvDocumentAI])
    /\ Result.method r = "document_ai"
    /\ Result.text_blocks r = []
    /\ Result.confidence r = 0.9%float
    /\ Result.raw_text r = DocAI.text document
    /\ Result.page_count r = List.length (DocAI.pages document).
Proof.
  intros Hdoc Hnotab Hzero.
  rewrite (document_ai_run w file_buffer h document Hdoc), Hnotab.
  eexists. split; [reflexivity|].
  unfold document_ai_result. cbv zeta.
  cbn [Result.method Result.raw_text Result.page_count Result.text_blocks
       Result.confidence].
  rewrite (paragraph_free_blocks document Hzero). repeat split.
Qed.

(** X16. When the processor answers, the structured stage makes that
    one call. For an answer without tables it returns method
    [document_ai], the service's full text as [raw_text], one page per
    page of the answer, no images, no tables and one block per
    paragraph; every block has type [paragraph], a stripped text, the
    number of a page of the answer and a confidence that is never zero
    (a zero is replaced by 0.9); without paragraphs the confidence of
    the result is 0.9. For an answer with a table on some page the
    stage raises: joining the header rows and the body rows of the
    table with [+] is a [TypeError], so the stage never returns a
    table. *)
Theorem document_ai_result_shape file_buffer h document :
  process_document w h file_buffer = Ok document ->
  (tableless document = true ->
   exists r,
     extract_pdf_with_document_ai w file_buffer tt h = (Ok r, tt, [EvDocumentAI])
     /\ Result.method r = "document_ai"
     /\ Result.raw_text r = DocAI.text document
     /\ Result.page_count r = List.length (DocAI.pages document)
     /\ Result.images r = []
     /\ Result.tables r = []
     /\ List.length (Result.text_blocks r) = paragraph_count document
     /\ Forall (fun b => Block.type b = "paragraph"
                         /\ float_truthy (Block.confidence b) = true
                         /\ on_a_page document (Block.page b)
                         /\ PyStr.strip (Block.text b) = Block.text b)
          (Result.text_blocks r)
     /\ (paragraph_count document = 0 -> Result.confidence r = 0.9%float))
  /\ (tableless document = false ->
      exists msg,
        extract_pdf_with_document_ai w file_buffer tt h
        = (Raise msg, tt, [EvDocumentAI])).
Proof.
  intros Hdoc. rewrite (document_ai_run w file_buffer h document Hdoc).
  split; intros Hnotab; rewrite Hnotab; [|eexists; reflexivity].
  eexists. split; [reflexivity|].
  unfold document_ai_result. cbv zeta.
  cbn [Result.method Result.raw_text Result.page_count Result.images
       Result.text_blocks Result.tables Result.confidence].
  refine (conj eq_refl (conj eq_refl (conj eq_refl (conj eq_refl (conj eq_refl _))))).
  refine (conj _ (conj _ _)).
  - rewrite length_flat_map_sum. unfold paragraph_count.
    f_equal. apply map_ext. intros page. apply length_map.
  - apply Forall_forall. intros b Hb.
    apply in_flat_map in Hb as (page & Hpage & Hb).
    apply in_map_iff in Hb as (paragraph & <- & Hpar).
    unfold paragraph_block.
    cbn [Block.type Block.confidence Block.page Block.text].
    refine (conj eq_refl (conj _ (conj _ _))).
    + destruct (float_truthy (DocAI.confidence paragraph)) eqn:E; [exact E | reflexivity].
    + exists page. auto.
    + apply strip_idempotent.
  - intros Hzero. rewrite (paragraph_free_blocks document Hzero). reflexivity.
Qed.

(** X17. With a processor configured and an answer from it: when the
    answer has no table and no paragraph at all, the PDF is still
    answered by the structured stage: the default confidence 0.9 passes
    the 0.7 test, so the result has no text block, and PyMuPDF and OCR
    are never tried. When the answer has a table, the structured stage
    raised, and the result is that of the local pass, run after the one
    call to the processor. *)
Theorem paragraph_free_scan_is_final file_buffer h document :
  PyStr.truthy (DOCUMENT_AI_PROCESSOR_ID cfg) = true ->
  process_document w h file_buffer = Ok document ->
  (tableless document = true ->
   paragraph_count document = 0 ->
   exists r,
     extract_pdf cfg w file_buffer tt h = (Ok r, tt, [EvDocumentAI])
     /\ Result.method r = "document_ai"
     /\ Result.text_blocks r = []
     /\ Result.confidence r = 0.9%float
     /\ Result.raw_text r = DocAI.text document
     /\ Result.page_count r = List.length (DocAI.pages document))
  /\ (tableless document = false ->
      let local_pass :=
        try_except (pdf_local_pass cfg w file_buffer) (fun _ => ret tt)
          PdfLocals.init (h ++ [EvDocumentAI]) in
      extract_pdf cfg w file_buffer tt h
      = (Ok (PdfLocals.result (locals local_pass)), tt,
         EvDocumentAI :: calls local_pass)).
Proof.
  intros Hid Hdoc. split.
  - intros Hnotab Hzero.
    destruct (document_ai_blank file_buffer h document Hdoc Hnotab Hzero)
      as (r & Hrun & Hm & Hblocks & Hconf & Hraw & Hpc).
    exists r.
    refine (conj _ (conj Hm (conj Hblocks (conj Hconf (conj Hraw Hpc))))).
    unfold extract_pdf. rewrite Hid.
    unfold bind at 1. unfold try_except at 1. unfold bind at 1.
    rewrite Hrun. unfold ret at 1. rewrite Hconf.
    replace (float_ge 0.9%float 0.7%float) with true by (vm_compute; reflexivity).
    reflexivity.
  - intros Htab. cbv zeta.
    unfold extract_pdf. rewrite Hid.
    unfold bind at 1. unfold try_except at 1. unfold bind at 1.
    rewrite (document_ai_run w file_buffer h document Hdoc), Htab.
    unfold ret at 1. cbn [fst snd app].
    unfold bind, scoped, locals, calls.
    destruct (try_except (pdf_local_pass cfg w file_buffer) (fun _ => ret tt)
                PdfLocals.init (h ++ [EvDocumentAI])) as [[r2 s2] e2].
    unfold ret. cbn. rewrite app_nil_r. reflexivity.
Qed.
End DocAIFacts.

(** *** The DOCX extractor *)

Lemma count_vision_app e1 e2 :
  count_vision (e1 ++ e2) = count_vision e1 + count_vision e2.
Proof. unfold count_vision. rewrite filter_app, length_app. reflexivity. Qed.

Lemma prefix_app (a b : string) : prefix a (a ++ b) = true.
Proof.
  induction a as [|c a IH]; cbn; [destruct b; reflexivity|].
  destruct (ascii_dec c c); [exact IH | congruence].
Qed.

Section DocxFacts.
Variable cfg : Config.
Variable w : World.

(** Every run of the cascade asks Vision exactly once. *)
Lemma ocr_image_one_vision img h :
  count_vision (calls (ocr_image cfg w img tt h)) = 1.
Proof.
  pose proof (generative_fallback_cascade cfg w img (h ++ [EvVision]))
    as ([v Hv] & Hcalls & _).
  unfold ocr_image, try_except, bind, call.
  unfold outcome, calls in *.
  destruct (text_detection w h img) as [[|d rest]|msg]; cbn.
  - destruct (generative_fallback cfg w img tt (h ++ [EvVision])) as [[r []] e2].
    cbn [fst snd] in *. subst r. cbn [snd].
    from_events Hcalls; subst e2; reflexivity.
  - reflexivity.
  - destruct (generative_fallback cfg w img tt (h ++ [EvVision])) as [[r []] e2].
    cbn [fst snd] in *. subst r. cbn [snd].
    from_events Hcalls; subst e2; reflexivity.
Qed.

(** The step of one relationship: it never raises, sends a readable
    image to Vision once, and either leaves the locals or appends one
    image block and one image record. *)
Lemma docx_rel_step (rel : Docx.Rel) s h :
  let x := docx_rel cfg w rel s h in
  outcome x = Ok tt
  /\ count_vision (calls x) = (if readable_image rel then 1 else 0)
  /\ (locals x = s
      \/ (readable_image rel = true
          /\ exists t, 20 < String.length t
                       /\ locals x = DocxLocals.add_image (PartOcr t)
                                       (DocxLocals.add_block (docx_image_block t) s))).
Proof.
  cbv zeta. unfold docx_rel, readable_image.
  destruct (PyStr.contains "image" (Docx.target_ref rel)); cbn [when andb];
    [|refine (conj eq_refl (conj eq_refl (or_introl eq_refl)))].
  unfold try_except, bind, lift_exc.
  destruct (Docx.blob rel) as [data | msg]; cbn [fst snd];
    [|refine (conj eq_refl (conj eq_refl (or_introl eq_refl)))].
  unfold docx_image_ocr, bind, lift.
  pose proof (ocr_image_one_vision data (h ++ [])) as Hone.
  destruct (ocr_image_total cfg w data (h ++ [])) as (v & e & Hrun).
  rewrite Hrun in Hone |- *. unfold calls in Hone. cbn [fst snd] in Hone.
  destruct v as [t|].
  2:{ cbn. rewrite !app_nil_r. refine (conj eq_refl (conj Hone (or_introl eq_refl))). }
  destruct (PyStr.truthy t && (20 <? String.length t)%nat) eqn:Hlong; cbn [when].
  - cbn. rewrite !app_nil_r. refine (conj eq_refl (conj Hone _)). right.
    split; [reflexivity|]. exists t.
    apply andb_prop in Hlong as [_ Hlong]. apply Nat.ltb_lt in Hlong.
    split; [exact Hlong | reflexivity].
  - cbn. rewrite !app_nil_r. refine (conj eq_refl (conj Hone (or_introl eq_refl))).
Qed.

(** An image relationship whose bytes cannot be read is skipped. *)
Lemma docx_rel_unreadable (rel : Docx.Rel) msg s h :
  Docx.blob rel = Raise msg -> docx_rel cfg w rel s h = (Ok tt, s, []).
Proof.
  intros Hblob. unfold docx_rel.
  destruct (PyStr.contains "image" (Docx.target_ref rel)); cbn [when]; [|reflexivity].
  unfold try_except, bind, lift_exc. rewrite Hblob. reflexivity.
Qed.

(** The groups, when an image block and its record are appended. *)
Lemma docx_groups_image np nt texts t s :
  docx_groups np nt texts s -> 20 < String.length t ->
  docx_groups np nt (texts ++ [t])
    (DocxLocals.add_image (PartOcr t) (DocxLocals.add_block (docx_image_block t) s)).
Proof.
  intros (paras & tbls & Hb & Hp & Hnp & Ht & Hnt & Hlen & Htab & Hi & Hlong) Ht20.
  exists paras, tbls. cbn [DocxLocals.add_image DocxLocals.add_block
    DocxLocals.text_blocks DocxLocals.tables DocxLocals.images].
  rewrite Hb, Hi, !map_app. cbn [map]. rewrite <- !app_assoc.
  refine (conj eq_refl (conj Hp (conj Hnp (conj Ht (conj Hnt (conj Hlen (conj Htab (conj eq_refl _)))))))).
  apply Forall_app. split; [exact Hlong | constructor; [exact Ht20 | constructor]].
Qed.

(** The loop over relationships never raises, keeps the groups, and asks
    Vision once per readable image. *)
Lemma docx_rels_loop np nt (rels : list Docx.Rel) : forall texts s h,
  docx_groups np nt texts s ->
  exists texts' s' e,
    for_each rels (docx_rel cfg w) s h = (Ok tt, s', e)
    /\ docx_groups np nt texts' s'
    /\ count_vision e = List.length (filter readable_image rels)
    /\ List.length texts'
       <= List.length texts + List.length (filter readable_image rels).
Proof.
  induction rels as [|rel rels IH]; intros texts s h Hs.
  - cbn. exists texts, s, []. refine (conj eq_refl (conj Hs (conj eq_refl _))). lia.
  - cbn [for_each filter]. unfold bind at 1.
    destruct (docx_rel_step rel s h) as (Hout & Hcount & Hloc).
    cbv zeta in Hout, Hcount, Hloc.
    unfold outcome, locals, calls in Hout, Hcount, Hloc.
    destruct (docx_rel cfg w rel s h) as [[r1 s1] e1].
    cbn [fst snd] in Hout, Hcount, Hloc. subst r1.
    assert (Hs1 : exists texts1,
              docx_groups np nt texts1 s1
              /\ List.length texts1
                 <= List.length texts + (if readable_image rel then 1 else 0)).
    { destruct Hloc as [-> | (Hr & t & Ht & ->)].
      - exists texts. split; [exact Hs | lia].
      - exists (texts ++ [t]). split; [apply docx_groups_image; assumption|].
        rewrite Hr, length_app. cbn. lia. }
    destruct Hs1 as (texts1 & Hs1 & Hlen1).
    destruct (IH texts1 s1 (h ++ e1) Hs1) as (texts' & s' & e & -> & Hs' & Hc & Hlen).
    exists texts', s', (e1 ++ e).
    refine (conj eq_refl (conj Hs' _)).
    rewrite count_vision_app, Hcount, Hc.
    destruct (readable_image rel); cbn [List.length]; split; lia.
Qed.

(** More paragraphs allowed keeps the groups. *)
Lemma docx_groups_more np np' nt texts s :
  np <= np' -> docx_groups np nt texts s -> docx_groups np' nt texts s.
Proof.
  intros Hle (ps & tbls & Hbl & Hp & Hnp & Hrest).
  exists ps, tbls. refine (conj Hbl (conj Hp (conj _ Hrest))). lia.
Qed.

(** One paragraph: no call; a blank one is skipped, one whose style
    cannot be read raises, any other appends a paragraph block. *)
Lemma docx_paragraph_step (para : Docx.Paragraph) np s h :
  docx_groups np 0 [] s ->
  exists r s',
    docx_paragraph para s h = (r, s', [])
    /\ docx_groups (S np) 0 [] s'
    /\ (style_read_ok para -> r = Ok tt)
    /\ (forall msg, PyStr.truthy (PyStr.strip (Docx.text para)) = true ->
                    Docx.style_name para = Raise msg -> r = Raise msg).
Proof.
  intros Hs. unfold docx_paragraph, style_read_ok. cbv zeta.
  destruct (PyStr.truthy (PyStr.strip (Docx.text para))) eqn:Htext; cbn [when].
  - unfold bind, lift_exc.
    destruct (Docx.style_name para) as [style_name | msg]; cbn [fst snd].
    + unfold modify. cbn [app].
      set (b := {| Block.text := PyStr.strip (Docx.text para); Block.page := 1;
                   Block.confidence := 0.95%float;
                   Block.type := if prefix "Heading" style_name
                                 then "heading" else "paragraph" |}).
      assert (Hb : docx_text_block b).
      { unfold docx_text_block, b; cbn.
        destruct (prefix "Heading" style_name); auto. }
      eexists _, _. split; [reflexivity|]. split; [|split; [reflexivity | discriminate]].
      destruct Hs as (ps & tbls & Hbl & Hp & Hnp & Ht & Hnt & Hlen & Htb & Hi & Hlong).
      assert (tbls = []) by (destruct tbls; [reflexivity | cbn in Hnt; lia]). subst tbls.
      exists (ps ++ [b]), []. cbn [DocxLocals.add_block DocxLocals.text_blocks
        DocxLocals.tables DocxLocals.images map] in *.
      rewrite Hbl, !app_nil_r.
      refine (conj eq_refl (conj _ (conj _ (conj Ht (conj Hnt (conj Hlen (conj Htb (conj Hi Hlong)))))))).
      * apply Forall_app. split; [exact Hp | constructor; [exact Hb | constructor]].
      * rewrite length_app. cbn. lia.
    + eexists _, _. split; [reflexivity|].
      split; [apply (docx_groups_more np); [lia | exact Hs]|].
      split.
      * intros Hok. destruct (Hok eq_refl) as [x Hx]. discriminate Hx.
      * intros msg' _ Hm. injection Hm as ->. reflexivity.
  - eexists _, _. split; [reflexivity|].
    split; [apply (docx_groups_more np); [lia | exact Hs]|].
    split; [reflexivity | discriminate].
Qed.

(** The loop over paragraphs makes no call and appends paragraph blocks
    only; it returns when every style it asks for can be read. *)
Lemma docx_paragraphs_loop (paras : list Docx.Paragraph) : forall np s h,
  docx_groups np 0 [] s ->
  exists r s',
    for_each paras docx_paragraph s h = (r, s', [])
    /\ docx_groups (np + List.length paras) 0 [] s'
    /\ (Forall style_read_ok paras -> r = Ok tt).
Proof.
  induction paras as [|para paras IH]; intros np s h Hs.
  - cbn. exists (Ok tt), s. rewrite Nat.add_0_r. auto.
  - cbn [for_each]. unfold bind at 1.
    destruct (docx_paragraph_step para np s h Hs) as (r1 & s1 & -> & Hs1 & Hok & _).
    destruct r1 as [[] | msg].
    + destruct (IH (S np) s1 (h ++ []) Hs1) as (r & s' & -> & Hs' & Hall).
      exists r, s'. cbn [fst snd app]. split; [reflexivity|].
      split; [cbn [List.length]; rewrite Nat.add_succ_r; exact Hs'|].
      intros H. inversion H; subst. auto.
    + exists (Raise msg), s1. split; [reflexivity|].
      split; [apply (docx_groups_more (S np)); [cbn [List.length]; lia | exact Hs1]|].
      intros H. inversion H as [|? ? H1 H2]; subst. discriminate (Hok H1).
Qed.

(** The first paragraph whose style cannot be read ends the loop with
    its exception. *)
Lemma docx_paragraphs_raise (pre : list Docx.Paragraph) : forall para post msg s h,
  Forall style_read_ok pre ->
  PyStr.truthy (PyStr.strip (Docx.text para)) = true ->
  Docx.style_name para = Raise msg ->
  exists s', for_each (pre ++ para :: post) docx_paragraph s h = (Raise msg, s', []).
Proof.
  induction pre as [|p pre IH]; intros para post msg s h Hpre Htext Hstyle.
  - cbn [app for_each]. unfold bind at 1.
    unfold docx_paragraph. cbv zeta. rewrite Htext. cbn [when].
    unfold bind, lift_exc. rewrite Hstyle. eexists. reflexivity.
  - inversion Hpre as [|? ? Hp Hpre']; subst.
    cbn [app for_each]. unfold bind at 1.
    assert (Hstep : exists s1, docx_paragraph p s h = (Ok tt, s1, [])).
    { unfold docx_paragraph. cbv zeta. unfold style_read_ok in Hp.
      destruct (PyStr.truthy (PyStr.strip (Docx.text p))); cbn [when];
        [|eexists; reflexivity].
      destruct (Hp eq_refl) as [style_name Hs]. unfold bind, lift_exc. rewrite Hs.
      eexists. reflexivity. }
    destruct Hstep as [s1 ->].
    destruct (IH para post msg s1 (h ++ []) Hpre' Htext Hstyle) as [s' ->].
    exists s'. reflexivity.
Qed.

(** The loop over tables makes no call, appends one table record per
    table and table blocks only. *)
Lemma docx_tables_loop np (tables : list (list (list string))) : forall nt s h,
  docx_groups np nt [] s ->
  exists s',
    for_each tables (fun table =>
      modify (DocxLocals.add_table
                {| Table.rows := map (map PyStr.strip) table; Table.page := 1;
                   Table.confidence := 0.9%float |}) ;;
      when (PyStr.truthy (PyStr.strip (table_text (map (map PyStr.strip) table))))
        (modify (DocxLocals.add_block
                   {| Block.text := "[Table]" ++ PyStr.nl
                                    ++ table_text (map (map PyStr.strip) table);
                      Block.page := 1;
                      Block.confidence := 0.9%float; Block.type := "table" |}))) s h
      = (Ok tt, s', [])
    /\ docx_groups np (nt + List.length tables) [] s'.
Proof.
  induction tables as [|table tables IH]; intros nt s h Hs.
  - cbn. exists s. rewrite Nat.add_0_r. auto.
  - cbn [for_each]. unfold bind at 1. unfold bind at 1. unfold modify at 1.
    set (tb := {| Table.rows := map (map PyStr.strip) table; Table.page := 1;
                  Table.confidence := 0.9%float |}).
    set (b := {| Block.text := "[Table]" ++ PyStr.nl
                               ++ table_text (map (map PyStr.strip) table);
                 Block.page := 1; Block.confidence := 0.9%float;
                 Block.type := "table" |}).
    assert (Hb : docx_table_block b).
    { unfold docx_table_block, b.
      cbn [Block.type Block.confidence Block.page Block.text].
      refine (conj eq_refl (conj eq_refl (conj eq_refl _))).
      change ("[Table]" ++ PyStr.nl ++ table_text (map (map PyStr.strip) table))%string
        with (("[Table]" ++ PyStr.nl) ++ table_text (map (map PyStr.strip) table))%string.
      apply prefix_app. }
    destruct Hs as (ps & tbls & Hbl & Hp & Hnp & Ht & Hnt & Hlen & Htb & Hi & Hlong).
    cbn [map] in Hbl. rewrite app_nil_r in Hbl.
    assert (Hs1 : docx_groups np (S nt) [] (DocxLocals.add_table tb s)).
    { exists ps, tbls. cbn [DocxLocals.add_table DocxLocals.text_blocks
        DocxLocals.tables DocxLocals.images map].
      rewrite app_nil_r, length_app. cbn [List.length].
      refine (conj Hbl (conj Hp (conj Hnp (conj Ht (conj _ (conj _ (conj _ (conj Hi Hlong)))))))).
      - lia.
      - lia.
      - apply Forall_app. split; [exact Htb | constructor; [split; reflexivity | constructor]]. }
    assert (Hs2 : docx_groups np (S nt) []
                    (DocxLocals.add_block b (DocxLocals.add_table tb s))).
    { exists ps, (tbls ++ [b]). cbn [DocxLocals.add_table DocxLocals.add_block
        DocxLocals.text_blocks DocxLocals.tables DocxLocals.images map].
      rewrite Hbl, !app_nil_r, !length_app. cbn [List.length].
      refine (conj _ (conj Hp (conj Hnp (conj _ (conj _ (conj _ (conj _ (conj Hi Hlong)))))))).
      - rewrite app_assoc. reflexivity.
      - apply Forall_app. split; [exact Ht | constructor; [exact Hb | constructor]].
      - lia.
      - lia.
      - apply Forall_app. split; [exact Htb | constructor; [split; reflexivity | constructor]]. }
    cbn [fst snd].
    destruct (PyStr.truthy (PyStr.strip (table_text (map (map PyStr.strip) table))));
      cbn [when].
    + unfold modify at 1. cbn [fst snd].
      match goal with |- context [for_each tables _ ?st ?hh] =>
        destruct (IH (S nt) st hh Hs2) as (s' & -> & Hs') end.
      exists s'. split; [reflexivity|].
      cbn [List.length]. rewrite Nat.add_succ_r. exact Hs'.
    + unfold ret at 1. cbn [fst snd].
      match goal with |- context [for_each tables _ ?st ?hh] =>
        destruct (IH (S nt) st hh Hs1) as (s' & -> & Hs') end.
      exists s'. split; [reflexivity|].
      cbn [List.length]. rewrite Nat.add_succ_r. exact Hs'.
Qed.

Lemma docx_groups_init : docx_groups 0 0 [] DocxLocals.init.
Proof.
  exists [], []. cbn. repeat split; auto.
Qed.

(** [extract_docx] once the document opens: it raises after that one
    call, or returns the locals of its three loops. *)
Lemma extract_docx_cases file_buffer h doc :
  Document w file_buffer = Ok doc ->
  (exists msg, extract_docx cfg w file_buffer tt h = (Raise msg, tt, [EvDocument]))
  \/ (exists tables texts s e,
        Docx.tables doc = Ok tables
        /\ extract_docx cfg w file_buffer tt h =
            (Ok {| Result.method := "python_docx";
                   Result.confidence := 0.95%float;
                   Result.text_blocks := DocxLocals.text_blocks s;
                   Result.tables := DocxLocals.tables s;
                   Result.images := DocxLocals.images s;
                   Result.page_count := 1;
                   Result.raw_text := join_blocks (DocxLocals.text_blocks s) |}, tt,
             EvDocument :: e)
        /\ docx_groups (List.length (Docx.paragraphs doc)) (List.length tables) texts s
        /\ count_vision e = List.length (filter readable_image (Docx.rels doc))
        /\ List.length texts <= List.length (filter readable_image (Docx.rels doc))).
Proof.
  intros Hdoc.
  enough (Hrun : exists r e,
            extract_docx cfg w file_buffer tt h = (r, tt, EvDocument :: e)
            /\ ((exists msg, r = Raise msg /\ e = [])
                \/ (exists tables texts s,
                      Docx.tables doc = Ok tables
                      /\ r = Ok {| Result.method := "python_docx";
                                   Result.confidence := 0.95%float;
                                   Result.text_blocks := DocxLocals.text_blocks s;
                                   Result.tables := DocxLocals.tables s;
                                   Result.images := DocxLocals.images s;
                                   Result.page_count := 1;
                                   Result.raw_text :=
                                     join_blocks (DocxLocals.text_blocks s) |}
                      /\ docx_groups (List.length (Docx.paragraphs doc))
                           (List.length tables) texts s
                      /\ count_vision e
                         = List.length (filter readable_image (Docx.rels doc))
                      /\ List.length texts
                         <= List.length (filter readable_image (Docx.rels doc))))).
  { destruct Hrun as (r & e & -> & [(msg & -> & ->)
                                   | (tables & texts & s & Ht & -> & Hg & Hc & Hl)]).
    - left. exists msg. reflexivity.
    - right. exists tables, texts, s, e. auto. }
  unfold extract_docx, docx_body. unfold bind at 1. unfold scoped.
  unfold bind at 1. unfold call at 1. rewrite Hdoc. cbn [fst snd].
  unfold bind at 1.
  match goal with |- context [for_each (Docx.paragraphs doc) _ ?st ?hh] =>
    destruct (docx_paragraphs_loop (Docx.paragraphs doc) 0 st hh docx_groups_init)
      as (r1 & s1 & E1 & Hs1 & _)
  end.
  cbn [Nat.add] in Hs1. rewrite E1. cbn [fst snd].
  destruct r1 as [[] | msg];
    [|eexists _, _; split; [reflexivity | left; exists msg; split; reflexivity]].
  unfold bind at 1. unfold lift_exc at 1.
  destruct (Docx.tables doc) as [tables | msg]; cbn [fst snd];
    [|eexists _, _; split; [reflexivity | left; exists msg; split; reflexivity]].
  unfold bind at 1.
  match goal with |- context [for_each tables _ ?st ?hh] =>
    destruct (docx_tables_loop (List.length (Docx.paragraphs doc)) tables 0 st hh Hs1)
      as (s2 & E2 & Hs2)
  end.
  cbn [Nat.add] in Hs2. rewrite E2. cbn [fst snd].
  match goal with |- context [for_each (Docx.rels doc) _ ?st ?hh] =>
    destruct (docx_rels_loop (List.length (Docx.paragraphs doc)) (List.length tables)
                (Docx.rels doc) [] st hh Hs2)
      as (texts & s3 & e3 & E3 & Hs3 & Hcount & Hlen)
  end.
  rewrite E3. cbn [fst snd app]. unfold ret.
  exists (Ok {| Result.method := "python_docx";
                Result.confidence := 0.95%float;
                Result.text_blocks := DocxLocals.text_blocks s3;
                Result.tables := DocxLocals.tables s3;
                Result.images := DocxLocals.images s3;
                Result.page_count := 1;
                Result.raw_text := join_blocks (DocxLocals.text_blocks s3) |}), e3.
  split; [cbn; rewrite ?app_nil_r; reflexivity|].
  right. exists tables, texts, s3. auto.
Qed.

(** When the paragraphs are read and the tables cannot be, the exception
    of the tables leaves [extract_docx]. *)
Lemma extract_docx_tables_fail file_buffer h doc msg :
  Document w file_buffer = Ok doc ->
  Forall style_read_ok (Docx.paragraphs doc) ->
  Docx.tables doc = Raise msg ->
  extract_docx cfg w file_buffer tt h = (Raise msg, tt, [EvDocument]).
Proof.
  intros Hdoc Hstyles Htables.
  unfold extract_docx, docx_body. unfold bind at 1. unfold scoped.
  unfold bind at 1. unfold call at 1. rewrite Hdoc. cbn [fst snd].
  unfold bind at 1.
  match goal with |- context [for_each (Docx.paragraphs doc) _ ?st ?hh] =>
    destruct (docx_paragraphs_loop (Docx.paragraphs doc) 0 st hh docx_groups_init)
      as (r1 & s1 & E1 & _ & Hok)
  end.
  rewrite E1, (Hok Hstyles). cbn [fst snd].
  unfold bind at 1. unfold lift_exc at 1. rewrite Htables. cbn [fst snd app].
  unfold raise. reflexivity.
Qed.

(** When the style of a non-empty paragraph cannot be read, its
    exception leaves [extract_docx]. *)
Lemma extract_docx_style_fail file_buffer h doc pre para post msg :
  Document w file_buffer = Ok doc ->
  Docx.paragraphs doc = pre ++ para :: post ->
  Forall style_read_ok pre ->
  PyStr.truthy (PyStr.strip (Docx.text para)) = true ->
  Docx.style_name para = Raise msg ->
  extract_docx cfg w file_buffer tt h = (Raise msg, tt, [EvDocument]).
Proof.
  intros Hdoc Hparas Hpre Htext Hstyle.
  unfold extract_docx, docx_body. unfold bind at 1. unfold scoped.
  unfold bind at 1. unfold call at 1. rewrite Hdoc. cbn [fst snd].
  unfold bind at 1. rewrite Hparas.
  match goal with |- context [for_each (pre ++ para :: post) _ ?st ?hh] =>
    destruct (docx_paragraphs_raise pre para post msg st hh Hpre Htext Hstyle)
      as [s1 E1]
  end.
  rewrite E1. cbn [fst snd app]. unfold raise. reflexivity.
Qed.

(** X19. The blocks of a DOCX result come in three groups, whatever the
    order in the document: first the non-empty paragraphs (type
    [heading] or [paragraph], confidence 0.95), then the table texts
    (type [table], 0.9, starting with the table marker), then the image
    texts (type [image_ocr], 0.7), one per image record, each of more
    than 20 characters. There is one table record per table of the
    document, everything is on page 1, and [raw_text] joins the blocks. *)
Theorem docx_blocks_in_three_groups file_buffer h r e :
  extract_docx cfg w file_buffer tt h = (Ok r, tt, e) ->
  exists doc tables paras tbls texts,
    Document w file_buffer = Ok doc /\ Docx.tables doc = Ok tables
    /\ Result.text_blocks r = paras ++ tbls ++ map docx_image_block texts
    /\ Forall docx_text_block paras
    /\ List.length paras <= List.length (Docx.paragraphs doc)
    /\ Forall docx_table_block tbls
    /\ List.length tbls <= List.length tables
    /\ List.length (Result.tables r) = List.length tables
    /\ Forall docx_table (Result.tables r)
    /\ Result.images r = map PartOcr texts
    /\ Forall (fun t => 20 < String.length t) texts
    /\ Result.page_count r = 1
    /\ Result.method r = "python_docx"
    /\ Result.confidence r = 0.95%float
    /\ Result.raw_text r = join_blocks (Result.text_blocks r).
Proof.
  intros Hrun.
  destruct (Document w file_buffer) as [doc | msg] eqn:Hdoc;
    [|rewrite (extract_docx_open_fails cfg w file_buffer msg h Hdoc) in Hrun;
      discriminate Hrun].
  destruct (extract_docx_cases file_buffer h doc Hdoc)
    as [[msg Hrun'] | (tables & texts & s & e' & Htables & Hrun'
        & (paras & tbls & Hb & Hp & Hnp & Ht & Hnt & Hlen & Htab & Hi & Hlong) & _)];
    [rewrite Hrun' in Hrun; discriminate Hrun|].
  rewrite Hrun' in Hrun. injection Hrun as <- _.
  exists doc, tables, paras, tbls, texts.
  cbn [Result.text_blocks Result.tables Result.images Result.page_count
       Result.method Result.confidence Result.raw_text].
  refine (conj eq_refl (conj Htables (conj Hb (conj Hp (conj Hnp (conj Ht (conj Hnt
            (conj Hlen (conj Htab (conj Hi (conj Hlong _))))))))))).
  repeat split.
Qed.

(** X20. Whenever [extract_docx] returns, the document opened, opening
    it was the first call, and after it Vision was asked once per image
    relationship whose bytes can be read, and for nothing else; the
    result has at most that many image records. *)
Theorem docx_one_recognition_per_image file_buffer h r e :
  extract_docx cfg w file_buffer tt h = (Ok r, tt, e) ->
  exists doc e',
    Document w file_buffer = Ok doc
    /\ e = EvDocument :: e'
    /\ count_vision e' = List.length (filter readable_image (Docx.rels doc))
    /\ List.length (Result.images r)
       <= List.length (filter readable_image (Docx.rels doc)).
Proof.
  intros Hrun.
  destruct (Document w file_buffer) as [doc | msg] eqn:Hdoc;
    [|rewrite (extract_docx_open_fails cfg w file_buffer msg h Hdoc) in Hrun;
      discriminate Hrun].
  destruct (extract_docx_cases file_buffer h doc Hdoc)
    as [[msg Hrun'] | (tables & texts & s & e' & Htables & Hrun'
        & (paras & tbls & Hb & Hp & Hnp & Ht & Hnt & Hlen & Htab & Hi & Hlong)
        & Hcount & Hlen')];
    [rewrite Hrun' in Hrun; discriminate Hrun|].
  rewrite Hrun' in Hrun. injection Hrun as <- <-.
  exists doc, e'. refine (conj eq_refl (conj eq_refl (conj Hcount _))).
  cbn [Result.images]. rewrite Hi, length_map. exact Hlen'.
Qed.

(** X21. [extract_docx] re-raises what it cannot read outside the
    image loop, with the same message and after the one call that opens
    the document: the exception of [Document(...)], of the style of the
    first non-empty paragraph whose style cannot be read, and of
    [doc.tables] once the paragraphs are read. Inside the image loop the
    exception is swallowed: the step for a relationship whose bytes
    cannot be read returns, makes no call and leaves the lists as they
    were. *)
Theorem extract_docx_reraises_outside_image_loop file_buffer h msg :
  (Document w file_buffer = Raise msg ->
   extract_docx cfg w file_buffer tt h = (Raise msg, tt, [EvDocument]))
  /\ (forall doc pre para post,
        Document w file_buffer = Ok doc ->
        Docx.paragraphs doc = pre ++ para :: post ->
        Forall style_read_ok pre ->
        PyStr.truthy (PyStr.strip (Docx.text para)) = true ->
        Docx.style_name para = Raise msg ->
        extract_docx cfg w file_buffer tt h = (Raise msg, tt, [EvDocument]))
  /\ (forall doc,
        Document w file_buffer = Ok doc ->
        Forall style_read_ok (Docx.paragraphs doc) ->
        Docx.tables doc = Raise msg ->
        extract_docx cfg w file_buffer tt h = (Raise msg, tt, [EvDocument]))
  /\ (forall rel s h',
        PyStr.contains "image" (Docx.target_ref rel) = true ->
        Docx.blob rel = Raise msg ->
        docx_rel cfg w rel s h' = (Ok tt, s, [])).
Proof.
  refine (conj _ (conj _ (conj _ _))).
  - intros Hopen. apply extract_docx_open_fails, Hopen.
  - intros doc pre para post. apply extract_docx_style_fail.
  - intros doc. apply extract_docx_tables_fail.
  - intros rel s h' _. apply docx_rel_unreadable.
Qed.
End DocxFacts.

(** *** The PPTX extractor *)

(** Appending a number not below the others keeps a list sorted. *)
Lemma StronglySorted_le_snoc (l : list nat) x :
  StronglySorted le l -> (forall y, In y l -> y <= x) -> StronglySorted le (l ++ [x]).
Proof.
  induction l as [|a l IH]; intros Hs Hle; cbn.
  - repeat constructor.
  - inversion Hs as [|a' l' Hs' Ha]; subst. constructor.
    + apply IH; [exact Hs' | intros y Hy; apply Hle; now right].
    + apply Forall_app. split; [exact Ha|].
      constructor; [|constructor]. apply Hle. now left.
Qed.

Lemma slide_ocr_records_app l1 l2 :
  slide_ocr_records (l1 ++ l2) = slide_ocr_records l1 ++ slide_ocr_records l2.
Proof. unfold slide_ocr_records. apply flat_map_app. Qed.

(** The invariant holds for later slides. *)
Lemma pptx_inv_mono n m s : n <= m -> pptx_inv n s -> pptx_inv m s.
Proof.
  intros Hnm (Hb & Ht & Hi & Hs). refine (conj _ (conj _ (conj Hi Hs))).
  - eapply Forall_impl; [|exact Hb]. cbn. intros b [Hk Hp]. split; [exact Hk | lia].
  - eapply Forall_impl; [|exact Ht]. cbn. intros t [Hp Hc]. split; [lia | exact Hc].
Qed.

Lemma pptx_inv_sorted_snoc n s b :
  pptx_inv n s -> Block.page b = n ->
  StronglySorted le (map Block.page (PptxLocals.text_blocks s ++ [b])).
Proof.
  intros (Hb & _ & _ & Hs) Hp. rewrite map_app. cbn [map].
  apply StronglySorted_le_snoc; [exact Hs|].
  intros y Hy. apply in_map_iff in Hy as (b0 & <- & Hb0).
  rewrite Forall_forall in Hb. destruct (Hb b0 Hb0) as [_ Hle]. lia.
Qed.

(** The invariant, when a block, a table, or an image block with its
    record is appended for the current slide. *)
Lemma pptx_inv_add_block n s b :
  pptx_inv n s -> pptx_block b -> Block.page b = n -> 1 <= n ->
  (Block.type b =? "image_ocr") = false ->
  pptx_inv n (PptxLocals.add_block b s).
Proof.
  intros Hinv Hk Hp Hn Hty. pose proof (pptx_inv_sorted_snoc n s b Hinv Hp) as Hsort.
  destruct Hinv as (Hb & Ht & Hi & Hs).
  unfold pptx_inv, PptxLocals.add_block.
  cbn [PptxLocals.text_blocks PptxLocals.tables PptxLocals.images].
  refine (conj _ (conj Ht (conj _ Hsort))).
  - apply Forall_app. split; [exact Hb|]. constructor; [|constructor].
    split; [exact Hk | lia].
  - rewrite slide_ocr_records_app, <- Hi. cbn. rewrite Hty. cbn.
    rewrite app_nil_r. reflexivity.
Qed.

Lemma pptx_inv_add_table n s t :
  pptx_inv n s -> Table.page t = n -> Table.confidence t = 0.9%float -> 1 <= n ->
  pptx_inv n (PptxLocals.add_table t s).
Proof.
  intros (Hb & Ht & Hi & Hs) Hp Hc Hn. unfold pptx_inv, PptxLocals.add_table.
  cbn [PptxLocals.text_blocks PptxLocals.tables PptxLocals.images].
  refine (conj Hb (conj _ (conj Hi Hs))).
  apply Forall_app. split; [exact Ht|]. constructor; [|constructor].
  split; [lia | exact Hc].
Qed.

Lemma pptx_inv_add_ocr n s t :
  pptx_inv n s -> 20 < String.length t -> 1 <= n ->
  pptx_inv n
    (PptxLocals.add_image (SlideOcr n t)
       (PptxLocals.add_block
          {| Block.text := t; Block.page := n;
             Block.confidence := 0.7%float; Block.type := "image_ocr" |} s)).
Proof.
  intros Hinv Hlong Hn.
  pose proof (pptx_inv_sorted_snoc n s
                {| Block.text := t; Block.page := n;
                   Block.confidence := 0.7%float; Block.type := "image_ocr" |}
                Hinv eq_refl) as Hsort.
  destruct Hinv as (Hb & Ht & Hi & Hs).
  unfold pptx_inv, PptxLocals.add_image, PptxLocals.add_block.
  cbn [PptxLocals.text_blocks PptxLocals.tables PptxLocals.images].
  refine (conj _ (conj Ht (conj _ Hsort))).
  - apply Forall_app. split; [exact Hb|]. constructor; [|constructor].
    split; [|cbn; lia].
    right. right. left. cbn. auto.
  - rewrite slide_ocr_records_app, <- Hi. reflexivity.
Qed.

(** Two assignments in a row, as one step. *)
Lemma ensures_modify_modify {S} (P Q : S -> Prop) (f g : S -> S) :
  (forall s, P s -> Q (g (f s))) -> ensures P (modify f ;; modify g) Q.
Proof. intros H s h Hs. cbn. apply H, Hs. Qed.

Section PptxFacts.
Variable cfg : Config.
Variable w : World.

(** The invariant through a picture, a shape, a slide, and the loop over
    slides. *)
Lemma pptx_image_ocr_inv n image_bytes :
  1 <= n -> ensures (pptx_inv n) (pptx_image_ocr cfg w n image_bytes) (pptx_inv n).
Proof.
  intros Hn. unfold pptx_image_ocr.
  apply ensures_bind with (Q := pptx_inv n); [apply ensures_lift | auto |].
  intros [t|]; [|apply ensures_ret].
  apply ensures_when; [|auto]. intros Hlong.
  apply andb_prop in Hlong as [_ Hlong]. apply Nat.ltb_lt in Hlong.
  apply ensures_modify_modify. intros s Hs. apply pptx_inv_add_ocr; assumption.
Qed.

Lemma pptx_shape_inv n shape :
  1 <= n -> ensures (pptx_inv n) (pptx_shape cfg w n shape) (pptx_inv n).
Proof.
  intros Hn. unfold pptx_shape.
  apply ensures_bind with (Q := pptx_inv n); [|auto|].
  { destruct (Pptx.text_frame shape) as [paragraphs|]; [|apply ensures_ret].
    apply ensures_for_each. intros paragraph _. cbv zeta.
    apply ensures_when; [|auto]. intros Htext.
    apply ensures_bind with (Q := pptx_inv n); [|auto|].
    - apply ensures_modify. intros s Hs. exact Hs.
    - intros _. apply ensures_modify. intros s Hs.
      apply pptx_inv_add_block; auto.
      left. cbn. auto. }
  intros _. apply ensures_bind with (Q := pptx_inv n); [|auto|].
  { destruct (Pptx.table shape) as [rows|]; [|apply ensures_ret]. cbv zeta.
    apply ensures_bind with (Q := pptx_inv n); [|auto|].
    - apply ensures_modify. intros s Hs. apply pptx_inv_add_table; auto.
    - intros _. apply ensures_when; [|auto]. intros _.
      apply ensures_modify. intros s Hs.
      apply pptx_inv_add_block; auto.
      right. left. cbn. auto. }
  intros _. apply ensures_bind with (Q := pptx_inv n); [apply ensures_lift_exc | auto |].
  intros picture. apply ensures_get. intros s0.
  apply ensures_weaken with (P' := pptx_inv n) (Q' := pptx_inv n); [|tauto|auto].
  destruct picture as [blob|]; [|apply ensures_ret].
  apply ensures_when; [|auto]. intros _.
  apply ensures_try with (Q := pptx_inv n); [|auto|intros; apply ensures_ret].
  apply ensures_bind with (Q := pptx_inv n); [apply ensures_lift_exc | auto |].
  intros image_bytes. apply pptx_image_ocr_inv. exact Hn.
Qed.

Lemma pptx_slide_inv n slide :
  1 <= n -> ensures (pptx_inv n) (pptx_slide cfg w n slide) (pptx_inv n).
Proof.
  intros Hn. unfold pptx_slide.
  apply ensures_bind with (Q := pptx_inv n); [|auto|].
  { apply ensures_modify. intros s Hs. exact Hs. }
  intros _. apply ensures_bind with (Q := pptx_inv n); [apply ensures_lift_exc | auto |].
  intros shapes. apply ensures_bind with (Q := pptx_inv n); [|auto|].
  { apply ensures_for_each. intros shape _. apply pptx_shape_inv. exact Hn. }
  intros _. destruct (Pptx.notes slide) as [notes|]; [|apply ensures_ret]. cbv zeta.
  apply ensures_when; [|auto]. intros _.
  apply ensures_modify. intros s Hs.
  apply pptx_inv_add_block; auto.
  right. right. right. cbn. auto.
Qed.

Lemma pptx_slides_inv slides :
  ensures (pptx_inv 0) (for_enumerate 1 slides (pptx_slide cfg w))
          (pptx_inv (List.length slides)).
Proof.
  assert (Hbody : forall n slide, n < 1 + List.length slides ->
            ensures (fun s => 1 <= n /\ pptx_inv (Nat.pred n) s)
                    (pptx_slide cfg w n slide)
                    (fun s => 1 <= S n /\ pptx_inv (Nat.pred (S n)) s)).
  { intros n slide _ s h [Hn Hs]. split; [lia|]. cbn [Nat.pred].
    apply pptx_slide_inv; [exact Hn|].
    apply pptx_inv_mono with (n := Nat.pred n); [lia | exact Hs]. }
  pose proof (ensures_for_enumerate_upto
                (fun n s => 1 <= n /\ pptx_inv (Nat.pred n) s)
                slides (pptx_slide cfg w) (1 + List.length slides) Hbody 1
                (le_n _)) as Hloop.
  intros s h Hs.
  destruct (Hloop s h (conj (le_n 1) Hs)) as (n & Hn & _ & Hinv).
  apply pptx_inv_mono with (n := Nat.pred n); [lia | exact Hinv].
Qed.

Lemma pptx_inv_init : pptx_inv 0 PptxLocals.init.
Proof. unfold pptx_inv. cbn. repeat constructor. Qed.

(** X22. When [extract_pptx] returns: [page_count] is the number of
    slides; every block and table carries a slide number between 1 and
    [page_count]; the blocks are in slide order; each block is of one of
    the four kinds with its confidence (text 0.95 and non-empty, table
    0.9, image_ocr 0.7 and more than 20 characters, speaker_notes 0.95);
    the image records are exactly, and in order, the slide and text of
    the [image_ocr] blocks; [raw_text] joins the blocks. *)
Theorem pptx_blocks_follow_slides file_buffer h r e :
  extract_pptx cfg w file_buffer tt h = (Ok r, tt, e) ->
  exists slides,
    Presentation w file_buffer = Ok slides
    /\ Result.page_count r = List.length slides
    /\ Forall (fun b => pptx_block b /\ 1 <= Block.page b <= Result.page_count r)
         (Result.text_blocks r)
    /\ Forall (fun t => 1 <= Table.page t <= Result.page_count r
                        /\ Table.confidence t = 0.9%float)
         (Result.tables r)
    /\ Result.images r = slide_ocr_records (Result.text_blocks r)
    /\ StronglySorted le (map Block.page (Result.text_blocks r))
    /\ Result.method r = "python_pptx"
    /\ Result.confidence r = 0.95%float
    /\ Result.raw_text r = join_blocks (Result.text_blocks r).
Proof.
  intros Hrun. unfold extract_pptx in Hrun. unfold bind at 1 in Hrun.
  unfold scoped in Hrun. unfold bind at 1 in Hrun. unfold call at 1 in Hrun.
  destruct (Presentation w file_buffer) as [slides | msg];
    [|cbn in Hrun; discriminate Hrun].
  exists slides. split; [reflexivity|].
  unfold bind at 1 in Hrun.
  pose proof (pptx_slides_inv slides PptxLocals.init (h ++ [EvPresentation])
                pptx_inv_init) as Hinv.
  unfold locals in Hinv.
  destruct (for_enumerate 1 slides (pptx_slide cfg w) PptxLocals.init
              (h ++ [EvPresentation])) as [[[u | msg] s1] e1];
    cbn [fst snd] in Hrun, Hinv; [|cbn in Hrun; discriminate Hrun].
  cbn in Hrun. injection Hrun as <- _.
  cbn [Result.text_blocks Result.tables Result.images Result.page_count
       Result.method Result.confidence Result.raw_text].
  destruct Hinv as (Hb & Ht & Hi & Hs).
  refine (conj eq_refl (conj Hb (conj Ht (conj Hi (conj Hs _))))). repeat split.
Qed.
End PptxFacts.

(** *** When the PPTX extractor returns *)

(** Two assignments in a row. *)
Lemma modify_modify_run {S} (f g : S -> S) s h :
  (modify f ;; modify g) s h = (Ok tt, g (f s), []).
Proof. reflexivity. Qed.

Section PptxTotal.
Variable cfg : Config.
Variable w : World.

(** The paragraphs of a text frame: no call, the non-empty ones added to
    [slide_texts], no image record. *)
Lemma pptx_text_frame_loop n (paragraphs : list string) : forall s h,
  exists s',
    for_each paragraphs (fun paragraph =>
      when (PyStr.truthy (PyStr.strip paragraph))
        (modify (PptxLocals.add_slide_text (PyStr.strip paragraph)) ;;
         modify (PptxLocals.add_block
                   {| Block.text := PyStr.strip paragraph; Block.page := n;
                      Block.confidence := 0.95%float; Block.type := "text" |}))) s h
      = (Ok tt, s', [])
    /\ PptxLocals.slide_texts s'
       = PptxLocals.slide_texts s ++ filter PyStr.truthy (map PyStr.strip paragraphs)
    /\ PptxLocals.images s' = PptxLocals.images s.
Proof.
  induction paragraphs as [|p paragraphs IH]; intros s h.
  - exists s. cbn. rewrite app_nil_r. auto.
  - cbn [for_each map filter]. unfold bind at 1.
    destruct (PyStr.truthy (PyStr.strip p)) eqn:Hp; cbn [when].
    + rewrite modify_modify_run.
      match goal with |- context [for_each paragraphs _ ?st ?hh] =>
        destruct (IH st hh) as (s' & -> & Htexts & Himages) end.
      exists s'. split; [reflexivity|].
      cbn [PptxLocals.add_block PptxLocals.add_slide_text PptxLocals.slide_texts
           PptxLocals.images] in Htexts, Himages.
      rewrite Htexts, Himages, <- app_assoc. auto.
    + unfold ret at 1.
      match goal with |- context [for_each paragraphs _ ?st ?hh] =>
        destruct (IH st hh) as (s' & -> & Htexts & Himages) end.
      exists s'. auto.
Qed.

(** A shape, up to its picture: the text frame and the table make no
    call, add the shape's texts to [slide_texts] and no image record;
    then the picture test is made, and its exception leaves the shape;
    a picture is read and recognised, inside a [try], on a slide with
    less than 50 characters so far. *)
Lemma pptx_shape_run n shape s h :
  exists s2,
    PptxLocals.slide_texts s2 = PptxLocals.slide_texts s ++ shape_texts shape
    /\ PptxLocals.images s2 = PptxLocals.images s
    /\ pptx_shape cfg w n shape s h
       = match Pptx.image shape with
         | Raise msg => (Raise msg, s2, [])
         | Ok None => (Ok tt, s2, [])
         | Ok (Some blob) =>
             if (String.length (PyStr.join " " (PptxLocals.slide_texts s2)) <? 50)%nat
             then try_except
                    (image_bytes <- lift_exc blob ;;
                     pptx_image_ocr cfg w n image_bytes)
                    (fun _ => ret tt) s2 h
             else (Ok tt, s2, [])
         end.
Proof.
  unfold pptx_shape, shape_texts. cbv zeta.
  unfold bind at 1.
  assert (Hframe : exists s1,
    match Pptx.text_frame shape with
    | Some paragraphs =>
        for_each paragraphs (fun paragraph =>
          when (PyStr.truthy (PyStr.strip paragraph))
            (modify (PptxLocals.add_slide_text (PyStr.strip paragraph)) ;;
             modify (PptxLocals.add_block
                       {| Block.text := PyStr.strip paragraph; Block.page := n;
                          Block.confidence := 0.95%float; Block.type := "text" |})))
    | None => ret tt
    end s h = (Ok tt, s1, [])
    /\ PptxLocals.slide_texts s1
       = PptxLocals.slide_texts s
         ++ match Pptx.text_frame shape with
            | Some paragraphs => filter PyStr.truthy (map PyStr.strip paragraphs)
            | None => []
            end
    /\ PptxLocals.images s1 = PptxLocals.images s).
  { destruct (Pptx.text_frame shape) as [paragraphs|].
    - apply (pptx_text_frame_loop n paragraphs s h).
    - exists s. rewrite app_nil_r. auto. }
  destruct Hframe as (s1 & -> & Htexts & Himages). cbn [fst snd].
  rewrite <- Htexts, <- Himages. clear Htexts Himages.
  unfold bind at 1.
  assert (Htable : exists s2,
    match Pptx.table shape with
    | Some rows =>
        modify (PptxLocals.add_table
                  {| Table.rows := map (map pptx_cell_text) rows; Table.page := n;
                     Table.confidence := 0.9%float |}) ;;
        when (PyStr.truthy (PyStr.strip (table_text (map (map pptx_cell_text) rows))))
          (modify (PptxLocals.add_block
                     {| Block.text := "[Table]" ++ PyStr.nl
                                      ++ table_text (map (map pptx_cell_text) rows);
                        Block.page := n;
                        Block.confidence := 0.9%float; Block.type := "table" |}))
    | None => ret tt
    end s1 (h ++ []) = (Ok tt, s2, [])
    /\ PptxLocals.slide_texts s2 = PptxLocals.slide_texts s1
    /\ PptxLocals.images s2 = PptxLocals.images s1).
  { destruct (Pptx.table shape) as [rows|]; [|exists s1; auto].
    cbv zeta. unfold bind, modify.
    destruct (PyStr.truthy (PyStr.strip (table_text (map (map pptx_cell_text) rows))));
      cbn; eexists; split; reflexivity || (split; reflexivity). }
  destruct Htable as (s2 & -> & Htexts & Himages). cbn [fst snd].
  exists s2. rewrite !app_nil_r. refine (conj Htexts (conj Himages _)).
  unfold bind at 1. unfold lift_exc at 1.
  destruct (Pptx.image shape) as [[blob|] | msg]; cbn [fst snd]; [| reflexivity..].
  unfold bind at 1. unfold get at 1. cbn [fst snd]. rewrite !app_nil_r.
  destruct (String.length (PyStr.join " " (PptxLocals.slide_texts s2)) <? 50)%nat;
    cbn [when]; [|reflexivity].
  destruct (try_except (image_bytes <- lift_exc blob;; pptx_image_ocr cfg w n image_bytes)
              (fun _ => ret tt) s2 h) as [[r3 s3] e3].
  reflexivity.
Qed.

(** Reading and recognising a picture inside the [try] never raises. *)
Lemma pptx_picture_swallows n (blob : exc bytes) s h :
  outcome (try_except (image_bytes <- lift_exc blob ;; pptx_image_ocr cfg w n image_bytes)
             (fun _ => ret tt) s h) = Ok tt.
Proof.
  destruct (never_raises_try
              (image_bytes <- lift_exc blob ;; pptx_image_ocr cfg w n image_bytes)
              (fun _ => ret tt) (fun msg => never_raises_ret tt) s h) as [[] H].
  exact H.
Qed.

(** A shape returns, unless its picture test raises. *)
Lemma pptx_shape_outcome n shape s h :
  outcome (pptx_shape cfg w n shape s h)
  = match Pptx.image shape with Ok _ => Ok tt | Raise msg => Raise msg end.
Proof.
  destruct (pptx_shape_run n shape s h) as (s2 & _ & _ & ->).
  destruct (Pptx.image shape) as [[blob|] | msg]; [|reflexivity..].
  destruct (String.length (PyStr.join " " (PptxLocals.slide_texts s2)) <? 50)%nat;
    [apply pptx_picture_swallows | reflexivity].
Qed.

(** A loop over shapes that returns has made every picture test. *)
Lemma pptx_shapes_return n shapes : forall s h u,
  outcome (for_each shapes (pptx_shape cfg w n) s h) = Ok u ->
  Forall (fun shape => exists picture, Pptx.image shape = Ok picture) shapes.
Proof.
  induction shapes as [|shape shapes IH]; intros s h u Hrun; [constructor|].
  cbn [for_each] in Hrun. unfold bind at 1 in Hrun.
  pose proof (pptx_shape_outcome n shape s h) as Hout. unfold outcome in Hout, Hrun.
  destruct (pptx_shape cfg w n shape s h) as [[r1 s1] e1]. cbn [fst snd] in Hout, Hrun.
  subst r1.
  destruct (Pptx.image shape) as [picture | msg] eqn:Himage; [|discriminate Hrun].
  constructor; [exists picture; exact Himage|].
  destruct (for_each shapes (pptx_shape cfg w n) s1 (h ++ e1)) as [[r2 s2] e2] eqn:E.
  cbn [fst snd] in Hrun. apply (IH s1 (h ++ e1) u). rewrite E. exact Hrun.
Qed.

(** A slide that returns is readable. *)
Lemma pptx_slide_return n slide s h u :
  outcome (pptx_slide cfg w n slide s h) = Ok u -> readable slide.
Proof.
  unfold pptx_slide. intros Hrun.
  unfold bind at 1 in Hrun. unfold modify at 1 in Hrun. cbn [fst snd] in Hrun.
  unfold bind at 1 in Hrun. unfold lift_exc at 1 in Hrun.
  destruct (Pptx.shapes slide) as [shapes | msg] eqn:Hshapes; [|discriminate Hrun].
  exists shapes. split; [exact Hshapes|]. cbn [fst snd] in Hrun.
  unfold bind at 1 in Hrun.
  match type of Hrun with context [for_each shapes _ ?st ?hh] =>
    pose proof (pptx_shapes_return n shapes st hh) as Hloop;
    destruct (for_each shapes (pptx_shape cfg w n) st hh) as [[[[] | msg] s1] e1] eqn:E
  end.
  - apply (Hloop tt). reflexivity.
  - discriminate Hrun.
Qed.

(** A slide whose shapes cannot be read raises. *)
Lemma pptx_slide_unreadable n slide msg s h :
  Pptx.shapes slide = Raise msg ->
  outcome (pptx_slide cfg w n slide s h) = Raise msg.
Proof.
  intros Hshapes. unfold pptx_slide, bind, modify, lift_exc. rewrite Hshapes. reflexivity.
Qed.

(** A loop over slides that returns has found every slide readable. *)
Lemma pptx_slides_return slides : forall start s h u,
  outcome (for_enumerate start slides (pptx_slide cfg w) s h) = Ok u ->
  Forall readable slides.
Proof.
  induction slides as [|slide slides IH]; intros start s h u Hrun; [constructor|].
  cbn [for_enumerate] in Hrun. unfold bind at 1 in Hrun.
  pose proof (pptx_slide_return start slide s h) as Hslide. unfold outcome in Hslide, Hrun.
  destruct (pptx_slide cfg w start slide s h) as [[[[] | msg] s1] e1];
    cbn [fst snd] in Hslide, Hrun; [|discriminate Hrun].
  constructor; [apply (Hslide tt); reflexivity|].
  destruct (for_enumerate (S start) slides (pptx_slide cfg w) s1 (h ++ e1))
    as [[r2 s2] e2] eqn:E.
  cbn [fst snd] in Hrun. apply (IH (S start) s1 (h ++ e1) u). rewrite E. exact Hrun.
Qed.

(** X23. [extract_pptx] returns only if the presentation opens, the
    shapes of every slide can be read and the picture test of every
    shape can be made: that test ([hasattr] at line 450) stands outside
    the [try], so its exception, as for a linked picture, leaves the
    shape, and a slide whose shapes cannot be read raises as well. The
    exception of [Presentation(...)] is re-raised after that one call.
    Inside the [try] the exception is swallowed: a shape whose picture
    bytes cannot be read returns without any call. *)
Theorem extract_pptx_returns_only_if_readable file_buffer h :
  (forall r e,
     extract_pptx cfg w file_buffer tt h = (Ok r, tt, e) ->
     exists slides, Presentation w file_buffer = Ok slides /\ Forall readable slides)
  /\ (forall msg,
        Presentation w file_buffer = Raise msg ->
        extract_pptx cfg w file_buffer tt h = (Raise msg, tt, [EvPresentation]))
  /\ (forall n slide msg s h',
        Pptx.shapes slide = Raise msg ->
        outcome (pptx_slide cfg w n slide s h') = Raise msg)
  /\ (forall n shape msg s h',
        Pptx.image shape = Raise msg ->
        outcome (pptx_shape cfg w n shape s h') = Raise msg
        /\ calls (pptx_shape cfg w n shape s h') = [])
  /\ (forall n shape msg s h',
        Pptx.image shape = Ok (Some (Raise msg)) ->
        outcome (pptx_shape cfg w n shape s h') = Ok tt
        /\ calls (pptx_shape cfg w n shape s h') = []).
Proof.
  refine (conj _ (conj _ (conj _ (conj _ _)))).
  - intros r e Hrun. unfold extract_pptx in Hrun. unfold bind at 1 in Hrun.
    unfold scoped in Hrun. unfold bind at 1 in Hrun. unfold call at 1 in Hrun.
    destruct (Presentation w file_buffer) as [slides | msg];
      [|cbn in Hrun; discriminate Hrun].
    exists slides. split; [reflexivity|].
    unfold bind at 1 in Hrun. cbn [fst snd] in Hrun.
    pose proof (pptx_slides_return slides 1 PptxLocals.init (h ++ [EvPresentation]))
      as Hloop. unfold outcome in Hloop.
    destruct (for_enumerate 1 slides (pptx_slide cfg w) PptxLocals.init
                (h ++ [EvPresentation])) as [[[[] | msg] s1] e1];
      cbn [fst snd] in Hrun, Hloop; [|cbn in Hrun; discriminate Hrun].
    apply (Hloop tt). reflexivity.
  - intros msg Hopen. apply extract_pptx_open_fails, Hopen.
  - intros n slide msg s h'. apply pptx_slide_unreadable.
  - intros n shape msg s h' Himage.
    destruct (pptx_shape_run n shape s h') as (s2 & _ & _ & ->).
    rewrite Himage. split; reflexivity.
  - intros n shape msg s h' Himage.
    destruct (pptx_shape_run n shape s h') as (s2 & _ & _ & ->).
    rewrite Himage.
    destruct (String.length (PyStr.join " " (PptxLocals.slide_texts s2)) <? 50)%nat;
      [|split; reflexivity].
    unfold try_except, bind, lift_exc. cbn. split; reflexivity.
Qed.

(** *** The cost gate of slide pictures *)

(** X24. The cost gate of slide pictures: when the paragraphs collected
    on the slide so far, together with those of the shape itself, join
    to 50 characters or more, the shape's picture is not sent to
    recognition. The shape is processed without any call and adds no
    image record; it returns, unless the picture test itself raises,
    which the gate does not prevent: the test is made first. *)
Theorem wordy_slide_pictures_are_skipped n shape s h :
  50 <= String.length
          (PyStr.join " " (PptxLocals.slide_texts s ++ shape_texts shape)) ->
  let x := pptx_shape cfg w n shape s h in
  outcome x = match Pptx.image shape with
              | Ok _ => Ok tt
              | Raise msg => Raise msg
              end
  /\ calls x = []
  /\ PptxLocals.images (locals x) = PptxLocals.images s
  /\ PptxLocals.slide_texts (locals x)
     = PptxLocals.slide_texts s ++ shape_texts shape.
Proof.
  intros Hwordy. cbv zeta.
  destruct (pptx_shape_run n shape s h) as (s2 & Htexts & Himages & ->).
  rewrite <- Htexts in Hwordy.
  replace (String.length (PyStr.join " " (PptxLocals.slide_texts s2)) <? 50)%nat
    with false by (symmetry; apply Nat.ltb_ge; exact Hwordy).
  destruct (Pptx.image shape) as [[blob|] | msg]; cbn; auto.
Qed.
End PptxTotal.

(** *** The scale of thumbnails and the text of recognitions *)

(** Strictly below is below. *)
Lemma float_ltb_leb x y : PrimFloat.ltb x y = true -> PrimFloat.leb x y = true.
Proof.
  rewrite ltb_spec, leb_spec. unfold SFltb, SFleb.
  destruct (SFcompare (Prim2SF x) (Prim2SF y)) as [[]|]; congruence.
Qed.

(** [min(2.0, max(0.25, x))] lies between 0.25 and 2, also for a NaN. *)
Lemma clamp_bounds x :
  let scale := py_min 2%float (py_max 0.25%float x) in
  PrimFloat.leb 0.25%float scale = true /\ PrimFloat.leb scale 2%float = true.
Proof.
  cbv zeta. unfold py_max.
  destruct (PrimFloat.ltb 0.25%float x) eqn:Hlow.
  - unfold py_min. destruct (PrimFloat.ltb x 2%float) eqn:Hhigh.
    + split; apply float_ltb_leb; assumption.
    + split; reflexivity.
  - split; reflexivity.
Qed.

(** Changing the sign of a rounded number is rounding its opposite. *)
Lemma SFopp_binary_round m e :
  SFopp (binary_round prec emax false m e) = binary_round prec emax true m e.
Proof.
  unfold binary_round, binary_round_aux.
  destruct (shl_align m e _) as [mz ez].
  destruct (shr_fexp prec emax (Z.pos mz) ez loc_Exact) as [mrs' e'].
  destruct (shr_fexp prec emax _ e' loc_Exact) as [mrs'' e''].
  destruct (shr_m mrs'') as [|p|p]; [reflexivity| |reflexivity].
  destruct (e'' <=? emax - prec)%Z; reflexivity.
Qed.

(** Below 2^63 in absolute value, [float_of_Z] is the conversion of the
    interpreter. *)
Lemma float_of_Z_nearest z :
  (Z.abs z < 2 ^ 63)%Z -> float_of_Z z = nearest_float z.
Proof.
  intros Hz. unfold float_of_Z, nearest_float.
  destruct (z <? 0)%Z eqn:Hneg.
  - apply Z.ltb_lt in Hneg.
    rewrite <- (SF2Prim_Prim2SF (- _)%float). rewrite opp_spec.
    rewrite of_uint63_spec, Uint63.of_Z_spec.
    assert (Hz' : (0 <= - z < 2 ^ 63)%Z) by lia.
    rewrite Z.mod_small by exact Hz'.
    destruct z as [|p|p]; try lia. cbn [Z.opp binary_normalize].
    rewrite SFopp_binary_round. reflexivity.
  - apply Z.ltb_ge in Hneg.
    rewrite <- (SF2Prim_Prim2SF (PrimFloat.of_uint63 (Uint63.of_Z z))).
    rewrite of_uint63_spec, Uint63.of_Z_spec.
    assert (Hz' : (0 <= z < 2 ^ 63)%Z) by lia.
    rewrite Z.mod_small by exact Hz'. reflexivity.
Qed.

Section Render.
Variable cfg : Config.
Variable w : World.

(** X14. Rendering a thumbnail never raises and renders the page exactly
    once. The scale is 1.0 for a page whose width is not positive, and
    otherwise the configured width, converted to the nearest float,
    divided by the page width and clamped: 0.25 if the quotient is not
    above it (or is not a number), 2.0 if it is not below it. In every
    case the scale lies between 0.25 and 2. The result is the data URL
    of the JPEG rendered at that scale, or [None] when rendering fails.
    The configured width is taken below 2^63 in absolute value. *)
Theorem thumbnail_render_is_clamped page h :
  (Z.abs (THUMBNAIL_MAX_WIDTH cfg) < 2 ^ 63)%Z ->
  let page_width := Pdf.rect_width page in
  let quotient := (nearest_float (THUMBNAIL_MAX_WIDTH cfg) / page_width)%float in
  let scale :=
    if PrimFloat.leb page_width 0%float then 1%float
    else if PrimFloat.ltb 0.25%float quotient
         then if PrimFloat.ltb quotient 2%float then quotient else 2%float
         else 0.25%float in
  PrimFloat.leb 0.25%float scale = true
  /\ PrimFloat.leb scale 2%float = true
  /\ _render_page_thumbnail_data_url cfg page tt h
     = (Ok match Pdf.render_jpeg page scale with
           | Ok b64 => Some ("data:image/jpeg;base64," ++ b64)%string
           | Raise _ => None
           end, tt, [EvThumbnail]).
Proof.
  intros Hwidth. cbv zeta. unfold _render_page_thumbnail_data_url. cbv zeta.
  rewrite (float_of_Z_nearest _ Hwidth).
  set (quotient := (nearest_float (THUMBNAIL_MAX_WIDTH cfg) / Pdf.rect_width page)%float).
  assert (Hclamp : py_min 2%float (py_max 0.25%float quotient)
                   = if PrimFloat.ltb 0.25%float quotient
                     then if PrimFloat.ltb quotient 2%float then quotient else 2%float
                     else 0.25%float).
  { unfold py_min, py_max.
    destruct (PrimFloat.ltb 0.25%float quotient); reflexivity. }
  rewrite <- Hclamp.
  refine (conj _ (conj _ _)).
  - destruct (PrimFloat.leb (Pdf.rect_width page) 0%float);
      [reflexivity | apply clamp_bounds].
  - destruct (PrimFloat.leb (Pdf.rect_width page) 0%float);
      [reflexivity | apply clamp_bounds].
  - unfold try_except, bind, call, ret.
    match goal with
    | |- context [Pdf.render_jpeg page ?sc] => destruct (Pdf.render_jpeg page sc)
    end; reflexivity.
Qed.

(** X25. Whatever tier produced it, a text returned by [ocr_image] has
    no white space at either end. When Vision returns annotations, the
    result is the first description stripped, after that single call,
    even if nothing is left of it. *)
Theorem recognised_text_is_stripped img h :
  (forall t, outcome (ocr_image cfg w img tt h) = Ok (Some t) -> PyStr.strip t = t)
  /\ (forall d rest, text_detection w h img = Ok (d :: rest) ->
        ocr_image cfg w img tt h = (Ok (Some (PyStr.strip d)), tt, [EvVision])).
Proof.
  assert (Hvertex : forall h0 t,
            outcome (ocr_with_vertex_gemini w img tt h0) = Ok (Some t) ->
            PyStr.strip t = t).
  { intros h0 t. unfold ocr_with_vertex_gemini, bind, call, raise, lift_exc, ret, outcome.
    destruct (google_token w h0) as [token|msg]; cbn; [|discriminate].
    destruct (PyStr.truthy token); cbn; [|discriminate].
    destruct (vertex_post w (h0 ++ [EvGoogleAuth]) img) as [resp|msg]; cbn; [|discriminate].
    destruct (vertex_status resp =? 200)%nat; cbn; [|discriminate].
    destruct (vertex_parts resp) as [parts|msg]; cbn; [|discriminate].
    destruct (PyStr.truthy (PyStr.strip (PyStr.join "" parts))); [|discriminate].
    intros H. injection H as <-. apply strip_idempotent. }
  assert (Hopenai : forall h0 t,
            outcome (ocr_with_openai w img tt h0) = Ok (Some t) -> PyStr.strip t = t).
  { intros h0 t. unfold ocr_with_openai, bind, call, lift_exc, ret, outcome.
    destruct (openai_post w h0 img) as [resp|msg]; cbn; [|discriminate].
    destruct (openai_status resp =? 200)%nat; cbn; [|discriminate].
    destruct (openai_content resp) as [content|msg]; cbn; [|discriminate].
    intros H. injection H as <-. apply strip_idempotent. }
  assert (Hfallback : forall h0 t,
            outcome (generative_fallback cfg w img tt h0) = Ok (Some t) ->
            PyStr.strip t = t).
  { intros h0 t. unfold generative_fallback. unfold bind at 1.
    destruct (VERTEX_GEMINI_OCR_ENABLED cfg).
    - unfold try_except at 1. unfold bind at 1.
      specialize (Hvertex h0). unfold outcome in *.
      destruct (ocr_with_vertex_gemini w img tt h0) as [[[text|msg] []] e1];
        cbn [fst snd] in *.
      + unfold ret at 1. destruct text as [t0|]; cbn [opt_truthy].
        * destruct (PyStr.truthy t0); cbn [fst snd].
          -- unfold ret. cbn. intros H. injection H as <-. apply Hvertex. reflexivity.
          -- destruct (PyStr.truthy (OPENAI_API_KEY cfg)); [|cbn; discriminate].
             unfold try_except.
             match goal with |- context [ocr_with_openai w img tt ?hh] =>
               specialize (Hopenai hh t);
               destruct (ocr_with_openai w img tt hh) as [[[o|m] []] e2] end;
               cbn in *; [exact Hopenai | discriminate].
        * cbn [fst snd].
          destruct (PyStr.truthy (OPENAI_API_KEY cfg)); [|cbn; discriminate].
          unfold try_except.
          match goal with |- context [ocr_with_openai w img tt ?hh] =>
            specialize (Hopenai hh t);
            destruct (ocr_with_openai w img tt hh) as [[[o|m] []] e2] end;
            cbn in *; [exact Hopenai | discriminate].
      + unfold ret at 1. cbn [fst snd].
        destruct (PyStr.truthy (OPENAI_API_KEY cfg)); [|cbn; discriminate].
        unfold try_except.
        match goal with |- context [ocr_with_openai w img tt ?hh] =>
          specialize (Hopenai hh t);
          destruct (ocr_with_openai w img tt hh) as [[[o|m] []] e2] end;
          cbn in *; [exact Hopenai | discriminate].
    - unfold ret at 1. cbn [fst snd].
      destruct (PyStr.truthy (OPENAI_API_KEY cfg)); [|cbn; discriminate].
      unfold try_except.
      match goal with |- context [ocr_with_openai w img tt ?hh] =>
        specialize (Hopenai hh t);
        destruct (ocr_with_openai w img tt hh) as [[[o|m] []] e2] end;
        cbn in *; [exact Hopenai | discriminate]. }
  split.
  - intros t. unfold ocr_image, try_except, bind, call.
    pose proof (generative_fallback_cascade cfg w img (h ++ [EvVision])) as ([v Hv] & _).
    specialize (Hfallback (h ++ [EvVision]) t). unfold outcome in *.
    destruct (text_detection w h img) as [[|d rest]|msg]; cbn.
    + destruct (generative_fallback cfg w img tt (h ++ [EvVision])) as [[r []] e2].
      cbn [fst snd] in *. subst r. cbn. exact Hfallback.
    + intros H. injection H as <-. apply strip_idempotent.
    + destruct (generative_fallback cfg w img tt (h ++ [EvVision])) as [[r []] e2].
      cbn [fst snd] in *. exact Hfallback.
  - intros d rest Hvision. unfold ocr_image, try_except, bind, call.
    rewrite Hvision. reflexivity.
Qed.
End Render.

(** ** The further properties on sample inputs *)

(** X2 on bytes that decode as UTF-8, and on bytes that only decode as
    Latin-1. *)
Lemma extract_txt_first_encoding_wins_witness :
  extract_txt (text_world (Ok "plain text") (Ok "never read")) [] tt []
    = (Ok (txt_result "plain text"), tt, [EvDecode "utf-8"])
  /\ extract_txt (text_world (Raise "invalid start byte") (Ok "plain latin")) [] tt []
    = (Ok (txt_result "plain latin"), tt, [EvDecode "utf-8"; EvDecode "latin-1"]).
Proof.
  split.
  - apply (proj1 (extract_txt_first_encoding_wins
                    (text_world (Ok "plain text") (Ok "never read")) [] [])
             "plain text"); reflexivity.
  - apply (proj1 (proj2 (extract_txt_first_encoding_wins
                           (text_world (Raise "invalid start byte") (Ok "plain latin")) [] []))
             "invalid start byte" "plain latin"); reflexivity.
Defined.

(** X3 on the names [archive.tar.PDF] and [README]. *)
Lemma extension_is_suffix_after_last_dot_witness :
  extension "archive.tar.PDF" = "pdf"
  /\ extension "README" = ""
  /\ detect_file_type "archive.tar.PDF" "" = detect_file_type ".PDF" "".
Proof.
  refine (conj _ (conj _ _)).
  - apply (proj1 extension_is_suffix_after_last_dot "archive.tar" "PDF"). reflexivity.
  - apply (proj1 (proj2 extension_is_suffix_after_last_dot) "README"). reflexivity.
  - apply (proj2 (proj2 (proj2 extension_is_suffix_after_last_dot)) "archive.tar" "PDF" "").
    reflexivity.
Defined.

(** X5 on an upload without a name, of content type application/zip. *)
Lemma undotted_upload_typed_by_content_type_witness :
  extract plain_config offline (Upload [] None (Some "application/zip")) tt []
    = (Ok (ErrorResponse 400 "Unsupported file type: unknown" None), tt, []).
Proof.
  apply (proj2 (undotted_upload_typed_by_content_type plain_config offline []
                  None (Some "application/zip") [] eq_refl)).
  reflexivity.
Defined.

(** X7 on a request without a file, a body that is no JSON object, a
    signed URL that cannot be reached, and a null [fileName]. *)
Lemma extract_without_file_or_download_witness :
  extract plain_config offline NoFile tt []
    = (Ok (ErrorResponse 400 "No file provided" None), tt, [])
  /\ extract plain_config offline (BadJson "'list' object has no attribute 'get'") tt []
    = (Ok (ErrorResponse 500 "'list' object has no attribute 'get'" (Some "0a1b2c3d")),
       tt, [])
  /\ extract plain_config offline
       (Json (JStr "https://storage/file") JMissing JMissing) tt []
    = (Ok (ErrorResponse 500 "connection refused" (Some "0a1b2c3d")), tt, [EvDownload])
  /\ extract plain_config storage_world
       (Json (JStr "https://storage/file") JNull JMissing) tt []
    = (Ok (ErrorResponse 500 "argument of type 'NoneType' is not iterable"
             (Some "0a1b2c3d")), tt, [EvDownload]).
Proof.
  refine (conj _ (conj _ (conj _ _))).
  - apply (proj1 (extract_without_file_or_download plain_config offline NoFile [])).
    left. reflexivity.
  - apply (proj1 (proj2 (extract_without_file_or_download plain_config offline
                           (BadJson "'list' object has no attribute 'get'") []))).
    reflexivity.
  - apply (proj1 (proj2 (proj2 (extract_without_file_or_download plain_config offline
                    (Json (JStr "https://storage/file") JMissing JMissing) [])))
             "https://storage/file" JMissing JMissing "connection refused"); reflexivity.
  - apply (proj2 (proj2 (proj2 (extract_without_file_or_download plain_config
                    storage_world
                    (Json (JStr "https://storage/file") JNull JMissing) [])))
             "https://storage/file" JNull JMissing []); try reflexivity.
    left. reflexivity.
Defined.

(** X8 on the response to an uploaded PDF that Document AI reads. *)
Lemma success_response_mirrors_canonical_witness :
  exists ms canonical metadata,
    outcome (extract structured_config structured_world
               (Upload [] (Some "paper.pdf") None) tt [])
      = Ok (Success "0a1b2c3d" ms canonical metadata)
    /\ Canonical.id canonical = "0a1b2c3d"
    /\ metadata_mirrors canonical metadata
    /\ Canonical.filename canonical = "paper.pdf".
Proof.
  eexists _, _, _. split; [reflexivity|].
  pose proof (success_response_mirrors_canonical structured_config structured_world
                (Upload [] (Some "paper.pdf") None) [] _ _ _ _ eq_refl)
    as (_ & Hid & _ & Hmirror & Hupload).
  refine (conj Hid (conj Hmirror _)).
  exact (proj1 (Hupload [] (Some "paper.pdf") None eq_refl)).
Defined.


(** X16 on an answer of Document AI with one paragraph, and on one with
    a table. *)
Lemma document_ai_result_shape_witness :
  (exists r,
     extract_pdf_with_document_ai structured_world [] tt [] = (Ok r, tt, [EvDocumentAI])
     /\ List.length (Result.text_blocks r) = 1
     /\ Result.tables r = []
     /\ Result.raw_text r = "Hello world")
  /\ (exists msg,
        extract_pdf_with_document_ai table_world [] tt []
        = (Raise msg, tt, [EvDocumentAI])).
Proof.
  split.
  - destruct (proj1 (document_ai_result_shape structured_world [] [] hello_document
                       eq_refl) eq_refl)
      as (r & Hrun & _ & Hraw & _ & _ & Htables & Hlen & _).
    exists r. auto.
  - exact (proj2 (document_ai_result_shape table_world [] [] table_document eq_refl)
             eq_refl).
Defined.

(** X17 on a scan for which Document AI reports no paragraph, and on an
    answer with a table. *)
Lemma paragraph_free_scan_is_final_witness :
  (exists r,
     extract_pdf structured_config scan_world [] tt [] = (Ok r, tt, [EvDocumentAI])
     /\ Result.method r = "document_ai"
     /\ Result.text_blocks r = []
     /\ Result.confidence r = 0.9%float)
  /\ (exists r,
        extract_pdf structured_config table_world [] tt []
        = (Ok r, tt, [EvDocumentAI; EvFitzOpen])
        /\ Result.method r = "unknown").
Proof.
  split.
  - destruct (proj1 (paragraph_free_scan_is_final structured_config scan_world [] []
                       scan_document eq_refl eq_refl) eq_refl eq_refl)
      as (r & Hrun & Hm & Hb & Hc & _).
    exists r. auto.
  - eexists. split.
    + exact (proj2 (paragraph_free_scan_is_final structured_config table_world [] []
                      table_document eq_refl eq_refl) eq_refl).
    + reflexivity.
Defined.

(** X19 on a document with one picture. *)
Lemma docx_blocks_in_three_groups_witness :
  exists r,
    outcome (extract_docx plain_config (picture_world picture) [] tt []) = Ok r
    /\ Result.page_count r = 1
    /\ Result.raw_text r = join_blocks (Result.text_blocks r)
    /\ Result.images r = [PartOcr picture].
Proof.
  eexists. split; [reflexivity|].
  destruct (docx_blocks_in_three_groups plain_config (picture_world picture) [] []
              _ _ eq_refl)
    as (doc & tables & paras & tbls & texts & _ & _ & _ & _ & _ & _ & _ & _ & _ & _ & _
        & Hpc & _ & _ & Hraw).
  refine (conj Hpc (conj Hraw _)). reflexivity.
Defined.

(** X20 on a document with one picture. *)
Lemma docx_one_recognition_per_image_witness :
  exists doc e,
    Document (picture_world picture) [] = Ok doc
    /\ calls (extract_docx plain_config (picture_world picture) [] tt [])
       = EvDocument :: e
    /\ count_vision e = 1.
Proof.
  destruct (docx_one_recognition_per_image plain_config (picture_world picture) [] []
              _ _ eq_refl) as (doc & e & Hdoc & He & Hcount & _).
  exists doc, e. refine (conj Hdoc (conj _ _)).
  - unfold calls. cbn [snd]. exact He.
  - injection Hdoc as <-. exact Hcount.
Defined.

(** X21 on a file that is no DOCX, and on an image whose part cannot be
    read. *)
Lemma extract_docx_reraises_outside_image_loop_witness :
  extract_docx plain_config offline [] tt []
    = (Raise "File is not a zip file", tt, [EvDocument])
  /\ docx_rel plain_config offline broken_rel DocxLocals.init []
     = (Ok tt, DocxLocals.init, []).
Proof.
  split.
  - apply (proj1 (extract_docx_reraises_outside_image_loop plain_config offline [] []
                    "File is not a zip file")). reflexivity.
  - apply (proj2 (proj2 (proj2 (extract_docx_reraises_outside_image_loop plain_config
                                  offline [] [] "image part missing")))); reflexivity.
Defined.

(** X22 on a presentation of one slide with one picture. *)
Lemma pptx_blocks_follow_slides_witness :
  exists r,
    outcome (extract_pptx plain_config (picture_world picture) [] tt []) = Ok r
    /\ Result.page_count r = 1
    /\ Result.images r = slide_ocr_records (Result.text_blocks r)
    /\ Result.images r = [SlideOcr 1 picture].
Proof.
  eexists. split; [reflexivity|].
  destruct (pptx_blocks_follow_slides plain_config (picture_world picture) [] []
              _ _ eq_refl)
    as (slides & _ & _ & _ & _ & Himages & _).
  refine (conj eq_refl (conj Himages _)). reflexivity.
Defined.

(** X23 on a presentation of one slide with one picture, on a linked
    picture, and on a picture whose bytes cannot be read. *)
Lemma extract_pptx_returns_only_if_readable_witness :
  (exists slides,
     Presentation (picture_world picture) [] = Ok slides /\ Forall readable slides)
  /\ outcome (pptx_shape plain_config offline 1 linked_picture PptxLocals.init [])
     = Raise "no embedded image"
  /\ outcome (pptx_shape plain_config offline 1 broken_picture PptxLocals.init [])
     = Ok tt.
Proof.
  refine (conj _ (conj _ _)).
  - exact (proj1 (extract_pptx_returns_only_if_readable plain_config
                    (picture_world picture) [] []) _ _ eq_refl).
  - apply (proj1 (proj2 (proj2 (proj2 (extract_pptx_returns_only_if_readable
                    plain_config offline [] []))))
             1 linked_picture "no embedded image" PptxLocals.init []).
    reflexivity.
  - apply (proj2 (proj2 (proj2 (proj2 (extract_pptx_returns_only_if_readable
                    plain_config offline [] []))))
             1 broken_picture "image part missing" PptxLocals.init []).
    reflexivity.
Defined.

(** X24 on a picture with a caption of 61 characters. *)
Lemma wordy_slide_pictures_are_skipped_witness :
  outcome (pptx_shape plain_config (picture_world picture) 1 wordy_shape
             PptxLocals.init []) = Ok tt
  /\ calls (pptx_shape plain_config (picture_world picture) 1 wordy_shape
              PptxLocals.init []) = []
  /\ PptxLocals.images
       (locals (pptx_shape plain_config (picture_world picture) 1 wordy_shape
                  PptxLocals.init [])) = [].
Proof.
  assert (H : 50 <= String.length
                      (PyStr.join " " (PptxLocals.slide_texts PptxLocals.init
                                       ++ shape_texts wordy_shape))).
  { vm_compute. lia. }
  destruct (wordy_slide_pictures_are_skipped plain_config (picture_world picture) 1
              wordy_shape PptxLocals.init [] H) as (Hout & Hcalls & Himages & _).
  refine (conj Hout (conj Hcalls Himages)).
Defined.

(** X14 on a page 612 points wide, for the width 900. *)
Lemma thumbnail_render_is_clamped_witness :
  _render_page_thumbnail_data_url plain_config blank_page tt []
  = (Ok (Some "data:image/jpeg;base64,AAAA"), tt, [EvThumbnail]).
Proof.
  assert (H : (Z.abs (THUMBNAIL_MAX_WIDTH plain_config) < 2 ^ 63)%Z)
    by (vm_compute; reflexivity).
  exact (proj2 (proj2 (thumbnail_render_is_clamped plain_config blank_page [] H))).
Defined.

(** X25 on a picture that Vision reads with spaces around the text. *)
Lemma recognised_text_is_stripped_witness :
  ocr_image plain_config (picture_world "  two words  ") [] tt []
    = (Ok (Some "two words"), tt, [EvVision])
  /\ PyStr.strip "two words" = "two words".
Proof.
  split.
  - apply (proj2 (recognised_text_is_stripped plain_config
                    (picture_world "  two words  ") [] []) "  two words  " []).
    reflexivity.
  - apply (proj1 (recognised_text_is_stripped plain_config
                    (picture_world "  two words  ") [] []) "two words").
    reflexivity.
Defined.
